(** * StatShot: player resolution, attribute localisation and stat flattening

    A shallow embedding of [src/app.py].  The program is one Streamlit script:
    it asks an image model for a player name, looks the name up in the season
    roster, fetches the player's detail record and season statistics, and
    renders them in the language the user selected, recording the
    identification in Firestore on the way.

    Conventions of the embedding.
    - Python [str] is [string], the UTF-8 encoding of the text; [characters]
      cuts it into the code points Python sees, and [strip] and the
      case-insensitive search work on those.
    - What the interpreter's libraries do ([repr], the [re] engine, the
      storage types of a pandas frame) is a parameter, [Runtime], with the
      facts the program relies on as its laws.
    - Values decoded from JSON are [json]; numbers are the integers the
      directory service sends (ages, weights, counters).
    - Python dictionaries keep insertion order, so they are association
      lists; [dict_get] is [dict.get] with a default.
    - A raised exception is [Raise e]; code under a [try] is written in the
      [result] monad and the handler is a [match].
    - Rendering calls ([st.write], [st.error], ...) and calls that leave the
      process (HTTP requests, Firestore writes) append an [event] to the
      trace of the action; what the outside world answers is read from a
      [world]. *)

From Stdlib Require Import String Ascii List ZArith Bool Arith Lia DecimalString.
Import ListNotations.
Open Scope string_scope.

(** ** Python values *)

#[warnings="-register-all"]
Inductive json : Type :=
| JNull
| JBool (b : bool)
| JInt (n : Z)
| JStr (s : string)
| JArr (items : list json)
| JObj (fields : list (string * json)).

(** [type(v).__name__], as exception messages quote it. *)
Definition type_name (v : json) : string :=
  match v with
  | JNull => "NoneType"
  | JBool _ => "bool"
  | JInt _ => "int"
  | JStr _ => "str"
  | JArr _ => "list"
  | JObj _ => "dict"
  end.

Inductive exn : Type :=
| AttributeError (of_type attribute : string)
| TypeError (of_type what : string)
| IndexError (of_type : string)
| KeyError (key : string)
| ReError.

Inductive result (A : Type) : Type :=
| Ok (a : A)
| Raise (e : exn).
Arguments Ok {A} a.
Arguments Raise {A} e.

Definition bind {A B : Type} (c : result A) (k : A -> result B) : result B :=
  match c with
  | Ok a => k a
  | Raise e => Raise e
  end.

Notation "x <- c ;; k" := (bind c (fun x => k))
  (at level 61, c at next level, right associativity).

(** ** Dictionaries *)

Fixpoint assoc_get {A : Type} (k : string) (d : list (string * A)) : option A :=
  match d with
  | [] => None
  | (k', v) :: d' => if String.eqb k k' then Some v else assoc_get k d'
  end.

(** [d.get(k, default)] on a dictionary. *)
Definition dict_get {A : Type} (k : string) (d : list (string * A)) (default : A) : A :=
  match assoc_get k d with
  | Some v => v
  | None => default
  end.

(** [d[k] = v]: an existing key keeps its place, a new key goes last. *)
Fixpoint dict_set {A : Type} (k : string) (v : A) (d : list (string * A)) : list (string * A) :=
  match d with
  | [] => [(k, v)]
  | (k', v') :: d' =>
      if String.eqb k k' then (k, v) :: d' else (k', v') :: dict_set k v d'
  end.

(** [{f(k): v for k, v in items}]. *)
Definition dict_comprehension {A : Type} (f : string -> string) (items : list (string * A))
  : list (string * A) :=
  fold_left (fun acc kv => dict_set (f (fst kv)) (snd kv) acc) items [].

(** [v.get(k, default)] on a decoded value: only a dictionary has [get]. *)
Definition py_get (v : json) (k : string) (default : json) : result json :=
  match v with
  | JObj fields => Ok (dict_get k fields default)
  | _ => Raise (AttributeError (type_name v) "get")
  end.

(** Truth value of a decoded value, as [if v:] tests it. *)
Definition truthy (v : json) : bool :=
  match v with
  | JNull => false
  | JBool b => b
  | JInt n => negb (Z.eqb n 0)
  | JStr s => negb (String.eqb s "")
  | JArr items => match items with [] => false | _ => true end
  | JObj fields => match fields with [] => false | _ => true end
  end.

Fixpoint chars (s : string) : list json :=
  match s with
  | EmptyString => []
  | String c s' => JStr (String c EmptyString) :: chars s'
  end.

(** [for x in v]: the elements of a list, the characters of a string, the
    keys of a dictionary; anything else is not iterable. *)
Definition py_iter (v : json) : result (list json) :=
  match v with
  | JArr items => Ok items
  | JStr s => Ok (chars s)
  | JObj fields => Ok (map (fun kv => JStr (fst kv)) fields)
  | _ => Raise (TypeError (type_name v) "is not iterable")
  end.

(** [v[0]]. *)
Definition py_first (v : json) : result json :=
  match v with
  | JArr (x :: _) => Ok x
  | JArr [] => Raise (IndexError "list")
  | JStr (String c _) => Ok (JStr (String c EmptyString))
  | JStr EmptyString => Raise (IndexError "string")
  | JObj _ => Raise (KeyError "0")
  | _ => Raise (TypeError (type_name v) "is not subscriptable")
  end.

(** ** Text *)

Definition decimal (n : Z) : string := NilZero.string_of_int (Z.to_int n).

(** A byte that continues a multi-byte character of UTF-8. *)
Definition is_continuation (b : ascii) : bool :=
  let n := nat_of_ascii b in ((128 <=? n) && (n <? 192))%nat.

Definition starts_with_continuation (s : string) : bool :=
  match s with
  | EmptyString => false
  | String b _ => is_continuation b
  end.

(** The characters of a text, as Python indexes them: each byte that
    starts a character, with the continuation bytes that follow it. *)
Fixpoint characters (s : string) : list string :=
  match s with
  | EmptyString => []
  | String b s' =>
      match characters s' with
      | ch :: rest =>
          if starts_with_continuation ch then String b ch :: rest
          else String b EmptyString :: ch :: rest
      | [] => [String b EmptyString]
      end
  end.

(** [''.join(parts)]. *)
Definition join (parts : list string) : string := fold_right append EmptyString parts.

Definition in_range (lo hi n : nat) : bool := ((lo <=? n) && (n <=? hi))%nat.

(** [ch.isspace()], the characters [str.strip()] removes: TAB..CR, FS..US
    and the space; U+0085 and U+00A0; U+1680; U+2000..U+200A, U+2028,
    U+2029, U+202F and U+205F; U+3000. *)
Definition is_space (ch : string) : bool :=
  match map nat_of_ascii (list_ascii_of_string ch) with
  | [n] => in_range 9 13 n || in_range 28 32 n
  | [a; b] => (a =? 194)%nat && ((b =? 133)%nat || (b =? 160)%nat)
  | [a; b; c] =>
      ((a =? 225)%nat && (b =? 154)%nat && (c =? 128)%nat)
      || ((a =? 226)%nat && (b =? 128)%nat &&
          (in_range 128 138 c || (c =? 168)%nat || (c =? 169)%nat || (c =? 175)%nat))
      || ((a =? 226)%nat && (b =? 129)%nat && (c =? 159)%nat)
      || ((a =? 227)%nat && (b =? 128)%nat && (c =? 128)%nat)
  | _ => false
  end.

Fixpoint drop_while {A : Type} (p : A -> bool) (l : list A) : list A :=
  match l with
  | [] => []
  | x :: l' => if p x then drop_while p l' else l
  end.

(** The whitespace at the two ends of a list of characters removed. *)
Definition strip_characters (l : list string) : list string :=
  rev (drop_while is_space (rev (drop_while is_space l))).

(** [s.strip()]: the text without the whitespace characters at its two
    ends. *)
Definition strip (s : string) : string := join (strip_characters (characters s)).

Definition is_upper (c : ascii) : bool :=
  let n := nat_of_ascii c in ((65 <=? n) && (n <=? 90))%nat.

Definition is_lower (c : ascii) : bool :=
  let n := nat_of_ascii c in ((97 <=? n) && (n <=? 122))%nat.

Definition lower (c : ascii) : ascii :=
  if is_upper c then ascii_of_nat (nat_of_ascii c + 32)%nat else c.

Definition upper (c : ascii) : ascii :=
  if is_lower c then ascii_of_nat (nat_of_ascii c - 32)%nat else c.

Fixpoint lower_str (s : string) : string :=
  match s with
  | EmptyString => EmptyString
  | String c s' => String (lower c) (lower_str s')
  end.

(** [s.capitalize()], for the letters of ASCII; the program applies it to
    the group and type labels, which it then never shows. *)
Definition capitalize (s : string) : string :=
  match s with
  | EmptyString => EmptyString
  | String c s' => String (upper c) (lower_str s')
  end.

Definition is_ascii (b : ascii) : bool := (nat_of_ascii b <? 128)%nat.

(** Two characters of ASCII are the same letter up to case. *)
Definition char_eq_ci (a b : ascii) : bool := Ascii.eqb (lower a) (lower b).

Fixpoint prefix_ci (p t : string) : bool :=
  match p, t with
  | EmptyString, _ => true
  | String _ _, EmptyString => false
  | String a p', String b t' => char_eq_ci a b && prefix_ci p' t'
  end.

(** Some occurrence of [p] in [t], letter case ignored, for ASCII text. *)
Fixpoint contains_ci (p t : string) : bool :=
  prefix_ci p t ||
  match t with
  | EmptyString => false
  | String _ t' => contains_ci p t'
  end.

(** Searching a literal text: some run of characters of [t] answers the
    characters of [p] one by one, [matches] telling whether a character of
    the pattern accepts a character of the text. *)
Section Search.
Variable matches : string -> string -> bool.

Fixpoint prefix_by (p t : list string) : bool :=
  match p, t with
  | [], _ => true
  | _ :: _, [] => false
  | a :: p', b :: t' => matches a b && prefix_by p' t'
  end.

Fixpoint contains_by (p t : list string) : bool :=
  prefix_by p t ||
  match t with
  | [] => false
  | _ :: t' => contains_by p t'
  end.

End Search.

(** The characters [re.escape] puts a backslash before. *)
Definition is_special (c : ascii) : bool :=
  existsb (Ascii.eqb c) (list_ascii_of_string "()[]{}?*+-|^$\.&~# ")
  || let n := nat_of_ascii c in ((9 <=? n) && (n <=? 13))%nat.

Fixpoint re_escape (s : string) : string :=
  match s with
  | EmptyString => EmptyString
  | String c s' =>
      if is_special c then String "\" (String c (re_escape s'))
      else String c (re_escape s')
  end.

Definition is_alnum (c : ascii) : bool :=
  let n := nat_of_ascii c in
  is_upper c || is_lower c || ((48 <=? n) && (n <=? 57))%nat.

(** The literal fragment of the pattern language of [re]: a pattern made of
    characters that are no operator and of backslash-escaped characters that
    are neither letters nor digits denotes its own text, escapes removed.
    [None] for a pattern outside the fragment. *)
Fixpoint literal_pattern (p : string) : option string :=
  match p with
  | EmptyString => Some EmptyString
  | String c p' =>
      if Ascii.eqb c "\" then
        match p' with
        | EmptyString => None
        | String c' p'' =>
            if is_alnum c' then None
            else option_map (String c') (literal_pattern p'')
        end
      else if is_special c then None
      else option_map (String c) (literal_pattern p')
  end.

(** Plain occurrence of [p] in [t], as [p in t] on two strings. *)
Fixpoint prefix (p t : string) : bool :=
  match p, t with
  | EmptyString, _ => true
  | String _ _, EmptyString => false
  | String a p', String b t' => Ascii.eqb a b && prefix p' t'
  end.

Fixpoint contains (p t : string) : bool :=
  prefix p t ||
  match t with
  | EmptyString => false
  | String _ t' => contains p t'
  end.

(** ** What the Python runtime supplies

    Library behaviours that the program uses without defining them are
    taken as given, each with the facts about it that the program relies
    on: the text of a container, the regular-expression engine and its
    notion of letter case, and the types in which pandas stores the cells
    of a frame. *)

(** A cell of a frame: the value it was built from, a [float64] (which,
    made from an integer, has an integer value), or the missing value. *)
Inductive cell : Type :=
| Value (v : json)
| Float64 (x : Z)
| NaN.

Definition holds_text (c : cell) : bool :=
  match c with
  | Value (JStr _) => true
  | _ => false
  end.

Class Runtime : Type := {
  (* repr() of a list or a dictionary, for values interpolated in f-strings *)
  repr_container : json -> string;
  (* re.IGNORECASE on one character: does this character of a pattern
     accept that character of a text *)
  matches_ignorecase : string -> string -> bool;
  (* re.compile(pattern, re.IGNORECASE): None when re.error is raised,
     otherwise the test "search finds a match in this text" *)
  re_compile_ignorecase : string -> option (string -> bool);
  (* the cells of a column of pd.DataFrame(list of dictionaries), from
     each record's value for the column, None for a record without it *)
  stored_column : list (option json) -> list cell;
  (* the columns of a frame as pd.melt stacks them, brought to one type *)
  melted_columns : list (list cell) -> list (list cell);
  (* letters of ASCII match up to case, other ASCII characters themselves *)
  matches_ascii : forall a b,
      is_ascii a = true -> is_ascii b = true ->
      matches_ignorecase (String a EmptyString) (String b EmptyString) = char_eq_ci a b;
  (* a pattern of the literal fragment matches exactly where the characters
     of its text are accepted one after the other *)
  re_literal : forall pattern text,
      literal_pattern pattern = Some text ->
      exists matcher,
        re_compile_ignorecase pattern = Some matcher /\
        forall t, matcher t = contains_by matches_ignorecase (characters text) (characters t);
  (* a column has one cell per record *)
  stored_length : forall values, length (stored_column values) = length values;
  (* a column of a single record holds that record's value, whatever it is *)
  stored_alone : forall v, stored_column [Some v] = [Value v];
  (* melting keeps the shape of the frame *)
  melted_shape : forall cols,
      map (@length cell) (melted_columns cols) = map (@length cell) cols;
  (* and, a column holding text, the common type is object: no cell changes *)
  melted_with_text : forall cols,
      existsb (existsb holds_text) cols = true -> melted_columns cols = cols
}.

(** [str(v)], as an f-string interpolates a value. *)
Definition py_str `{Runtime} (v : json) : string :=
  match v with
  | JNull => "None"
  | JBool true => "True"
  | JBool false => "False"
  | JInt n => decimal n
  | JStr s => s
  | JArr _ | JObj _ => repr_container v
  end.

(** ** Messages and events *)

(** A message shown to the user: fixed text, or a prefix followed by the
    text of the exception that was caught. *)
Inductive message : Type :=
| Text (s : string)
| Caught (prefix : string) (e : exn).

(** The prose summary: which of the five templates was chosen and the
    attribute values interpolated in it. *)
Inductive summary : Type :=
| Summary (template : string) (attributes : list (string * json)).

Inductive event : Type :=
| StWrite (text : string)
| StError (m : message)
| StSuccess (text : string)
| StTable (header : string * string) (rows : list (string * json))
| StMarkdown (s : summary)
| StDataframe (header : string * string) (rows : list (string * cell))
| GenerateContent
| RequestsGet (url : string) (params : list (string * string))
| FirestoreAdd (collection : string) (document : list (string * string)).

(** ** External Player Directory Client: the roster *)

(** A record of the roster, as the two fields the program reads: every
    record has its integer [id]; [fullName] is the record's full name, a
    text, and [None] for a record that has no such key. *)
Record roster_entry : Type := { id : Z; fullName : option string }.

Definition has_full_name (entry : roster_entry) : bool :=
  match fullName entry with
  | Some _ => true
  | None => false
  end.

Definition get_all_players_url (season : Z) : string :=
  "https://statsapi.mlb.com/api/v1/sports/1/players?season=2024".

(** ** Player Resolver *)

(** [column.str.contains(pat, case=False, na=False)]: the pattern is
    compiled once, then searched in every cell; a missing cell is [False]. *)
Definition str_contains `{Runtime} (column : list (option string)) (pat : string)
  : result (list bool) :=
  match re_compile_ignorecase pat with
  | None => Raise ReError
  | Some matcher =>
      Ok (map (fun cell => match cell with
                           | Some t => matcher t
                           | None => false
                           end) column)
  end.

(** [df[mask]]: the rows whose mask entry is true, in order. *)
Definition select {A : Type} (rows : list A) (mask : list bool) : list A :=
  map fst (filter snd (combine rows mask)).

(** The four [return] statements of [search_player_by_name]. *)
Inductive search_return : Type :=
| ReturnEmpty
| ReturnNoMatch (player_name : string)
| ReturnId (player_id : Z)
| ReturnError (e : exn).

(** [players_df['fullName']]: the frame has the column when some record
    has the key, and indexing raises [KeyError] when none has. *)
Definition fullName_column (players_df : list roster_entry) : result (list (option string)) :=
  if existsb has_full_name players_df
  then Ok (map fullName players_df)
  else Raise (KeyError "fullName").

Definition search_player_by_name_return `{Runtime}
  (players_df : option (list roster_entry)) (player_name : string) : search_return :=
  match players_df with
  | None => ReturnEmpty
  | Some [] => ReturnEmpty
  | Some rows =>
      let escaped_name := re_escape (strip player_name) in
      match (column <- fullName_column rows ;; str_contains column escaped_name) with
      | Raise e => ReturnError e
      | Ok mask =>
          let player_row := select rows mask in
          match player_row with
          | [] => ReturnNoMatch player_name
          | row :: _ => ReturnId (id row)
          end
      end
  end.

(** The pair [(player_id, error_message)] each [return] builds. *)
Definition returned (r : search_return) : option Z * option message :=
  match r with
  | ReturnEmpty => (None, Some (Text "Players list is empty or unavailable."))
  | ReturnNoMatch player_name =>
      (None, Some (Text ("No player found with the name '" ++ player_name ++ "'.")))
  | ReturnId player_id => (Some player_id, None)
  | ReturnError e => (None, Some (Caught "Error during player search: " e))
  end.

Definition search_player_by_name `{Runtime}
  (players_df : option (list roster_entry)) (player_name : string)
  : option Z * option message :=
  returned (search_player_by_name_return players_df player_name).

(** The resolver's contract: a player identifier or a fault, the fault
    named after the [return] that reports it. *)
Inductive fault : Type := EmptyRoster | NoPlayerMatch | SearchFailed.

Inductive resolution : Type :=
| PlayerId (player_id : Z)
| Fault (f : fault).

Definition resolve `{Runtime}
  (players_df : option (list roster_entry)) (player_name : string) : resolution :=
  match search_player_by_name_return players_df player_name with
  | ReturnEmpty => Fault EmptyRoster
  | ReturnNoMatch _ => Fault NoPlayerMatch
  | ReturnId player_id => PlayerId player_id
  | ReturnError _ => Fault SearchFailed
  end.

(** ** Attribute Localization Table *)

(** The attribute labels in the five display languages. *)
Definition translations : list (string * list (string * string)) :=
  [ ("Full Name", [("English", "Full Name"); ("Spanish", "Nombre Completo"); ("Japanese", "フルネーム"); ("French", "Nom Complet"); ("Chinese", "全名")]);
    ("Primary Position", [("English", "Primary Position"); ("Spanish", "Posición Principal"); ("Japanese", "主なポジション"); ("French", "Position Principale"); ("Chinese", "主要位置")]);
    ("Jersey Number", [("English", "Jersey Number"); ("Spanish", "Número de Camisa"); ("Japanese", "ジャージ番号"); ("French", "Numéro de Maillot"); ("Chinese", "球衣号码")]);
    ("Birth Date", [("English", "Birth Date"); ("Spanish", "Fecha de Nacimiento"); ("Japanese", "生年月日"); ("French", "Date de Naissance"); ("Chinese", "出生日期")]);
    ("Current Age", [("English", "Current Age"); ("Spanish", "Edad Actual"); ("Japanese", "現在の年齢"); ("French", "Âge Actuel"); ("Chinese", "当前年龄")]);
    ("Birthplace", [("English", "Birthplace"); ("Spanish", "Lugar de Nacimiento"); ("Japanese", "出生地"); ("French", "Lieu de Naissance"); ("Chinese", "出生地")]);
    ("Height", [("English", "Height"); ("Spanish", "Altura"); ("Japanese", "身長"); ("French", "Taille"); ("Chinese", "身高")]);
    ("Weight (lbs)", [("English", "Weight (lbs)"); ("Spanish", "Peso (lbs)"); ("Japanese", "体重 (ポンド)"); ("French", "Poids (lbs)"); ("Chinese", "体重 (磅)")]);
    ("Active Player", [("English", "Active Player"); ("Spanish", "Jugador Activo"); ("Japanese", "現役選手"); ("French", "Joueur Actif"); ("Chinese", "现役球员")]);
    ("MLB Debut Date", [("English", "MLB Debut Date"); ("Spanish", "Fecha del Debut en MLB"); ("Japanese", "MLB デビュー日"); ("French", "Date des Débuts en MLB"); ("Chinese", "MLB 首秀日期")]);
    ("Bats", [("English", "Bats"); ("Spanish", "Batea"); ("Japanese", "打撃"); ("French", "Bats"); ("Chinese", "打击")]);
    ("Throws", [("English", "Throws"); ("Spanish", "Lanza"); ("Japanese", "投げる"); ("French", "Lance"); ("Chinese", "投掷")]);
    ("Nickname", [("English", "Nickname"); ("Spanish", "Apodo"); ("Japanese", "ニックネーム"); ("French", "Surnom"); ("Chinese", "昵称")]) ].

(** The stat names; English is the key itself and has no column. *)
Definition translations_stats : list (string * list (string * string)) :=
  [ ("Team", [("Spanish", "Equipo"); ("Japanese", "チーム"); ("French", "Équipe"); ("Chinese", "球队")]);
    ("Player", [("Spanish", "Jugador"); ("Japanese", "選手"); ("French", "Joueur"); ("Chinese", "球员")]);
    ("League", [("Spanish", "Liga"); ("Japanese", "リーグ"); ("French", "Ligue"); ("Chinese", "联赛")]);
    ("Sport", [("Spanish", "Deporte"); ("Japanese", "スポーツ"); ("French", "Sport"); ("Chinese", "体育")]);
    ("Games Played", [("Spanish", "Juegos Jugados"); ("Japanese", "試合数"); ("French", "Matchs joués"); ("Chinese", "比赛场次")]);
    ("Ground Outs", [("Spanish", "Eliminaciones en Tierra"); ("Japanese", "ゴロアウト"); ("French", "Retirés au sol"); ("Chinese", "滚地出局")]);
    ("Air Outs", [("Spanish", "Eliminaciones por Aire"); ("Japanese", "フライアウト"); ("French", "Retirés en l'air"); ("Chinese", "飞球出局")]);
    ("Runs", [("Spanish", "Carreras"); ("Japanese", "得点"); ("French", "Points"); ("Chinese", "得分")]);
    ("Doubles", [("Spanish", "Dobles"); ("Japanese", "二塁打"); ("French", "Doubles"); ("Chinese", "二垒打")]);
    ("Triples", [("Spanish", "Triples"); ("Japanese", "三塁打"); ("French", "Triples"); ("Chinese", "三垒打")]);
    ("Home Runs", [("Spanish", "Jonrones"); ("Japanese", "本塁打"); ("French", "Circuits"); ("Chinese", "本垒打")]);
    ("Strike Outs", [("Spanish", "Ponches"); ("Japanese", "三振"); ("French", "Retirés sur des prises"); ("Chinese", "三振出局")]);
    ("Base On Balls", [("Spanish", "Bases por Bolas"); ("Japanese", "四球"); ("French", "But sur balles"); ("Chinese", "四坏球")]);
    ("Hits", [("Spanish", "Hits"); ("Japanese", "安打"); ("French", "Coups sûrs"); ("Chinese", "安打")]);
    ("At Bats", [("Spanish", "Turnos al Bate"); ("Japanese", "打数"); ("French", "Présences au bâton"); ("Chinese", "打席")]);
    ("Stolen Bases", [("Spanish", "Bases Robadas"); ("Japanese", "盗塁"); ("French", "But volé"); ("Chinese", "盗垒")]);
    ("RBI", [("Spanish", "Carreras Impulsadas"); ("Japanese", "打点"); ("French", "Points produits"); ("Chinese", "打点")]) ].

Definition translate_attribute (attribute_name language : string) : string :=
  dict_get language (dict_get attribute_name translations []) attribute_name.

Definition get_translated_stat (stat_name selected_lang : string) : string :=
  dict_get selected_lang (dict_get stat_name translations_stats []) stat_name.

(** ** Player Summary Formatter *)

(** The dictionary literal [key_attributes]; its values are evaluated in
    the order written, so the first failing [.get] decides the exception. *)
Definition key_attributes `{Runtime} (player_info : json) : result (list (string * json)) :=
  full_name <- py_get player_info "fullName" (JStr "N/A") ;;
  primary_position <-
    (p <- py_get player_info "primaryPosition" (JObj []) ;; py_get p "name" (JStr "N/A")) ;;
  jersey_number <- py_get player_info "primaryNumber" (JStr "N/A") ;;
  birth_date <- py_get player_info "birthDate" (JStr "N/A") ;;
  current_age <- py_get player_info "currentAge" (JStr "N/A") ;;
  birth_city <- py_get player_info "birthCity" (JStr "N/A") ;;
  birth_state <- py_get player_info "birthStateProvince" (JStr "N/A") ;;
  birth_country <- py_get player_info "birthCountry" (JStr "N/A") ;;
  height <- py_get player_info "height" (JStr "N/A") ;;
  weight <- py_get player_info "weight" (JStr "N/A") ;;
  active <- py_get player_info "active" JNull ;;
  mlb_debut_date <- py_get player_info "mlbDebutDate" (JStr "N/A") ;;
  bats <-
    (b <- py_get player_info "batSide" (JObj []) ;; py_get b "description" (JStr "N/A")) ;;
  throws <-
    (t <- py_get player_info "pitchHand" (JObj []) ;; py_get t "description" (JStr "N/A")) ;;
  nickname <- py_get player_info "nickName" (JStr "N/A") ;;
  Ok [ ("Full Name", full_name);
       ("Primary Position", primary_position);
       ("Jersey Number", jersey_number);
       ("Birth Date", birth_date);
       ("Current Age", current_age);
       ("Birthplace",
        JStr (py_str birth_city ++ ", " ++ py_str birth_state ++ ", " ++ py_str birth_country));
       ("Height", height);
       ("Weight (lbs)", weight);
       ("Active Player", JStr (if truthy active then "Yes" else "No"));
       ("MLB Debut Date", mlb_debut_date);
       ("Bats", bats);
       ("Throws", throws);
       ("Nickname", nickname) ].

Definition translated_attributes (language : string) (attributes : list (string * json))
  : list (string * json) :=
  dict_comprehension (fun k => translate_attribute k language) attributes.

(** The rows of [details_df], under the columns Attribute and Value. *)
Definition details_df `{Runtime} (player_info : json) (language : string)
  : result (list (string * json)) :=
  attributes <- key_attributes player_info ;;
  Ok (translated_attributes language attributes).

(** The branch of the [if]/[elif] chain that writes the summary. *)
Definition summary_template (language : string) : string :=
  if language =? "Spanish" then "Spanish"
  else if language =? "Japanese" then "Japanese"
  else if language =? "French" then "French"
  else if language =? "Chinese" then "Chinese"
  else "English".

(** ** Stat Flattening Pipeline *)

Definition flattened_split (split : json) : result (list (string * json)) :=
  team <- (t <- py_get split "team" (JObj []) ;; py_get t "name" (JStr "N/A")) ;;
  player <- (p <- py_get split "player" (JObj []) ;; py_get p "fullName" (JStr "N/A")) ;;
  games_played <- (s <- py_get split "stat" (JObj []) ;; py_get s "gamesPlayed" (JStr "N/A")) ;;
  runs <- (s <- py_get split "stat" (JObj []) ;; py_get s "runs" (JStr "N/A")) ;;
  hits <- (s <- py_get split "stat" (JObj []) ;; py_get s "hits" (JStr "N/A")) ;;
  home_runs <- (s <- py_get split "stat" (JObj []) ;; py_get s "homeRuns" (JStr "N/A")) ;;
  stolen_bases <- (s <- py_get split "stat" (JObj []) ;; py_get s "stolenBases" (JStr "N/A")) ;;
  rbi <- (s <- py_get split "stat" (JObj []) ;; py_get s "rbi" (JStr "N/A")) ;;
  Ok [ ("Team", team);
       ("Player", player);
       ("Games Played", games_played);
       ("Runs", runs);
       ("Hits", hits);
       ("Home Runs", home_runs);
       ("Stolen Bases", stolen_bases);
       ("RBI", rbi) ].

(** A frame: its columns in order, each with its cells, one per row. *)
Definition DataFrame : Type := list (string * list cell).

Definition columns (df : DataFrame) : list string := map fst df.

Definition add_columns (cols : list string) (record : list (string * json)) : list string :=
  fold_left (fun cs k => if existsb (String.eqb k) cs then cs else (cs ++ [k])%list)
            (map fst record) cols.

(** [pd.DataFrame(data)] on a list of dictionaries: the columns are the
    keys in order of first appearance, and each column is stored from the
    records' values for it, in the type pandas infers for them. *)
Definition pd_DataFrame `{Runtime} (data : list (list (string * json))) : DataFrame :=
  map (fun c => (c, stored_column (map (assoc_get c) data)))
      (fold_left add_columns data []).

Definition drop (column : string) (df : DataFrame) : DataFrame :=
  filter (fun col => negb (String.eqb (fst col) column)) df.

(** [df.empty]: no column or no row. *)
Definition empty (df : DataFrame) : bool :=
  match df with
  | [] => true
  | (_, []) :: _ => true
  | _ => false
  end.

(** [pd.melt(df, var_name="Stat", value_name="Value")]: the columns are
    brought to their common type and stacked, column after column, the
    column's name beside each of its cells. *)
Definition melt `{Runtime} (df : DataFrame) : list (string * cell) :=
  flat_map (fun col => map (fun value => (fst col, value)) (snd col))
           (combine (columns df) (melted_columns (map snd df))).

(** The table shown for the splits gathered so far: [Player] dropped, the
    frame melted, stat names and the two headers translated. *)
Definition stats_df_two_columns `{Runtime} (language : string) (stats_df : DataFrame)
  : (string * string) * list (string * cell) :=
  ((get_translated_stat "Stat" language, get_translated_stat "Value" language),
   map (fun row => (get_translated_stat (fst row) language, snd row)) (melt stats_df)).

Definition no_data_available : string := "No data available for this group.".

(** ** Actions: a trace of events and how the run of the code ended *)

Inductive outcome (A : Type) : Type :=
| Done (a : A)
| Raised (e : exn)
| Stopped.
Arguments Done {A} a.
Arguments Raised {A} e.
Arguments Stopped {A}.

Definition action (A : Type) : Type := (list event * outcome A)%type.

Definition ret {A : Type} (a : A) : action A := ([], Done a).

Definition emit (e : event) : action unit := ([e], Done tt).

(** [st.stop()] ends the script run; it is not an [Exception]. *)
Definition st_stop {A : Type} : action A := ([], Stopped).

Definition lift {A : Type} (r : result A) : action A :=
  match r with
  | Ok a => ([], Done a)
  | Raise e => ([], Raised e)
  end.

Definition and_then {A B : Type} (c : action A) (k : A -> action B) : action B :=
  match c with
  | (evs, Done a) => let (evs', o) := k a in ((evs ++ evs')%list, o)
  | (evs, Raised e) => (evs, Raised e)
  | (evs, Stopped) => (evs, Stopped)
  end.

Notation "x <~ c ;; k" := (and_then c (fun x => k))
  (at level 61, c at next level, right associativity).
Notation "c ;;; k" := (and_then c (fun _ => k))
  (at level 61, right associativity).

(** [try: body / except Exception as e: handler(e)]. *)
Definition try_except {A : Type} (body : action A) (handler : exn -> action A) : action A :=
  match body with
  | (evs, Raised e) => let (evs', o) := handler e in ((evs ++ evs')%list, o)
  | other => other
  end.

Definition trace {A : Type} (c : action A) : list event := fst c.

(** [d[k]] on a dictionary. *)
Definition dict_item {A : Type} (k : string) (d : list (string * A)) : result A :=
  match assoc_get k d with
  | Some v => Ok v
  | None => Raise (KeyError k)
  end.

(** [for x in xs: body(x)]. *)
Fixpoint for_each {A : Type} (xs : list A) (body : A -> action unit) : action unit :=
  match xs with
  | [] => ret tt
  | x :: xs' => body x ;;; for_each xs' body
  end.

(** The body of [for split in stats_splits], with [cleaned_data] as it
    stands when the iteration starts.  The frame is rebuilt and shown inside
    the loop, once per split, from all the splits flattened so far. *)
Fixpoint render_splits `{Runtime} (language : string)
  (cleaned_data : list (list (string * json))) (stats_splits : list json) : action unit :=
  match stats_splits with
  | [] => ret tt
  | split :: rest =>
      flattened <~ lift (flattened_split split) ;;
      let cleaned_data := (cleaned_data ++ [flattened])%list in
      let stats_df := pd_DataFrame cleaned_data in
      let stats_df :=
        if existsb (String.eqb "Player") (columns stats_df)
        then drop "Player" stats_df
        else stats_df in
      (if negb (empty stats_df)
       then emit (StDataframe (fst (stats_df_two_columns language stats_df))
                              (snd (stats_df_two_columns language stats_df)))
       else emit (StWrite no_data_available)) ;;;
      render_splits language cleaned_data rest
  end.

(** The body of [for stat_group in player_stats]. *)
Definition render_group `{Runtime} (language : string) (attributes : list (string * json))
  (season : Z) (stat_group : json) : action unit :=
  group <~ lift (py_get stat_group "group" (JStr "N/A")) ;;
  let group_name := capitalize (py_str group) in
  type_label <~ lift (py_get stat_group "type" (JStr "N/A")) ;;
  let stats_type := capitalize (py_str type_label) in
  full_name <~ lift (dict_item "Full Name" attributes) ;;
  emit (StWrite ("**" ++ py_str full_name ++ "** - " ++ decimal season ++ " Season Stats:")) ;;;
  stats_splits <~ lift (py_get stat_group "splits" (JArr [])) ;;
  if truthy stats_splits
  then splits <~ lift (py_iter stats_splits) ;; render_splits language [] splits
  else ret tt.

(** [if player_stats: for stat_group in player_stats: ...]. *)
Definition render_stats `{Runtime} (language : string) (attributes : list (string * json))
  (season : Z) (player_stats : option json) : action unit :=
  match player_stats with
  | None => ret tt
  | Some stats =>
      if truthy stats
      then groups <~ lift (py_iter stats) ;;
           for_each groups (render_group language attributes season)
      else ret tt
  end.

(** ** The outside world *)

Inductive http_response : Type :=
| RequestFailed (text : string)
| Response (status_code : Z) (body : string + json).

(** What the collaborators answer during one action.  A left injection is
    the text of the exception the call raised. *)
Record world : Type := {
  (* model.generate_content(...).text *)
  generate_content : string + string;
  (* db.collection('users').add(document): None when the document is stored *)
  users_add : list (string * string) -> option string;
  (* GET url, raise_for_status, json.loads, json_normalize of data['people'] *)
  people_frame : string -> string + list roster_entry;
  (* GET url, raise_for_status, json.loads *)
  get_json : string -> string + json;
  (* GET url with query parameters *)
  get_stats : string -> list (string * string) -> http_response
}.

Definition process_endpoint_url (w : world) (endpoint_url : string)
  : action (option (list roster_entry)) :=
  emit (RequestsGet endpoint_url []) ;;;
  match people_frame w endpoint_url with
  | inr df_result => ret (Some df_result)
  | inl e =>
      emit (StError (Text ("Error processing endpoint: " ++ e))) ;;; ret None
  end.

Definition get_all_players (w : world) (season : Z) : action (option (list roster_entry)) :=
  process_endpoint_url w (get_all_players_url season).

(** [str(player_id)] for the value [search_player_by_name] returned. *)
Definition id_text (player_id : option Z) : string :=
  match player_id with
  | Some n => decimal n
  | None => "None"
  end.

Definition get_player_details (w : world) (player_id : option Z) : action (option json) :=
  let url := "https://statsapi.mlb.com/api/v1/people/" ++ id_text player_id ++ "/" in
  emit (RequestsGet url []) ;;;
  match get_json w url with
  | inr data => ret (Some data)
  | inl e =>
      emit (StError (Text ("Error fetching player details: " ++ e))) ;;; ret None
  end.

Definition get_player_name_from_image (w : world) : action (option string) :=
  emit GenerateContent ;;;
  match generate_content w with
  | inr text => ret (Some (strip text))
  | inl e =>
      emit (StError (Text ("Error generating Gemini response: " ++ e))) ;;; ret None
  end.

Definition save_user_data (w : world) (email player_name language : string) : action unit :=
  let document :=
    [("email", email); ("player_name", player_name); ("language", language)] in
  match users_add w document with
  | None =>
      emit (FirestoreAdd "users" document) ;;;
      emit (StSuccess ("Data saved for " ++ player_name ++ "."))
  | Some e => emit (StError (Text ("Error saving user data: " ++ e)))
  end.

Definition stats_params (season : Z) : list (string * string) :=
  [ ("season", decimal season);
    ("hydrate", "stats(group=[hitting],type=season,season=" ++ decimal season ++ ")") ].

Definition unexpected_stats_error : string :=
  "An unexpected error occurred while fetching player stats: ".

Definition get_player_stats (w : world) (player_id : option Z) (season : Z)
  : action (option json) :=
  let url := "https://statsapi.mlb.com/api/v1/people/" ++ id_text player_id in
  emit (RequestsGet url (stats_params season)) ;;;
  match get_stats w url (stats_params season) with
  | RequestFailed e => emit (StError (Text (unexpected_stats_error ++ e))) ;;; ret None
  | Response status_code body =>
      if Z.eqb status_code 200 then
        match body with
        | inl e => emit (StError (Text (unexpected_stats_error ++ e))) ;;; ret None
        | inr data =>
            match (people <- py_get data "people" (JArr [JObj []]) ;;
                   person <- py_first people ;;
                   py_get person "stats" (JArr [])) with
            | Ok stats => ret (Some stats)
            | Raise e => emit (StError (Caught unexpected_stats_error e)) ;;; ret None
            end
        end
      else
        emit (StError (Text ("Error fetching stats: " ++ decimal status_code))) ;;; ret None
  end.

(** ["people" in v]. *)
Definition py_contains (v : json) (key : string) : result bool :=
  match v with
  | JObj fields => Ok (existsb (fun kv => String.eqb (fst kv) key) fields)
  | JArr items =>
      Ok (existsb (fun x => match x with JStr s => String.eqb s key | _ => false end) items)
  | JStr s => Ok (contains key s)
  | _ => Raise (TypeError (type_name v) "is not iterable")
  end.

(** [v["people"]]. *)
Definition py_item (v : json) (key : string) : result json :=
  match v with
  | JObj fields => dict_item key fields
  | JArr _ | JStr _ => Raise (TypeError (type_name v) "indices must be integers")
  | _ => Raise (TypeError (type_name v) "is not subscriptable")
  end.

(** ** The Analyze action *)

(** The block under [if player_details and "people" in player_details]. *)
Definition render_player `{Runtime} (w : world) (language : string) (player_id : option Z)
  (season : Z) (player_details : json) : action unit :=
  people <~ lift (py_item player_details "people") ;;
  player_info <~ lift (py_first people) ;;
  attributes <~ lift (key_attributes player_info) ;;
  emit (StTable ("Attribute", "Value") (translated_attributes language attributes)) ;;;
  emit (StMarkdown (Summary (summary_template language) attributes)) ;;;
  player_stats <~ get_player_stats w player_id season ;;
  render_stats language attributes season player_stats.

(** The statements that follow [save_user_data]: roster fetch, resolution,
    detail fetch and rendering. *)
Definition lookup_and_render `{Runtime} (w : world) (language name : string) : action unit :=
  let season := 2024%Z in
  players_df <~ get_all_players w season ;;
  match players_df with
  | None | Some [] =>
      emit (StError (Text "Could not fetch players for the 2024 season.")) ;;; st_stop
  | Some _ =>
      let (player_id, error_message) := search_player_by_name players_df name in
      match error_message with
      | Some m => emit (StError m) ;;; st_stop
      | None =>
          player_details <~ get_player_details w player_id ;;
          match player_details with
          | None => ret tt
          | Some details =>
              if truthy details then
                has_people <~ lift (py_contains details "people") ;;
                if has_people : bool
                then render_player w language player_id season details
                else ret tt
              else ret tt
          end
      end
  end.

(** The body of the [try] of the Analyze button, in statement order. *)
Definition analysis `{Runtime} (w : world) (email language : string) : action unit :=
  gemini_response <~ get_player_name_from_image w ;;
  emit (StWrite ("Extracted Player Name: " ++
                 match gemini_response with Some s => s | None => "None" end)) ;;;
  match gemini_response with
  | None =>
      emit (StError (Text "Could not extract player name from the image.")) ;;; st_stop
  | Some name =>
      if String.eqb name "" then
        emit (StError (Text "Could not extract player name from the image.")) ;;; st_stop
      else
        save_user_data w email name language ;;;
        lookup_and_render w language name
  end.

(** What pressing Analyze shows and does, an image being uploaded. *)
Definition analyze `{Runtime} (w : world) (email language : string) : list event :=
  if String.eqb email "" then
    [StError (Text "Please enter your email before analyzing the image.")]
  else
    trace (try_except (analysis w email language)
                      (fun e => emit (StError (Caught "Error during analysis: " e)))).

(** The identification documents a trace has stored. *)
Definition identification_writes (events : list event) : list (list (string * string)) :=
  flat_map (fun e => match e with
                     | FirestoreAdd "users" document => [document]
                     | _ => []
                     end) events.

(** ** Vocabulary of the specification *)

(** The containment test of section 4.2 on one roster entry: the query
    occurs in the entry's full name, letter case ignored as the engine
    ignores it. *)
Definition name_matches `{Runtime} (query : string) (entry : roster_entry) : bool :=
  match fullName entry with
  | Some full_name =>
      contains_by matches_ignorecase (characters query) (characters full_name)
  | None => false
  end.

(** [t] holds an occurrence of [p] up to letter case: a run of characters
    of [t] that the characters of [p] accept one by one. *)
Definition occurs_ci `{Runtime} (p t : string) : Prop :=
  exists before middle after,
    characters t = (before ++ middle ++ after)%list /\
    Forall2 (fun a b => matches_ignorecase a b = true) (characters p) middle.

(** Reading a two-column table: the cell beside the first row named [stat]. *)
Definition read_value (stat : string) (rows : list (string * cell)) : option cell :=
  assoc_get stat rows.

(** A text made of whitespace characters only. *)
Definition blank (s : string) : Prop := forallb is_space (characters s) = true.

(** A text that does not begin in the middle of a character. *)
Definition starts_character (s : string) : Prop := starts_with_continuation s = false.

(** The character at either end of a text is no whitespace. *)
Definition trimmed (s : string) : Prop :=
  match characters s with
  | [] => True
  | first :: _ => is_space first = false
  end /\
  match rev (characters s) with
  | [] => True
  | last :: _ => is_space last = false
  end.

(** A text of ASCII characters. *)
Definition ascii_text (s : string) : bool := forallb is_ascii (list_ascii_of_string s).

(** A byte followed by continuation bytes only. *)
Definition whole (ch : string) : bool :=
  match ch with
  | EmptyString => false
  | String _ t => forallb is_continuation (list_ascii_of_string t)
  end.

(** A list of characters as [characters] cuts a text: every item is whole
    and every item but the first starts a character. *)
Definition well_cut (l : list string) : Prop :=
  Forall (fun ch => whole ch = true) l /\
  Forall (fun ch => starts_with_continuation ch = false) (tl l).

(** The keys of a flattened split, in the order of the dictionary literal. *)
Definition split_columns : list string :=
  ["Team"; "Player"; "Games Played"; "Runs"; "Hits"; "Home Runs"; "Stolen Bases"; "RBI"].

(** The field [inner] of the object [outer] is a text where it is present. *)
Definition text_or_absent (outer inner : string) (fields : list (string * json)) : Prop :=
  match assoc_get outer fields with
  | Some (JObj o) =>
      match assoc_get inner o with
      | None | Some (JStr _) => True
      | Some _ => False
      end
  | _ => True
  end.

(** A field that is an object where it is present, as
    [split.get(k, {}).get(...)] needs it. *)
Definition object_or_absent (k : string) (fields : list (string * json)) : Prop :=
  match assoc_get k fields with
  | None | Some (JObj _) => True
  | Some _ => False
  end.

(** An event that stores nothing. *)
Definition no_write (e : event) : Prop :=
  forall collection document, e <> FirestoreAdd collection document.

(** ** A runtime to run the definitions with

    A list or dictionary prints as an ellipsis.  Letter case is ignored as
    [re] ignores it for a pattern of Latin-1 characters; the engine
    compiles the literal fragment and rejects every other pattern.  A
    column of integers with a missing value among them is stored as
    [float64], any other column as the values it was given; a frame whose
    columns all hold numbers, one of them as [float64], is melted to
    [float64], any other frame as it is.  Integers are taken to fit the
    64-bit integer type. *)

Definition text_of (codes : list nat) : string :=
  string_of_list_ascii (map ascii_of_nat codes).

(** The character that stands for all those a character of Latin-1
    accepts: the lower case of A..Z and of U+00C0..U+00DE (U+00D7 apart),
    and, for the characters outside Latin-1 that a character of Latin-1
    accepts, that character: i for U+0130 and U+0131, s for U+017F, k for
    U+212A, U+00B5 for U+039C and U+03BC, U+00E5 for U+212B, U+00DF for
    U+1E9E and U+00FF for U+0178. *)
Definition lower_character (ch : string) : string :=
  match ch with
  | String a EmptyString => String (lower a) EmptyString
  | _ =>
      match map nat_of_ascii (list_ascii_of_string ch) with
      | [a; b] =>
          if (a =? 195)%nat && in_range 128 158 b && negb (b =? 151)%nat
          then text_of [195; b + 32]%nat
          else if (a =? 196)%nat && ((b =? 176)%nat || (b =? 177)%nat) then "i"
          else if (a =? 197)%nat && (b =? 191)%nat then "s"
          else if (a =? 197)%nat && (b =? 184)%nat then text_of [195; 191]%nat
          else if (a =? 206)%nat && ((b =? 156)%nat || (b =? 188)%nat)
               then text_of [194; 181]%nat
          else ch
      | [a; b; c] =>
          if (a =? 226)%nat && (b =? 132)%nat && (c =? 170)%nat then "k"
          else if (a =? 226)%nat && (b =? 132)%nat && (c =? 171)%nat
               then text_of [195; 165]%nat
          else if (a =? 225)%nat && (b =? 186)%nat && (c =? 158)%nat
               then text_of [195; 159]%nat
          else ch
      | _ => ch
      end
  end.

Definition reference_matches (a b : string) : bool :=
  String.eqb (lower_character a) (lower_character b).

Definition literal_engine (pattern : string) : option (string -> bool) :=
  option_map (fun text t => contains_by reference_matches (characters text) (characters t))
             (literal_pattern pattern).

(** The [float64] nearest to an integer, ties going to the even one. *)
Definition float64_of_int (n : Z) : Z :=
  let a := Z.abs n in
  if (a <? 2 ^ 53)%Z then n
  else
    let e := (Z.log2 a - 52)%Z in
    let q := Z.shiftr a e in
    let r := (a - Z.shiftl q e)%Z in
    let half := Z.shiftl 1 (e - 1) in
    let q := if (half <? r)%Z || ((r =? half)%Z && Z.odd q) then (q + 1)%Z else q in
    (Z.sgn n * Z.shiftl q e)%Z.

Definition is_int (v : option json) : bool :=
  match v with
  | Some (JInt _) => true
  | _ => false
  end.

Definition is_missing (v : option json) : bool :=
  match v with
  | None | Some JNull => true
  | _ => false
  end.

Definition reference_stored_column (values : list (option json)) : list cell :=
  if forallb (fun v => is_int v || is_missing v) values
     && existsb is_int values && existsb is_missing values
  then map (fun v => match v with
                     | Some (JInt n) => Float64 (float64_of_int n)
                     | _ => NaN
                     end) values
  else map (fun v => match v with
                     | Some v => Value v
                     | None => NaN
                     end) values.

Definition is_number (c : cell) : bool :=
  match c with
  | Value (JInt _) | Float64 _ | NaN => true
  | _ => false
  end.

Definition is_float (c : cell) : bool :=
  match c with
  | Float64 _ | NaN => true
  | _ => false
  end.

Definition reference_melted_columns (cols : list (list cell)) : list (list cell) :=
  if forallb (forallb is_number) cols && existsb (existsb is_float) cols
  then map (map (fun c => match c with
                          | Value (JInt n) => Float64 (float64_of_int n)
                          | other => other
                          end)) cols
  else cols.

Definition reference_runtime : Runtime.
Proof.
  refine {| repr_container := fun _ => "...";
            matches_ignorecase := reference_matches;
            re_compile_ignorecase := literal_engine;
            stored_column := reference_stored_column;
            melted_columns := reference_melted_columns |}.
  - intros a b _ _. unfold reference_matches. cbn. apply andb_true_r.
  - intros pattern text Hliteral. unfold literal_engine. rewrite Hliteral.
    eexists. split; reflexivity.
  - intros values. unfold reference_stored_column.
    destruct (_ && _); apply length_map.
  - intros [| | | | |]; reflexivity.
  - intros cols. unfold reference_melted_columns.
    destruct (_ && _); [|reflexivity].
    rewrite map_map. apply map_ext. intros col. apply length_map.
  - intros cols Htext. unfold reference_melted_columns.
    assert (Hnumbers : forallb (forallb is_number) cols = false).
    { induction cols as [|col cols IH]; [discriminate Htext|].
      cbn [existsb forallb] in *. apply orb_true_iff in Htext.
      destruct Htext as [Hcol|Hcols]; [|rewrite (IH Hcols); apply andb_false_r].
      assert (Hnumber : forallb is_number col = false).
      { clear IH. induction col as [|c col IHcol]; [discriminate Hcol|].
        cbn [existsb forallb] in *. apply orb_true_iff in Hcol.
        destruct Hcol as [Hc|Hcol]; [|rewrite (IHcol Hcol); apply andb_false_r].
        destruct c as [[]| |]; try discriminate Hc. reflexivity. }
      rewrite Hnumber. reflexivity. }
    rewrite Hnumbers. reflexivity.
Defined.

(** The scenarios of section 8. *)

Definition judge_roster : list roster_entry :=
  [ {| id := 1; fullName := Some "Aaron Judge" |} ].

(** U+00A0, the no-break space. *)
Definition no_break_space : string :=
  String (ascii_of_nat 194) (String (ascii_of_nat 160) EmptyString).

(** A roster with a name outside ASCII. *)
Definition ramirez_roster : list roster_entry :=
  [ {| id := 9; fullName := Some "Aaron Judge" |};
    {| id := 10; fullName := Some "José Ramírez" |} ].

(** A roster whose first name is written with a long s, U+017F. *)
Definition bell_roster : list roster_entry :=
  [ {| id := 11; fullName := Some "Joſh Bell" |};
    {| id := 12; fullName := Some "Josh Bell" |} ].

(** A roster whose records have no [fullName]. *)
Definition nameless_roster : list roster_entry :=
  [ {| id := 7; fullName := None |}; {| id := 8; fullName := None |} ].

Definition empty_hitting_group : json :=
  JObj [ ("group", JStr "hitting"); ("type", JStr "season"); ("splits", JArr []) ].

Definition sample_stat : list (string * json) :=
  [ ("gamesPlayed", JInt 158); ("runs", JInt 122); ("hits", JInt 180);
    ("homeRuns", JInt 58); ("stolenBases", JInt 10); ("rbi", JInt 144) ].

Definition sample_split_fields : list (string * json) :=
  [ ("team", JObj [("name", JStr "New York Yankees")]);
    ("player", JObj [("fullName", JStr "Aaron Judge")]);
    ("stat", JObj sample_stat) ].

Definition sample_split : json := JObj sample_split_fields.

(** A world in which recognition and the store work and the directory
    service is down. *)
Definition directory_down : world :=
  {| generate_content := inr "Aaron Judge";
     users_add := fun _ => None;
     people_frame := fun _ => inl "503 Server Error";
     get_json := fun _ => inl "503 Server Error";
     get_stats := fun _ _ => RequestFailed "503 Server Error" |}.

(** The same world, the image model ending its answer with a no-break
    space. *)
Definition padded_answer : world :=
  {| generate_content := inr ("Aaron Judge" ++ no_break_space);
     users_add := fun _ => None;
     people_frame := fun _ => inl "503 Server Error";
     get_json := fun _ => inl "503 Server Error";
     get_stats := fun _ _ => RequestFailed "503 Server Error" |}.

(** And answering with a no-break space only. *)
Definition blank_answer : world :=
  {| generate_content := inr no_break_space;
     users_add := fun _ => None;
     people_frame := fun _ => inr judge_roster;
     get_json := fun _ => inl "503 Server Error";
     get_stats := fun _ _ => RequestFailed "503 Server Error" |}.

(** ** Language selector *)

(** The choices of the language drop-down and the language each stands for. *)
Definition language_options : list (string * string) :=
  [ ("English 🇺🇸", "English");
    ("Spanish 🇪🇸", "Spanish");
    ("Japanese 🇯🇵", "Japanese");
    ("French 🇫🇷", "French");
    ("Chinese 🇨🇳", "Chinese") ].

(** The keys of [key_attributes], in the order of the dictionary literal. *)
Definition attribute_keys : list string :=
  [ "Full Name"; "Primary Position"; "Jersey Number"; "Birth Date"; "Current Age";
    "Birthplace"; "Height"; "Weight (lbs)"; "Active Player"; "MLB Debut Date"; "Bats";
    "Throws"; "Nickname" ].

(** The columns of the table shown for a split: all but [Player]. *)
Definition shown_columns : list string :=
  ["Team"; "Games Played"; "Runs"; "Hits"; "Home Runs"; "Stolen Bases"; "RBI"].

(** ** Prose summary *)

Definition double_quote : string := String (ascii_of_nat 34) EmptyString.

(** A piece of a summary f-string: literal text, an interpolated
    [key_attributes[key]], or the conditional expression
    [yes if key_attributes['Active Player'] == "Yes" else no]. *)
Inductive chunk : Type :=
| Lit (text : string)
| Attribute (key : string)
| ActivePhrase (yes no : string).

(** The Spanish template. *)
Definition summary_spanish : list chunk :=
  [ Lit "
                        **";
    Attribute "Full Name";
    Lit "**, conocido como ";
    Lit double_quote;
    Attribute "Nickname";
    Lit double_quote;
    Lit ", es un ";
    Attribute "Primary Position";
    Lit " 
                        que usa el número de camiseta **";
    Attribute "Jersey Number";
    Lit "**. Nació el **";
    Attribute "Birth Date";
    Lit "** en 
                        **";
    Attribute "Birthplace";
    Lit "**, y actualmente tiene **";
    Attribute "Current Age";
    Lit " años**.
                    
                        Mide **";
    Attribute "Height";
    Lit "** y pesa **";
    Attribute "Weight (lbs)";
    Lit " lbs**, batea como **";
    Attribute "Bats";
    Lit "** 
                        y lanza como **";
    Attribute "Throws";
    Lit "**. Este jugador hizo su debut en MLB el **";
    Attribute "MLB Debut Date";
    Lit "** 
                        y actualmente está **activo** en la liga.
                        " ].

(** The Japanese template. *)
Definition summary_japanese : list chunk :=
  [ Lit "
                        **";
    Attribute "Full Name";
    Lit "**、ニックネームは";
    Lit double_quote;
    Attribute "Nickname";
    Lit double_quote;
    Lit "、ポジションは";
    Attribute "Primary Position";
    Lit "で 
                        背番号は**";
    Attribute "Jersey Number";
    Lit "**です。**";
    Attribute "Birth Date";
    Lit "**に生まれ、 
                        **";
    Attribute "Birthplace";
    Lit "**出身で、現在の年齢は**";
    Attribute "Current Age";
    Lit "歳**です。
                    
                        身長は**";
    Attribute "Height";
    Lit "**、体重は**";
    Attribute "Weight (lbs)";
    Lit " lbs**、打席は**";
    Attribute "Bats";
    Lit "** 
                        、投げる手は**";
    Attribute "Throws";
    Lit "**です。この選手は**";
    Attribute "MLB Debut Date";
    Lit "**にメジャーデビューし、現在 
                        ";
    ActivePhrase "現役" "引退";
    Lit "しています。
                        " ].

(** The French template. *)
Definition summary_french : list chunk :=
  [ Lit "
                        **";
    Attribute "Full Name";
    Lit "**, surnommé ";
    Lit double_quote;
    Attribute "Nickname";
    Lit double_quote;
    Lit ", est un joueur de ";
    Attribute "Primary Position";
    Lit " 
                        avec le numéro de maillot **";
    Attribute "Jersey Number";
    Lit "**. Né le **";
    Attribute "Birth Date";
    Lit "** à 
                        **";
    Attribute "Birthplace";
    Lit "**, il a actuellement **";
    Attribute "Current Age";
    Lit " ans**.
                    
                        Il mesure **";
    Attribute "Height";
    Lit "** et pèse **";
    Attribute "Weight (lbs)";
    Lit " lbs**, il frappe en **";
    Attribute "Bats";
    Lit "** 
                        et lance avec **";
    Attribute "Throws";
    Lit "**. Ce joueur a fait ses débuts en MLB le **";
    Attribute "MLB Debut Date";
    Lit "** 
                        et il est actuellement ";
    ActivePhrase "actif" "inactif";
    Lit " dans la ligue.
                        " ].

(** The Chinese template. *)
Definition summary_chinese : list chunk :=
  [ Lit "
                        **";
    Attribute "Full Name";
    Lit "**，昵称为“";
    Attribute "Nickname";
    Lit "”，是一名 **";
    Attribute "Primary Position";
    Lit "** 球员，
                        背号为 **";
    Attribute "Jersey Number";
    Lit "**。他于 **";
    Attribute "Birth Date";
    Lit "** 出生在 **";
    Attribute "Birthplace";
    Lit "**，
                        现年 **";
    Attribute "Current Age";
    Lit " 岁**。
                    
                        他身高 **";
    Attribute "Height";
    Lit "**，体重 **";
    Attribute "Weight (lbs)";
    Lit " 磅**，打击习惯为 **";
    Attribute "Bats";
    Lit "**，
                        投球习惯为 **";
    Attribute "Throws";
    Lit "**。这位球员在 **";
    Attribute "MLB Debut Date";
    Lit "** 完成了他的 MLB 首秀，
                        他目前在联盟中是 **";
    ActivePhrase "活跃" "非活跃";
    Lit "** 状态。
                        " ].

(** The English (the [else] branch) template. *)
Definition summary_english : list chunk :=
  [ Lit "
                        **";
    Attribute "Full Name";
    Lit "**, also known as ";
    Lit double_quote;
    Attribute "Nickname";
    Lit double_quote;
    Lit ", is a ";
    Attribute "Primary Position";
    Lit " 
                        wearing jersey number **";
    Attribute "Jersey Number";
    Lit "**. Born on **";
    Attribute "Birth Date";
    Lit "** in 
                        **";
    Attribute "Birthplace";
    Lit "**, they are currently **";
    Attribute "Current Age";
    Lit " years old**.
                    
                        Standing at **";
    Attribute "Height";
    Lit "** and weighing **";
    Attribute "Weight (lbs)";
    Lit " lbs**, they bat **";
    Attribute "Bats";
    Lit "** 
                        and throw **";
    Attribute "Throws";
    Lit "**. This player made their MLB debut on **";
    Attribute "MLB Debut Date";
    Lit "** 
                        and is currently **";
    Attribute "Active Player";
    Lit "** in the league.
                        " ].

(** The f-string of the branch [summary_template] names. *)
Definition template_chunks (template : string) : list chunk :=
  if template =? "Spanish" then summary_spanish
  else if template =? "Japanese" then summary_japanese
  else if template =? "French" then summary_french
  else if template =? "Chinese" then summary_chinese
  else summary_english.

(** [v == "Yes"]. *)
Definition is_yes (v : json) : bool :=
  match v with
  | JStr s => s =? "Yes"
  | _ => false
  end.

Definition render_chunk `{Runtime} (attributes : list (string * json)) (c : chunk)
  : result string :=
  match c with
  | Lit text => Ok text
  | Attribute key => v <- dict_item key attributes ;; Ok (py_str v)
  | ActivePhrase yes no =>
      v <- dict_item "Active Player" attributes ;; Ok (if is_yes v then yes else no)
  end.

(** An f-string is evaluated piece by piece, left to right. *)
Fixpoint render_chunks `{Runtime} (attributes : list (string * json)) (cs : list chunk)
  : result string :=
  match cs with
  | [] => Ok EmptyString
  | c :: cs' =>
      s <- render_chunk attributes c ;;
      rest <- render_chunks attributes cs' ;;
      Ok (s ++ rest)
  end.

(** The text [st.markdown] receives for a summary. *)
Definition summary_markdown `{Runtime} (s : summary) : result string :=
  match s with
  | Summary template attributes => render_chunks attributes (template_chunks template)
  end.

(** The attributes a piece reads. *)
Definition chunk_keys (c : chunk) : list string :=
  match c with
  | Lit _ => []
  | Attribute key => [key]
  | ActivePhrase _ _ => ["Active Player"]
  end.

(** ** Feedback *)

(** A field of a feedback document: text, or the marker the store replaces
    by its own clock. *)
Inductive field_value : Type :=
| FieldText (s : string)
| ServerTimestamp.

Inductive feedback_event : Type :=
| Display (e : event)
| FeedbackAdd (collection : string) (document : list (string * field_value)).

(** How the feedback code ends: normally, or on reading a name that was
    never assigned. *)
Inductive feedback_end : Type :=
| FeedbackDone
| NameError (name : string).

(** [save_feedback_to_database]; it has no handler of its own, so the text
    of an exception raised by the store is handed to the caller. *)
Definition save_feedback_to_database
  (user_feedback_add : list (string * field_value) -> option string)
  (email feedback email_updates language : string)
  : list feedback_event * option string :=
  let feedback_data :=
    [ ("email", FieldText email);
      ("feedback", FieldText feedback);
      ("email_updates", FieldText email_updates);
      ("language", FieldText language);
      ("timestamp", ServerTimestamp) ] in
  match user_feedback_add feedback_data with
  | None => ([FeedbackAdd "user_feedback" feedback_data], None)
  | Some e => ([], Some e)
  end.

(** The code under [if feedback_submit].  [email] is assigned only in the
    block of an uploaded image: it is [None] when no image is uploaded. *)
Definition submit_feedback
  (user_feedback_add : list (string * field_value) -> option string)
  (email : option string) (feedback email_updates language : string)
  : list feedback_event * feedback_end :=
  match email with
  | None => ([], NameError "email")
  | Some email =>
      if email =? "" then
        ([Display (StError (Text "Please enter your email earlier to save your feedback."))],
         FeedbackDone)
      else
        match save_feedback_to_database user_feedback_add email feedback email_updates
                                        language with
        | (events, None) =>
            ((events ++
              [Display (StSuccess "Thank you for your feedback! It has been saved.")])%list,
             FeedbackDone)
        | (events, Some e) =>
            ((events ++
              [Display (StError
                 (Text ("An error occurred while saving your feedback: " ++ e)))])%list,
             FeedbackDone)
        end
  end.

(** The documents a feedback trace has stored. *)
Definition feedback_writes (events : list feedback_event)
  : list (string * list (string * field_value)) :=
  flat_map (fun e => match e with
                     | FeedbackAdd collection document => [(collection, document)]
                     | Display _ => []
                     end) events.

(** ** More vocabulary and sample inputs *)

(** The statements of [lookup_and_render] that follow a successful
    resolution: the detail fetch and the rendering. *)
Definition details_and_render `{Runtime} (w : world) (language : string)
  (player_id : option Z) : action unit :=
  player_details <~ get_player_details w player_id ;;
  match player_details with
  | None => ret tt
  | Some details =>
      if truthy details then
        has_people <~ lift (py_contains details "people") ;;
        if has_people : bool
        then render_player w language player_id 2024 details
        else ret tt
      else ret tt
  end.

(** An event that is no HTTP request. *)
Definition no_request (e : event) : Prop := forall url params, e <> RequestsGet url params.

(** A list of strings without repetition, decided. *)
Fixpoint distinct (l : list string) : bool :=
  match l with
  | [] => true
  | x :: l' => negb (existsb (String.eqb x) l') && distinct l'
  end.

Definition roster_url : string :=
  "https://statsapi.mlb.com/api/v1/sports/1/players?season=2024".

Definition details_url (player_id : Z) : string :=
  "https://statsapi.mlb.com/api/v1/people/" ++ decimal player_id ++ "/".

Definition stats_url (player_id : Z) : string :=
  "https://statsapi.mlb.com/api/v1/people/" ++ decimal player_id.

Definition judge_info : json :=
  JObj [ ("fullName", JStr "Aaron Judge");
         ("primaryPosition", JObj [("name", JStr "Outfielder")]);
         ("primaryNumber", JStr "99");
         ("currentAge", JInt 32);
         ("active", JBool true);
         ("batSide", JObj [("description", JStr "Right")]) ].

(** A world in which every collaborator answers; the stats request is
    refused. *)
Definition stats_down : world :=
  {| generate_content := inr " Aaron Judge ";
     users_add := fun _ => None;
     people_frame := fun _ => inr judge_roster;
     get_json := fun _ => inr (JObj [("people", JArr [judge_info])]);
     get_stats := fun _ _ => Response 503 (inl "Service Unavailable") |}.

(** The same with a details body that has no [people] key. *)
Definition details_without_people : world :=
  {| generate_content := inr "Aaron Judge";
     users_add := fun _ => None;
     people_frame := fun _ => inr judge_roster;
     get_json := fun _ => inr (JObj [("messageNumber", JInt 10)]);
     get_stats := fun _ _ => Response 503 (inl "Service Unavailable") |}.

(** A split whose [team] is [null]. *)
Definition split_without_team : json :=
  JObj [ ("team", JNull); ("stat", JObj sample_stat) ].

(** A split of the same season with another team. *)
Definition second_split : json :=
  JObj [ ("team", JObj [("name", JStr "Chicago Cubs")]);
         ("player", JObj [("fullName", JStr "Aaron Judge")]);
         ("stat", JObj [ ("gamesPlayed", JInt 20); ("runs", JInt 7); ("hits", JInt 15);
                         ("homeRuns", JInt 3); ("stolenBases", JInt 1); ("rbi", JInt 9) ]) ].

(** A split whose [runs] counter is [null]. *)
Definition split_with_null_runs : json :=
  JObj [ ("team", JObj [("name", JStr "Chicago Cubs")]);
         ("stat", JObj [ ("gamesPlayed", JInt 20); ("runs", JNull); ("hits", JInt 15);
                         ("homeRuns", JInt 3); ("stolenBases", JInt 1); ("rbi", JInt 9) ]) ].

(** * Properties *)

(** ** Dictionaries *)

Lemma assoc_get_In {A : Type} (k : string) (d : list (string * A)) (v : A) :
  assoc_get k d = Some v -> In (k, v) d.
Proof.
  induction d as [|[k' v'] d IH]; simpl; intros H.
  - discriminate.
  - destruct (String.eqb_spec k k') as [->|_].
    + left. congruence.
    + right. auto.
Qed.

Lemma assoc_get_absent {A : Type} (k : string) (d : list (string * A)) :
  ~ In k (map fst d) -> assoc_get k d = None.
Proof.
  induction d as [|[k' v'] d IH]; simpl; intros H.
  - reflexivity.
  - destruct (String.eqb_spec k k') as [->|_].
    + exfalso. apply H. now left.
    + apply IH. intros Hin. apply H. now right.
Qed.

Lemma dict_get_absent {A : Type} (k : string) (d : list (string * A)) (default : A) :
  assoc_get k d = None -> dict_get k d default = default.
Proof.
  unfold dict_get. now intros ->.
Qed.

(** ** Attribute Localization Table *)

(** C9. A key that the attribute table does not hold comes back unchanged,
    whatever the language; [translate_attribute] is a total function, so
    nothing is raised. *)
Theorem translate_attribute_absent_key (k lang : string) :
  assoc_get k translations = None -> translate_attribute k lang = k.
Proof.
  intros Habsent. unfold translate_attribute.
  rewrite (dict_get_absent k translations [] Habsent).
  reflexivity.
Qed.

Lemma translate_attribute_absent_key_witness :
  assoc_get "Team" translations = None /\ translate_attribute "Team" "German" = "Team".
Proof.
  split; [reflexivity | apply (translate_attribute_absent_key "Team" "German"); reflexivity].
Defined.

(** The same, absence being stated on the list of keys. *)
Corollary translate_attribute_not_a_key (k lang : string) :
  ~ In k (map fst translations) -> translate_attribute k lang = k.
Proof.
  intros H. unfold translate_attribute.
  rewrite (dict_get_absent k translations [] (assoc_get_absent k translations H)).
  reflexivity.
Qed.

Section HeaderProperties.
Context {runtime : Runtime}.

(** C2. The stat table has no row for the header ["Stat"], so the lookup
    falls back to the key in every language: Spanish gets ["Stat"] like
    English does, not a Spanish header, and the table shown in Spanish is
    headed Stat and Value. *)
Theorem get_translated_stat_header :
  assoc_get "Stat" translations_stats = None /\
  get_translated_stat "Stat" "Spanish" = "Stat" /\
  get_translated_stat "Stat" "English" = "Stat" /\
  (forall lang, get_translated_stat "Stat" lang = "Stat") /\
  (forall stats_df, fst (stats_df_two_columns "Spanish" stats_df) = ("Stat", "Value")).
Proof.
  repeat split; try reflexivity.
Qed.

End HeaderProperties.

(** ** Text *)

Lemma special_not_alnum (c : ascii) : is_special c = true -> is_alnum c = false.
Proof.
  destruct c as [[] [] [] [] [] [] [] []]; vm_compute; congruence.
Qed.

Lemma backslash_special (c : ascii) : Ascii.eqb c "\" = true -> is_special c = true.
Proof.
  intros E. apply Ascii.eqb_eq in E. subst c. reflexivity.
Qed.

(** An escaped text is a pattern of the literal fragment and denotes the
    text itself. *)
Lemma literal_pattern_re_escape (s : string) : literal_pattern (re_escape s) = Some s.
Proof.
  induction s as [|c s IH]; [reflexivity|].
  cbn [re_escape]. destruct (is_special c) eqn:Especial.
  - cbn [literal_pattern]. rewrite Ascii.eqb_refl.
    rewrite (special_not_alnum c Especial), IH. reflexivity.
  - cbn [literal_pattern]. destruct (Ascii.eqb c "\") eqn:Eback.
    + apply backslash_special in Eback. congruence.
    + rewrite Especial, IH. reflexivity.
Qed.

(** ** Characters *)

Lemma characters_cons (b : ascii) (s : string) :
  exists t rest, characters (String b s) = String b t :: rest.
Proof.
  cbn [characters]. destruct (characters s) as [|ch rest].
  - now exists EmptyString, [].
  - destruct (starts_with_continuation ch); eexists; eexists; reflexivity.
Qed.

(** The first character starts where the text starts. *)
Lemma characters_start (s : string) :
  match characters s with
  | [] => s = EmptyString
  | ch :: _ => starts_with_continuation ch = starts_with_continuation s
  end.
Proof.
  destruct s as [|b s]; [reflexivity|].
  destruct (characters_cons b s) as (t & rest & ->). reflexivity.
Qed.

Lemma append_assoc (a b c : string) : (a ++ b) ++ c = a ++ (b ++ c).
Proof.
  induction a as [|x a IH]; [reflexivity|]. cbn [append]. now rewrite IH.
Qed.

Lemma append_empty (a : string) : a ++ EmptyString = a.
Proof.
  induction a as [|x a IH]; [reflexivity|]. cbn [append]. now rewrite IH.
Qed.

Lemma join_app (a b : list string) : join (a ++ b) = join a ++ join b.
Proof.
  induction a as [|x a IH]; [reflexivity|].
  cbn [app join fold_right]. fold (join (a ++ b)). fold (join a).
  rewrite IH. symmetry. apply append_assoc.
Qed.

(** Cutting a text loses nothing. *)
Lemma join_characters (s : string) : join (characters s) = s.
Proof.
  induction s as [|b s IH]; [reflexivity|].
  cbn [characters]. destruct (characters s) as [|ch rest].
  - cbn in IH. subst s. reflexivity.
  - destruct (starts_with_continuation ch); cbn in *; now rewrite IH.
Qed.

Lemma characters_app (s t : string) :
  starts_character t -> characters (s ++ t) = (characters s ++ characters t)%list.
Proof.
  unfold starts_character. intros Ht. induction s as [|b s IH]; [reflexivity|].
  cbn [append characters]. rewrite IH.
  destruct (characters s) as [|ch rest];
    [|cbn [app]; destruct (starts_with_continuation ch); reflexivity].
  cbn [app]. pose proof (characters_start t) as Hstart.
  destruct (characters t) as [|ch rest]; [reflexivity|].
  now rewrite Hstart, Ht.
Qed.

Lemma characters_whole (ch : string) : whole ch = true -> characters ch = [ch].
Proof.
  destruct ch as [|b t]; [discriminate|]. revert b.
  induction t as [|c t IH]; intros b Hwhole; [reflexivity|].
  cbn [whole list_ascii_of_string forallb] in Hwhole.
  apply andb_true_iff in Hwhole. destruct Hwhole as (Hc & Ht).
  change (characters (String b (String c t)))
    with (match characters (String c t) with
          | ch :: rest =>
              if starts_with_continuation ch then String b ch :: rest
              else String b EmptyString :: ch :: rest
          | [] => [String b EmptyString]
          end).
  rewrite (IH c Ht). cbn [starts_with_continuation]. now rewrite Hc.
Qed.

Lemma well_cut_characters (s : string) : well_cut (characters s).
Proof.
  unfold well_cut. induction s as [|b s (Hwhole & Hstart)]; [split; constructor|].
  cbn [characters]. destruct (characters s) as [|ch rest]; [split; repeat constructor|].
  inversion Hwhole as [|? ? Hch Hrest]; subst. cbn [tl] in Hstart.
  destruct (starts_with_continuation ch) eqn:Econt.
  - split; [|exact Hstart]. constructor; [|exact Hrest].
    destruct ch as [|c t]; [discriminate Hch|].
    cbn [whole list_ascii_of_string forallb starts_with_continuation] in *.
    now rewrite Econt, Hch.
  - split; [repeat constructor; assumption|]. cbn [tl]. now constructor.
Qed.

Lemma well_cut_app (a b : list string) : well_cut (a ++ b) -> well_cut a /\ well_cut b.
Proof.
  unfold well_cut. intros (Hwhole & Hstart). apply Forall_app in Hwhole.
  destruct Hwhole as (Ha & Hb). destruct a as [|x a].
  - split; [split; constructor|]. split; [exact Hb | exact Hstart].
  - cbn [app tl] in Hstart. apply Forall_app in Hstart. destruct Hstart as (Hsa & Hsb).
    repeat split; try assumption. destruct b; [constructor|]. now inversion Hsb.
Qed.

Lemma join_start (l : list string) :
  Forall (fun ch => whole ch = true) l ->
  Forall (fun ch => starts_with_continuation ch = false) l ->
  starts_character (join l).
Proof.
  unfold starts_character. intros Hwhole Hstart.
  destruct l as [|ch l]; [reflexivity|].
  inversion Hwhole; subst. inversion Hstart; subst.
  destruct ch as [|b t]; [discriminate|]. assumption.
Qed.

(** A well cut list is the cut of its own text. *)
Lemma characters_join (l : list string) : well_cut l -> characters (join l) = l.
Proof.
  unfold well_cut. intros (Hwhole & Hstart).
  induction l as [|ch l IH]; [reflexivity|].
  inversion Hwhole as [|? ? Hch Hl]; subst. cbn [tl] in Hstart.
  cbn [join fold_right]. fold (join l).
  rewrite characters_app by now apply join_start.
  rewrite (characters_whole ch Hch). cbn [app]. f_equal.
  apply IH; [exact Hl|]. destruct l; [constructor | now inversion Hstart].
Qed.

(** ** Whitespace at the two ends *)

Lemma drop_while_app {A : Type} (p : A -> bool) (a b : list A) :
  drop_while p (a ++ b) =
  if forallb p a then drop_while p b else (drop_while p a ++ b)%list.
Proof.
  induction a as [|x a IH]; [reflexivity|].
  cbn [app drop_while forallb]. destruct (p x); [exact IH | reflexivity].
Qed.

Lemma drop_while_split {A : Type} (p : A -> bool) (l : list A) :
  exists a, l = (a ++ drop_while p l)%list /\ forallb p a = true.
Proof.
  induction l as [|x l (a & Hl & Ha)]; [now exists []|].
  cbn [drop_while]. destruct (p x) eqn:Hx.
  - exists (x :: a). cbn. now rewrite <- Hl, Hx, Ha.
  - now exists [].
Qed.

Lemma drop_while_head {A : Type} (p : A -> bool) (l : list A) :
  match drop_while p l with
  | [] => True
  | x :: _ => p x = false
  end.
Proof.
  induction l as [|x l IH]; [exact I|].
  cbn [drop_while]. destruct (p x) eqn:Hx; [exact IH | exact Hx].
Qed.

Lemma drop_while_fixed {A : Type} (p : A -> bool) (l : list A) :
  match l with
  | [] => True
  | x :: _ => p x = false
  end -> drop_while p l = l.
Proof.
  destruct l as [|x l]; [reflexivity|]. cbn [drop_while]. now intros ->.
Qed.

Lemma strip_characters_split (l : list string) :
  exists a b,
    l = (a ++ strip_characters l ++ b)%list /\
    forallb is_space a = true /\ forallb is_space b = true.
Proof.
  unfold strip_characters.
  destruct (drop_while_split is_space l) as (a & Hl & Ha).
  destruct (drop_while_split is_space (rev (drop_while is_space l))) as (b & Hr & Hb).
  exists a, (rev b). split; [|split; [exact Ha|]].
  - rewrite <- rev_app_distr, <- Hr, rev_involutive. exact Hl.
  - rewrite forallb_forall in *. intros x Hx. apply Hb. now apply in_rev.
Qed.

(** What [strip] leaves has no whitespace at either end. *)
Lemma strip_characters_ends (l : list string) :
  match strip_characters l with
  | [] => True
  | first :: _ => is_space first = false
  end /\
  match rev (strip_characters l) with
  | [] => True
  | last :: _ => is_space last = false
  end.
Proof.
  unfold strip_characters. split.
  - pose proof (drop_while_head is_space l) as Hhead.
    destruct (drop_while_split is_space (rev (drop_while is_space l))) as (b & Hr & _).
    apply (f_equal (@rev string)) in Hr. rewrite rev_involutive, rev_app_distr in Hr.
    destruct (rev (drop_while is_space (rev (drop_while is_space l)))) as [|x m]; [exact I|].
    rewrite Hr in Hhead. exact Hhead.
  - rewrite rev_involutive. apply drop_while_head.
Qed.

Lemma strip_characters_fixed (l : list string) :
  match l with
  | [] => True
  | first :: _ => is_space first = false
  end ->
  match rev l with
  | [] => True
  | last :: _ => is_space last = false
  end ->
  strip_characters l = l.
Proof.
  intros Hfirst Hlast. unfold strip_characters.
  rewrite (drop_while_fixed is_space l Hfirst), (drop_while_fixed is_space (rev l) Hlast).
  apply rev_involutive.
Qed.

Lemma strip_characters_idempotent (l : list string) :
  strip_characters (strip_characters l) = strip_characters l.
Proof.
  destruct (strip_characters_ends l). now apply strip_characters_fixed.
Qed.

Lemma forallb_rev {A : Type} (p : A -> bool) (l : list A) :
  forallb p (rev l) = forallb p l.
Proof.
  induction l as [|x l IH]; [reflexivity|].
  cbn [rev forallb]. rewrite forallb_app, IH. cbn. rewrite andb_true_r. apply andb_comm.
Qed.

(** Whitespace added at the two ends is removed with the rest. *)
Lemma strip_characters_padded (a l b : list string) :
  forallb is_space a = true -> forallb is_space b = true ->
  strip_characters (a ++ l ++ b) = strip_characters l.
Proof.
  intros Ha Hb. unfold strip_characters.
  rewrite drop_while_app, Ha, drop_while_app.
  destruct (forallb is_space l) eqn:Hl.
  - assert (Hnone : forall m, forallb is_space m = true -> drop_while is_space m = []).
    { intros m Hm. destruct (drop_while_split is_space m) as (c & Hc & _).
      pose proof (drop_while_head is_space m) as Hhead.
      destruct (drop_while is_space m) as [|x r]; [reflexivity|].
      rewrite Hc, forallb_app in Hm. cbn in Hm. rewrite Hhead in Hm.
      rewrite andb_false_r in Hm. discriminate Hm. }
    rewrite (Hnone b Hb), (Hnone l Hl). reflexivity.
  - rewrite rev_app_distr, drop_while_app, forallb_rev, Hb. reflexivity.
Qed.

Lemma is_space_start (ch : string) :
  is_space ch = true -> starts_with_continuation ch = false.
Proof.
  intros Hspace. destruct ch as [|a t]; [reflexivity|].
  cbn [starts_with_continuation].
  destruct (is_continuation a) eqn:Econt; [|reflexivity].
  destruct t as [|b [|c [|d t]]];
    destruct a as [[] [] [] [] [] [] [] []]; try discriminate Econt;
    cbn in Hspace; discriminate Hspace.
Qed.

Lemma blank_start (s : string) : blank s -> starts_character s.
Proof.
  unfold blank, starts_character. intros Hblank.
  pose proof (characters_start s) as Hstart.
  destruct (characters s) as [|ch rest]; [now subst s|].
  cbn [forallb] in Hblank. apply andb_true_iff in Hblank.
  rewrite <- Hstart. apply is_space_start, Hblank.
Qed.

Lemma characters_strip (s : string) :
  characters (strip s) = strip_characters (characters s).
Proof.
  unfold strip. apply characters_join.
  destruct (strip_characters_split (characters s)) as (a & b & Hs & _).
  pose proof (well_cut_characters s) as Hcut. rewrite Hs in Hcut.
  apply well_cut_app in Hcut. destruct Hcut as (_ & Hcut).
  apply well_cut_app in Hcut. tauto.
Qed.

Lemma strip_idempotent (s : string) : strip (strip s) = strip s.
Proof.
  unfold strip at 1. rewrite characters_strip, strip_characters_idempotent. reflexivity.
Qed.

Lemma strip_trimmed (s : string) : trimmed (strip s).
Proof.
  unfold trimmed. rewrite characters_strip. apply strip_characters_ends.
Qed.

(** [strip] removes whitespace, and nothing else. *)
Lemma strip_split (s : string) :
  exists left right, s = left ++ strip s ++ right /\ blank left /\ blank right.
Proof.
  destruct (strip_characters_split (characters s)) as (a & b & Hs & Ha & Hb).
  pose proof (well_cut_characters s) as Hcut. rewrite Hs in Hcut.
  apply well_cut_app in Hcut. destruct Hcut as (Hcut_a & Hcut).
  apply well_cut_app in Hcut. destruct Hcut as (_ & Hcut_b).
  exists (join a), (join b). unfold blank, strip.
  rewrite !characters_join by assumption. split; [|now split].
  rewrite <- !join_app, <- Hs. symmetry. apply join_characters.
Qed.

Lemma starts_character_app (s t : string) :
  starts_character s -> starts_character t -> starts_character (s ++ t).
Proof.
  unfold starts_character. destruct s; [trivial | now intros].
Qed.

Lemma strip_padded (left s right : string) :
  blank left -> blank right -> starts_character s ->
  strip (left ++ s ++ right) = strip s.
Proof.
  intros Hleft Hright Hs. unfold strip.
  rewrite characters_app by (apply starts_character_app; [exact Hs | now apply blank_start]).
  rewrite characters_app by now apply blank_start.
  now rewrite strip_characters_padded.
Qed.

(** ** Searching *)

Lemma prefix_by_spec (matches : string -> string -> bool) (p t : list string) :
  prefix_by matches p t = true <->
  exists middle after,
    t = (middle ++ after)%list /\ Forall2 (fun a b => matches a b = true) p middle.
Proof.
  revert t. induction p as [|a p IH]; intros t.
  - split; [intros _ | reflexivity]. exists [], t. split; [reflexivity | constructor].
  - destruct t as [|b t]; cbn [prefix_by].
    + split; [discriminate|]. intros (m & r & Ht & Hm).
      inversion Hm; subst. discriminate Ht.
    + rewrite andb_true_iff, IH. split.
      * intros (Hab & m & r & -> & Hm). exists (b :: m), r.
        split; [reflexivity | now constructor].
      * intros (m & r & Ht & Hm). inversion Hm as [|? b' ? m' Hab Hm']; subst.
        injection Ht as <- ->. split; [exact Hab|]. now exists m', r.
Qed.

(** [contains_by] decides the occurrence of a run that the pattern accepts. *)
Lemma contains_by_spec (matches : string -> string -> bool) (p t : list string) :
  contains_by matches p t = true <->
  exists before middle after,
    t = (before ++ middle ++ after)%list /\ Forall2 (fun a b => matches a b = true) p middle.
Proof.
  induction t as [|b t IH]; cbn [contains_by].
  - rewrite orb_false_r, prefix_by_spec. split.
    + intros (m & r & Ht & Hm). now exists [], m, r.
    + intros (pre & m & r & Ht & Hm). destruct pre; [|discriminate Ht]. now exists m, r.
  - rewrite orb_true_iff, prefix_by_spec, IH. split.
    + intros [(m & r & Ht & Hm) | (pre & m & r & Ht & Hm)].
      * now exists [], m, r.
      * exists (b :: pre), m, r. cbn [app]. now rewrite Ht.
    + intros (pre & m & r & Ht & Hm). destruct pre as [|b' pre]; cbn [app] in Ht.
      * left. now exists m, r.
      * right. injection Ht as _ Ht. now exists pre, m, r.
Qed.

Lemma contains_by_nil (matches : string -> string -> bool) (t : list string) :
  contains_by matches [] t = true.
Proof.
  destruct t; reflexivity.
Qed.

Lemma ascii_starts_character (b : ascii) : is_ascii b = true -> is_continuation b = false.
Proof.
  unfold is_ascii, is_continuation. intros Hb. apply Nat.ltb_lt in Hb.
  apply andb_false_iff. left. apply Nat.leb_gt. exact Hb.
Qed.

(** A character of ASCII text is one byte. *)
Lemma characters_ascii (s : string) :
  ascii_text s = true ->
  characters s = map (fun b => String b EmptyString) (list_ascii_of_string s).
Proof.
  unfold ascii_text. induction s as [|b s IH]; [reflexivity|].
  cbn [list_ascii_of_string forallb map characters]. intros Hs.
  apply andb_true_iff in Hs. destruct Hs as (_ & Hs). rewrite (IH Hs).
  destruct s as [|c s]; [reflexivity|].
  cbn [list_ascii_of_string forallb map starts_with_continuation] in *.
  apply andb_true_iff in Hs. now rewrite (ascii_starts_character c (proj1 Hs)).
Qed.

Lemma prefix_by_ascii `{Runtime} (p t : list ascii) :
  forallb is_ascii p = true -> forallb is_ascii t = true ->
  prefix_by matches_ignorecase (map (fun b => String b EmptyString) p)
                               (map (fun b => String b EmptyString) t) =
  prefix_ci (string_of_list_ascii p) (string_of_list_ascii t).
Proof.
  revert t. induction p as [|a p IH]; intros t Hp Ht; [reflexivity|].
  destruct t as [|b t]; [reflexivity|].
  cbn [forallb] in Hp, Ht. apply andb_true_iff in Hp, Ht.
  cbn [map prefix_by string_of_list_ascii prefix_ci].
  rewrite matches_ascii, IH; tauto.
Qed.

(** On ASCII text every engine agrees: the search is the containment of
    the pattern, letters compared up to case. *)
Lemma contains_by_ascii `{Runtime} (p t : string) :
  ascii_text p = true -> ascii_text t = true ->
  contains_by matches_ignorecase (characters p) (characters t) = contains_ci p t.
Proof.
  intros Hp Ht. rewrite (characters_ascii p Hp), (characters_ascii t Ht).
  unfold ascii_text in *.
  rewrite <- (string_of_list_ascii_of_string p), <- (string_of_list_ascii_of_string t) at 2.
  revert Hp Ht. generalize (list_ascii_of_string p) as lp.
  generalize (list_ascii_of_string t) as lt. clear p t.
  intros lt lp Hp. induction lt as [|b lt IH]; intros Ht.
  - cbn [map contains_by string_of_list_ascii contains_ci].
    now rewrite (prefix_by_ascii lp [] Hp Ht).
  - cbn [map contains_by string_of_list_ascii contains_ci].
    rewrite (prefix_by_ascii lp (b :: lt) Hp Ht).
    cbn [forallb] in Ht. apply andb_true_iff in Ht. now rewrite IH.
Qed.

(** ** Player Resolver *)

Section ResolverProperties.
Context {runtime : Runtime}.

Lemma select_map {A : Type} (g : A -> bool) (rows : list A) :
  select rows (map g rows) = filter g rows.
Proof.
  unfold select. induction rows as [|r rows IH]; simpl; [reflexivity|].
  destruct (g r); simpl; now rewrite IH.
Qed.

Lemma filter_head_find {A : Type} (g : A -> bool) (rows : list A) :
  find g rows = match filter g rows with [] => None | r :: _ => Some r end.
Proof.
  induction rows as [|r rows IH]; simpl; [reflexivity|].
  destruct (g r); [reflexivity | exact IH].
Qed.

(** With an escaped pattern the mask is the containment test, row by row. *)
Lemma str_contains_escaped (rows : list roster_entry) (query : string) :
  str_contains (map fullName rows) (re_escape query) = Ok (map (name_matches query) rows).
Proof.
  unfold str_contains.
  destruct (re_literal _ _ (literal_pattern_re_escape query)) as (matcher & -> & Hmatcher).
  f_equal. rewrite map_map. apply map_ext. intros entry. unfold name_matches.
  destruct (fullName entry); [apply Hmatcher | reflexivity].
Qed.

(** An entry that matches has a full name. *)
Lemma matching_entry_is_named (query : string) (entry : roster_entry) :
  name_matches query entry = true -> has_full_name entry = true.
Proof.
  unfold name_matches, has_full_name. destruct (fullName entry); [reflexivity | discriminate].
Qed.

Lemma find_among_named (query : string) (R : list roster_entry) (entry : roster_entry) :
  find (name_matches query) R = Some entry -> existsb has_full_name R = true.
Proof.
  intros Hfind. apply find_some in Hfind. destruct Hfind as (Hin & Hmatch).
  apply existsb_exists. exists entry. split; [exact Hin|].
  exact (matching_entry_is_named query entry Hmatch).
Qed.

Lemma search_return_nonempty (R : list roster_entry) (q : string) :
  R <> [] ->
  search_player_by_name_return (Some R) q =
  match find (name_matches (strip q)) R with
  | Some entry => ReturnId (id entry)
  | None =>
      if existsb has_full_name R then ReturnNoMatch q
      else ReturnError (KeyError "fullName")
  end.
Proof.
  intros HR. unfold search_player_by_name_return, fullName_column.
  destruct R as [|e R]; [contradiction|].
  destruct (find (name_matches (strip q)) (e :: R)) as [entry|] eqn:Hfind.
  - rewrite (find_among_named _ _ _ Hfind). cbn [bind].
    rewrite str_contains_escaped, select_map. rewrite filter_head_find in Hfind.
    destruct (filter _ _); [discriminate Hfind|]. now injection Hfind as ->.
  - destruct (existsb has_full_name (e :: R)); [|reflexivity]. cbn [bind].
    rewrite str_contains_escaped, select_map. rewrite filter_head_find in Hfind.
    destruct (filter _ _); [reflexivity | discriminate Hfind].
Qed.

(** The answer depends on the query through its stripped form only. *)
Lemma resolve_by_strip (R : option (list roster_entry)) (q q' : string) :
  strip q = strip q' ->
  resolve R q = resolve R q' /\
  fst (search_player_by_name R q) = fst (search_player_by_name R q') /\
  (resolve R q <> Fault NoPlayerMatch ->
   search_player_by_name R q = search_player_by_name R q').
Proof.
  intros Hstrip.
  unfold resolve, search_player_by_name, search_player_by_name_return.
  destruct R as [[|e R]|]; [now repeat split | | now repeat split].
  rewrite Hstrip.
  destruct (bind _ _) as [mask|err]; [|now repeat split].
  destruct (select _ mask); [|now repeat split].
  split; [reflexivity|]. split; [reflexivity|]. intros Hfault. now elim Hfault.
Qed.

(** C4. On a non-empty roster the escaped query is a pattern of the
    literal fragment, so compiling it raises nothing whatever characters
    the query holds.  The search is the containment test of the query (as
    [strip] leaves it) in each entry's full name, letter case ignored as
    the engine ignores it; for a query and a name of ASCII text that is
    containment with the letters A..Z folded.  The answer is the
    identifier of the first entry, in roster order, that passes the test;
    when none passes it is the no-match message, or the search error if no
    record of the roster has a full name at all.  The Aaron Judge scenario
    resolves to 1, with every engine. *)
Theorem resolve_first_match (R : list roster_entry) (q : string) :
  R <> [] ->
  literal_pattern (re_escape (strip q)) = Some (strip q) /\
  str_contains (map fullName R) (re_escape (strip q)) = Ok (map (name_matches (strip q)) R) /\
  (forall entry,
      name_matches (strip q) entry = true <->
      exists full_name, fullName entry = Some full_name /\ occurs_ci (strip q) full_name) /\
  (forall entry full_name,
      fullName entry = Some full_name ->
      ascii_text (strip q) = true -> ascii_text full_name = true ->
      name_matches (strip q) entry = contains_ci (strip q) full_name) /\
  search_player_by_name (Some R) q =
    match find (name_matches (strip q)) R with
    | Some entry => (Some (id entry), None)
    | None =>
        if existsb has_full_name R
        then (None, Some (Text ("No player found with the name '" ++ q ++ "'.")))
        else (None, Some (Caught "Error during player search: " (KeyError "fullName")))
    end /\
  resolve (Some R) q =
    match find (name_matches (strip q)) R with
    | Some entry => PlayerId (id entry)
    | None => if existsb has_full_name R then Fault NoPlayerMatch else Fault SearchFailed
    end /\
  resolve (Some judge_roster) "aaron judge" = PlayerId 1.
Proof.
  intros HR. split; [apply literal_pattern_re_escape|].
  split; [apply str_contains_escaped|].
  split.
  { intros entry. unfold name_matches, occurs_ci. destruct (fullName entry) as [n|].
    - rewrite contains_by_spec. split.
      + intros Hocc. now exists n.
      + intros (n' & Hn & Hocc). now injection Hn as <-.
    - split; [discriminate | intros (n' & Hn & _); discriminate]. }
  split.
  { intros entry full_name Hname Hq Hn. unfold name_matches. rewrite Hname.
    now apply contains_by_ascii. }
  split; [|split].
  - unfold search_player_by_name. rewrite (search_return_nonempty R q HR).
    destruct (find _ R); [reflexivity|]. destruct (existsb _ R); reflexivity.
  - unfold resolve. rewrite (search_return_nonempty R q HR).
    destruct (find _ R); [reflexivity|]. destruct (existsb _ R); reflexivity.
  - unfold resolve. rewrite search_return_nonempty by discriminate.
    change (strip "aaron judge") with "aaron judge".
    cbn [judge_roster find name_matches fullName].
    rewrite contains_by_ascii by reflexivity. reflexivity.
Qed.

(** C5. Without a roster, or with an empty one, the resolver reports the
    empty-roster fault whatever the query; that fault, and the pair the
    caller receives for it, differ from those of an unmatched name. *)
Theorem resolve_empty_roster (q : string) :
  resolve None q = Fault EmptyRoster /\
  resolve (Some []) q = Fault EmptyRoster /\
  search_player_by_name None q =
    (None, Some (Text "Players list is empty or unavailable.")) /\
  search_player_by_name (Some []) q =
    (None, Some (Text "Players list is empty or unavailable.")) /\
  Fault EmptyRoster <> Fault NoPlayerMatch /\
  (forall name, returned ReturnEmpty <> returned (ReturnNoMatch name)).
Proof.
  repeat split; try reflexivity; try discriminate.
Qed.

(** C10. The query is stripped before it is matched.  A query and its
    stripped form resolve alike, to the same identifier or the same fault,
    and the caller receives the same pair for both whenever the outcome is
    not the no-match fault.  What [strip] takes away is whitespace at the
    two ends, all of it and nothing else: the query is its stripped form
    between two runs of whitespace characters (those of Unicode, the
    no-break space among them), and the stripped form neither starts nor
    ends with one.  So whitespace added around a query changes nothing of
    the resolution. *)
Theorem resolve_strips_query (R : option (list roster_entry)) (q : string) :
  resolve R q = resolve R (strip q) /\
  fst (search_player_by_name R q) = fst (search_player_by_name R (strip q)) /\
  (resolve R q <> Fault NoPlayerMatch ->
   search_player_by_name R q = search_player_by_name R (strip q)) /\
  (exists left right, q = left ++ strip q ++ right /\ blank left /\ blank right) /\
  trimmed (strip q) /\
  (forall left right,
      blank left -> blank right -> starts_character q ->
      resolve R (left ++ q ++ right) = resolve R q /\
      fst (search_player_by_name R (left ++ q ++ right)) = fst (search_player_by_name R q)).
Proof.
  destruct (resolve_by_strip R q (strip q) (eq_sym (strip_idempotent q)))
    as (Hresolve & Hid & Hpair).
  split; [exact Hresolve|]. split; [exact Hid|]. split; [exact Hpair|].
  split; [apply strip_split|]. split; [apply strip_trimmed|].
  intros left right Hleft Hright Hq.
  destruct (resolve_by_strip R (left ++ q ++ right) q (strip_padded left q right Hleft Hright Hq))
    as (Hsame & Hsame_id & _).
  now split.
Qed.

(** What the two runs do not share is the text of the no-match message,
    which quotes the query as it was given. *)
Lemma no_match_message_quotes_raw_query :
  @search_player_by_name reference_runtime (Some judge_roster) " zzz " =
    (None, Some (Text "No player found with the name ' zzz '.")) /\
  @search_player_by_name reference_runtime (Some judge_roster) (strip " zzz ") =
    (None, Some (Text "No player found with the name 'zzz'.")).
Proof.
  split; reflexivity.
Qed.

End ResolverProperties.

Lemma resolve_strips_query_witness :
  blank (no_break_space ++ " ") /\
  blank (String (ascii_of_nat 9) no_break_space) /\
  starts_character "judge" /\
  @resolve reference_runtime (Some judge_roster)
    ((no_break_space ++ " ") ++ "judge" ++ String (ascii_of_nat 9) no_break_space) =
  PlayerId 1 /\
  @resolve reference_runtime (Some judge_roster) "  judge " <> Fault NoPlayerMatch /\
  @search_player_by_name reference_runtime (Some judge_roster) "  judge " =
  @search_player_by_name reference_runtime (Some judge_roster) (strip "  judge ").
Proof.
  assert (Hleft : blank (no_break_space ++ " ")) by reflexivity.
  assert (Hright : blank (String (ascii_of_nat 9) no_break_space)) by reflexivity.
  assert (Hstart : starts_character "judge") by reflexivity.
  assert (Hfound : @resolve reference_runtime (Some judge_roster) "  judge "
                   <> Fault NoPlayerMatch) by discriminate.
  split; [exact Hleft|]. split; [exact Hright|]. split; [exact Hstart|]. split.
  - destruct (@resolve_strips_query reference_runtime (Some judge_roster) "judge")
      as (_ & _ & _ & _ & _ & Hpadded).
    destruct (Hpadded _ _ Hleft Hright Hstart) as (Hsame & _).
    rewrite Hsame. reflexivity.
  - split; [exact Hfound|].
    destruct (@resolve_strips_query reference_runtime (Some judge_roster) "  judge ")
      as (_ & _ & Hsame & _).
    exact (Hsame Hfound).
Defined.

Lemma resolve_first_match_witness :
  judge_roster <> [] /\
  @search_player_by_name reference_runtime (Some judge_roster) "AARON (judge" =
  (None, Some (Text "No player found with the name 'AARON (judge'.")) /\
  @resolve reference_runtime (Some judge_roster) " JUDGE" = PlayerId 1 /\
  @resolve reference_runtime (Some ramirez_roster) "JOSÉ RAMÍREZ" = PlayerId 10 /\
  @resolve reference_runtime (Some bell_roster) "josh bell" = PlayerId 11 /\
  @resolve reference_runtime (Some nameless_roster) "judge" = Fault SearchFailed.
Proof.
  assert (Hne : judge_roster <> []) by discriminate.
  assert (Hramirez : ramirez_roster <> []) by discriminate.
  assert (Hbell : bell_roster <> []) by discriminate.
  assert (Hnameless : nameless_roster <> []) by discriminate.
  split; [exact Hne|]. split; [|split; [|split; [|split]]].
  - destruct (@resolve_first_match reference_runtime judge_roster "AARON (judge" Hne)
      as (_ & _ & _ & _ & Hsearch & _).
    rewrite Hsearch. reflexivity.
  - destruct (@resolve_first_match reference_runtime judge_roster " JUDGE" Hne)
      as (_ & _ & _ & _ & _ & Hresolve & _).
    rewrite Hresolve. reflexivity.
  - destruct (@resolve_first_match reference_runtime ramirez_roster "JOSÉ RAMÍREZ" Hramirez)
      as (_ & _ & _ & _ & _ & Hresolve & _).
    rewrite Hresolve. reflexivity.
  - destruct (@resolve_first_match reference_runtime bell_roster "josh bell" Hbell)
      as (_ & _ & _ & _ & _ & Hresolve & _).
    rewrite Hresolve. reflexivity.
  - destruct (@resolve_first_match reference_runtime nameless_roster "judge" Hnameless)
      as (_ & _ & _ & _ & _ & Hresolve & _).
    rewrite Hresolve. reflexivity.
Defined.

(** ** Languages of the two tables *)

Lemma translations_languages :
  Forall (fun entry => map fst (snd entry) =
                       ["English"; "Spanish"; "Japanese"; "French"; "Chinese"])
         translations.
Proof.
  repeat constructor.
Qed.

Lemma translations_stats_languages :
  Forall (fun entry => map fst (snd entry) = ["Spanish"; "Japanese"; "French"; "Chinese"])
         translations_stats.
Proof.
  repeat constructor.
Qed.

(** A language that a table has no column for leaves every key as it is. *)
Lemma lookup_unsupported_language
  (table : list (string * list (string * string))) (languages : list string)
  (language k : string) :
  Forall (fun entry => map fst (snd entry) = languages) table ->
  ~ In language languages ->
  dict_get language (dict_get k table []) k = k.
Proof.
  intros Htable Hlang. unfold dict_get at 2.
  destruct (assoc_get k table) as [row|] eqn:Erow; [|reflexivity].
  apply dict_get_absent, assoc_get_absent.
  apply assoc_get_In in Erow. rewrite Forall_forall in Htable.
  specialize (Htable _ Erow). simpl in Htable. now rewrite Htable.
Qed.

Lemma translate_attribute_unsupported (language : string) :
  ~ In language ["English"; "Spanish"; "Japanese"; "French"; "Chinese"] ->
  forall k, translate_attribute k language = k.
Proof.
  intros Hlang k. exact (lookup_unsupported_language _ _ _ _ translations_languages Hlang).
Qed.

Lemma get_translated_stat_unsupported (language : string) :
  ~ In language ["Spanish"; "Japanese"; "French"; "Chinese"] ->
  forall k, get_translated_stat k language = k.
Proof.
  intros Hlang k.
  exact (lookup_unsupported_language _ _ _ _ translations_stats_languages Hlang).
Qed.

Lemma dict_comprehension_ext {A : Type} (f g : string -> string) (items : list (string * A)) :
  (forall k, f k = g k) -> dict_comprehension f items = dict_comprehension g items.
Proof.
  intros Hfg. unfold dict_comprehension. generalize (@nil (string * A)).
  induction items as [|kv items IH]; intros acc; simpl; [reflexivity|].
  rewrite Hfg. apply IH.
Qed.

(** ** Player Summary Formatter *)

(** C3 as the claim words it fails: with every field absent the Active
    Player value is ["No"], so not all thirteen values are ["N/A"]. *)
Lemma not_all_thirteen_not_available :
  ~ (exists rows,
        @details_df reference_runtime (JObj []) "English" = Ok rows /\
        length rows = 13%nat /\
        forall label value, In (label, value) rows -> value = JStr "N/A").
Proof.
  intros (rows & Hrows & _ & Hall).
  vm_compute in Hrows. injection Hrows as <-.
  specialize (Hall "Active Player" (JStr "No")).
  assert (Hno : JStr "No" = JStr "N/A") by (apply Hall; simpl; tauto).
  discriminate Hno.
Qed.

(** C3, amended.  A detail record without any field formats without an
    exception, in every language: the table has the thirteen rows in the
    order of [key_attributes], labels translated; eleven values are
    ["N/A"], Birthplace is ["N/A, N/A, N/A"] and Active Player is ["No"]. *)
Theorem details_of_empty_record `{Runtime} (language : string) :
  let values :=
    [ ("Full Name", JStr "N/A");
      ("Primary Position", JStr "N/A");
      ("Jersey Number", JStr "N/A");
      ("Birth Date", JStr "N/A");
      ("Current Age", JStr "N/A");
      ("Birthplace", JStr "N/A, N/A, N/A");
      ("Height", JStr "N/A");
      ("Weight (lbs)", JStr "N/A");
      ("Active Player", JStr "No");
      ("MLB Debut Date", JStr "N/A");
      ("Bats", JStr "N/A");
      ("Throws", JStr "N/A");
      ("Nickname", JStr "N/A") ] in
  key_attributes (JObj []) = Ok values /\
  details_df (JObj []) language =
    Ok (map (fun kv => (translate_attribute (fst kv) language, snd kv)) values).
Proof.
  intros values. split; [reflexivity|].
  unfold details_df.
  change (key_attributes (JObj [])) with (Ok values). cbn [bind]. f_equal.
  unfold translated_attributes.
  destruct (in_dec string_dec language ["English"; "Spanish"; "Japanese"; "French"; "Chinese"])
    as [Hin|Hout].
  - simpl in Hin.
    destruct Hin as [<-|[<-|[<-|[<-|[<-|[]]]]]]; vm_compute; reflexivity.
  - rewrite (dict_comprehension_ext _ (fun k => k) values
               (translate_attribute_unsupported language Hout)).
    rewrite (map_ext _ (fun kv => (fst kv, snd kv))
               (fun kv => f_equal (fun k => (k, snd kv))
                            (translate_attribute_unsupported language Hout (fst kv)))).
    vm_compute. reflexivity.
Qed.

(** ** Traces *)

Lemma trace_and_then {A B : Type} (c : action A) (k : A -> action B) :
  trace (and_then c k) =
  (trace c ++ match snd c with
              | Done a => trace (k a)
              | _ => []
              end)%list.
Proof.
  destruct c as [evs [a|e|]]; simpl.
  - destruct (k a). reflexivity.
  - now rewrite app_nil_r.
  - now rewrite app_nil_r.
Qed.

Lemma Forall_and_then {A B : Type} (P : event -> Prop) (c : action A) (k : A -> action B) :
  Forall P (trace c) ->
  (forall a, Forall P (trace (k a))) ->
  Forall P (trace (and_then c k)).
Proof.
  intros Hc Hk. rewrite trace_and_then. apply Forall_app. split; [exact Hc|].
  destruct (snd c); [apply Hk | constructor | constructor].
Qed.

Lemma Forall_lift {A : Type} (P : event -> Prop) (r : result A) : Forall P (trace (lift r)).
Proof.
  destruct r; constructor.
Qed.

Lemma Forall_emit (P : event -> Prop) (e : event) : P e -> Forall P (trace (emit e)).
Proof.
  intros He. repeat constructor. exact He.
Qed.

Lemma Forall_for_each {A : Type} (P : event -> Prop) (xs : list A) (body : A -> action unit) :
  (forall x, Forall P (trace (body x))) -> Forall P (trace (for_each xs body)).
Proof.
  intros Hbody. induction xs as [|x xs IH]; simpl; [constructor|].
  apply Forall_and_then; [apply Hbody | intros _; exact IH].
Qed.

(** ** External Player Directory Client *)

(** C8. The roster request is built without the [season] argument: the
    address asks for 2024 whatever season is passed, for instance 2023.
    The stats request, by contrast, carries the season it is given. *)
Theorem get_all_players_ignores_season :
  (forall (w : world) (season : Z),
      exists rest,
        trace (get_all_players w season) =
        RequestsGet "https://statsapi.mlb.com/api/v1/sports/1/players?season=2024" [] :: rest) /\
  get_all_players_url 2023 <>
  "https://statsapi.mlb.com/api/v1/sports/1/players?season=" ++ decimal 2023 /\
  (forall (w : world) (player_id : option Z) (season : Z),
      exists rest,
        trace (get_player_stats w player_id season) =
        RequestsGet ("https://statsapi.mlb.com/api/v1/people/" ++ id_text player_id)
                    (stats_params season) :: rest) /\
  (forall season, assoc_get "season" (stats_params season) = Some (decimal season)).
Proof.
  split; [|split; [|split]].
  - intros w season. unfold get_all_players, process_endpoint_url.
    rewrite trace_and_then. eexists. reflexivity.
  - vm_compute. discriminate.
  - intros w player_id season. unfold get_player_stats.
    rewrite trace_and_then. eexists. reflexivity.
  - reflexivity.
Qed.

(** ** Stat Flattening Pipeline *)

Lemma flattened_split_keys (split : json) (flattened : list (string * json)) :
  flattened_split split = Ok flattened -> map fst flattened = split_columns.
Proof.
  unfold flattened_split. intros Hflat.
  repeat match type of Hflat with
         | bind ?c _ = _ => destruct c; cbn [bind] in Hflat; [|discriminate Hflat]
         end.
  injection Hflat as <-. reflexivity.
Qed.

Lemma add_column_keeps (cs : list string) (k x : string) :
  In x cs -> In x (if existsb (String.eqb k) cs then cs else (cs ++ [k])%list).
Proof.
  intros Hx. destruct (existsb _ cs); [exact Hx | apply in_or_app; now left].
Qed.

Lemma add_column_adds (cs : list string) (k : string) :
  In k (if existsb (String.eqb k) cs then cs else (cs ++ [k])%list).
Proof.
  destruct (existsb (String.eqb k) cs) eqn:E.
  - apply existsb_exists in E. destruct E as (x & Hx & Heq).
    apply String.eqb_eq in Heq. now subst x.
  - apply in_or_app. right. now left.
Qed.

Lemma add_columns_adds (keys cols : list string) (k : string) :
  In k keys \/ In k cols ->
  In k (fold_left (fun cs k => if existsb (String.eqb k) cs then cs else (cs ++ [k])%list)
                  keys cols).
Proof.
  revert cols. induction keys as [|k' keys IH]; intros cols; simpl.
  - now intros [[]|H].
  - intros [[->|Hk]|Hc]; apply IH.
    + right. apply add_column_adds.
    + now left.
    + right. now apply add_column_keeps.
Qed.

Section FrameProperties.
Context {runtime : Runtime}.

Lemma columns_pd_DataFrame (data : list (list (string * json))) :
  columns (pd_DataFrame data) = fold_left add_columns data [].
Proof.
  unfold columns, pd_DataFrame. rewrite map_map. apply map_id.
Qed.

(** Every column of a frame has one cell per record. *)
Lemma pd_DataFrame_lengths (data : list (list (string * json))) :
  Forall (fun col => length (snd col) = length data) (pd_DataFrame data).
Proof.
  unfold pd_DataFrame. apply Forall_forall. intros col Hcol.
  apply in_map_iff in Hcol. destruct Hcol as (c & <- & _).
  cbn [snd]. now rewrite stored_length, length_map.
Qed.

Lemma columns_hold_last_record (cleaned : list (list (string * json)))
  (flattened : list (string * json)) (k : string) :
  In k (map fst flattened) ->
  In k (columns (pd_DataFrame (cleaned ++ [flattened]))).
Proof.
  intros Hk. rewrite columns_pd_DataFrame.
  rewrite fold_left_app. cbn [fold_left]. unfold add_columns at 1.
  apply add_columns_adds. now left.
Qed.

Lemma empty_false (df : DataFrame) (n : nat) :
  df <> [] -> Forall (fun col => length (snd col) = S n) df -> empty df = false.
Proof.
  intros Hdf Hlengths. destruct df as [|[c cells] df]; [now elim Hdf|].
  inversion Hlengths as [|? ? Hcells _]; subst. cbn [snd] in Hcells.
  destruct cells; [discriminate Hcells | reflexivity].
Qed.

(** The frame tested by [if not stats_df.empty] always has the Team column
    and the row just appended. *)
Lemma shown_frame_not_empty (cleaned : list (list (string * json)))
  (split : json) (flattened : list (string * json)) :
  flattened_split split = Ok flattened ->
  let stats_df := pd_DataFrame (cleaned ++ [flattened]) in
  empty (if existsb (String.eqb "Player") (columns stats_df)
         then drop "Player" stats_df
         else stats_df) = false.
Proof.
  intros Hflat stats_df.
  assert (Hteam : In "Team" (columns stats_df)).
  { apply columns_hold_last_record. rewrite (flattened_split_keys _ _ Hflat).
    simpl. tauto. }
  assert (Hrows : Forall (fun col => length (snd col) = S (length cleaned)) stats_df).
  { pose proof (pd_DataFrame_lengths (cleaned ++ [flattened])) as Hlengths.
    rewrite length_app, Nat.add_1_r in Hlengths. exact Hlengths. }
  unfold columns in Hteam. apply in_map_iff in Hteam.
  destruct Hteam as (col & Hname & Hcol).
  destruct (existsb _ (columns stats_df)).
  - apply empty_false with (n := length cleaned).
    + intros Hnone.
      assert (Hin : In col (drop "Player" stats_df)).
      { unfold drop. apply filter_In. split; [exact Hcol|]. now rewrite Hname. }
      rewrite Hnone in Hin. exact Hin.
    + unfold drop. rewrite Forall_forall in *. intros c Hc.
      apply filter_In in Hc. now apply Hrows.
  - apply empty_false with (n := length cleaned); [|exact Hrows].
    intros Hnone. rewrite Hnone in Hcol. exact Hcol.
Qed.

Lemma render_splits_step (language : string) (cleaned : list (list (string * json)))
  (split : json) (rest : list json) (flattened : list (string * json)) :
  flattened_split split = Ok flattened ->
  let shown :=
    let stats_df := pd_DataFrame (cleaned ++ [flattened]) in
    if existsb (String.eqb "Player") (columns stats_df)
    then drop "Player" stats_df
    else stats_df in
  render_splits language cleaned (split :: rest) =
  (emit (StDataframe (fst (stats_df_two_columns language shown))
                     (snd (stats_df_two_columns language shown))) ;;;
   render_splits language (cleaned ++ [flattened]) rest).
Proof.
  intros Hflat shown. cbn [render_splits]. rewrite Hflat.
  unfold lift, and_then at 1.
  fold shown. rewrite (shown_frame_not_empty cleaned split flattened Hflat : empty shown = false).
  cbn [negb]. destruct (and_then _ _). reflexivity.
Qed.

(** The [else] branch that writes the "no data" line is never taken. *)
Lemma render_splits_never_no_data (language : string) (stats_splits : list json) :
  forall cleaned,
    Forall (fun e => e <> StWrite no_data_available)
           (trace (render_splits language cleaned stats_splits)).
Proof.
  induction stats_splits as [|split rest IH]; intros cleaned; [constructor|].
  destruct (flattened_split split) as [flattened|err] eqn:Hflat.
  - rewrite (render_splits_step language cleaned split rest flattened Hflat).
    apply Forall_and_then; [|intros _; apply IH].
    apply Forall_emit. discriminate.
  - cbn [render_splits]. rewrite Hflat. constructor.
Qed.

End FrameProperties.

(** C1. For the group of the scenario, whose [splits] list is empty, the
    pipeline raises nothing but shows the title line only: the "no data"
    line is not written.  It is written for no group at all, because its
    [else] hangs on the emptiness test of a frame that always has a row. *)
Theorem empty_splits_show_title_only `{Runtime}
  (language : string) (attributes : list (string * json)) (season : Z) (full_name : json) :
  render_group language (("Full Name", full_name) :: attributes) season empty_hitting_group =
    ([StWrite ("**" ++ py_str full_name ++ "** - " ++ decimal season ++ " Season Stats:")],
     Done tt) /\
  (forall attrs stat_group,
      Forall (fun e => e <> StWrite no_data_available)
             (trace (render_group language attrs season stat_group))).
Proof.
  split; [reflexivity|].
  intros attrs stat_group. unfold render_group.
  apply Forall_and_then; [apply Forall_lift | intros group].
  apply Forall_and_then; [apply Forall_lift | intros type_label].
  apply Forall_and_then; [apply Forall_lift | intros name].
  apply Forall_and_then.
  { apply Forall_emit. intros Heq. injection Heq as Heq. discriminate Heq. }
  intros _.
  apply Forall_and_then; [apply Forall_lift | intros stats_splits].
  destruct (truthy stats_splits); [|constructor].
  apply Forall_and_then; [apply Forall_lift | intros splits].
  apply render_splits_never_no_data.
Qed.

Section RoundTrip.
Context {runtime : Runtime}.

Lemma flattened_split_shaped (fields stat : list (string * json))
  (games_played runs hits home_runs stolen_bases rbi : json) :
  object_or_absent "team" fields ->
  text_or_absent "team" "name" fields ->
  object_or_absent "player" fields ->
  assoc_get "stat" fields = Some (JObj stat) ->
  assoc_get "gamesPlayed" stat = Some games_played ->
  assoc_get "runs" stat = Some runs ->
  assoc_get "hits" stat = Some hits ->
  assoc_get "homeRuns" stat = Some home_runs ->
  assoc_get "stolenBases" stat = Some stolen_bases ->
  assoc_get "rbi" stat = Some rbi ->
  exists team player,
    flattened_split (JObj fields) =
    Ok [ ("Team", JStr team); ("Player", player); ("Games Played", games_played);
         ("Runs", runs); ("Hits", hits); ("Home Runs", home_runs);
         ("Stolen Bases", stolen_bases); ("RBI", rbi) ].
Proof.
  unfold object_or_absent, text_or_absent, flattened_split,
    py_get at 1 3 5 7 9 11 13 15, dict_get.
  intros Hteam Hname Hplayer -> Hg Hr Hh Hhr Hsb Hrbi.
  destruct (assoc_get "team" fields) as [[| | | | |team]|]; try contradiction;
    destruct (assoc_get "player" fields) as [[]|]; try contradiction;
    cbn [bind py_get]; unfold dict_get; rewrite Hg, Hr, Hh, Hhr, Hsb, Hrbi;
    try (destruct (assoc_get "name" team) as [[]|]; try contradiction);
    do 2 eexists; reflexivity.
Qed.

(** The table of a split flattened on its own: its seven fields as they
    are, under the translated names. *)
Lemma first_split_table (language team : string)
  (player games_played runs hits home_runs stolen_bases rbi : json) :
  let flattened :=
    [ ("Team", JStr team); ("Player", player); ("Games Played", games_played);
      ("Runs", runs); ("Hits", hits); ("Home Runs", home_runs);
      ("Stolen Bases", stolen_bases); ("RBI", rbi) ] in
  let stats_df := pd_DataFrame ([] ++ [flattened]) in
  snd (stats_df_two_columns language
         (if existsb (String.eqb "Player") (columns stats_df)
          then drop "Player" stats_df
          else stats_df)) =
  map (fun row => (get_translated_stat (fst row) language, snd row))
      [ ("Team", Value (JStr team)); ("Games Played", Value games_played);
        ("Runs", Value runs); ("Hits", Value hits); ("Home Runs", Value home_runs);
        ("Stolen Bases", Value stolen_bases); ("RBI", Value rbi) ].
Proof.
  intros flattened stats_df.
  assert (Hframe : stats_df =
    [ ("Team", [Value (JStr team)]); ("Player", [Value player]);
      ("Games Played", [Value games_played]); ("Runs", [Value runs]);
      ("Hits", [Value hits]); ("Home Runs", [Value home_runs]);
      ("Stolen Bases", [Value stolen_bases]); ("RBI", [Value rbi]) ]).
  { unfold stats_df, pd_DataFrame, flattened.
    cbn [app fold_left add_columns map fst existsb String.eqb Ascii.eqb Bool.eqb orb
         assoc_get].
    rewrite !stored_alone. reflexivity. }
  rewrite Hframe. unfold stats_df_two_columns, melt. cbn [snd]. f_equal.
  cbn [columns map fst snd existsb String.eqb Ascii.eqb Bool.eqb orb negb drop filter].
  rewrite melted_with_text by reflexivity. reflexivity.
Qed.

(** C7 as the claim words it fails.  A split that holds the six counters
    and whose [team] is [null] raises when it is flattened, and no table is
    shown for it.  In a group of two splits the table shown for the second
    holds the rows of the first too, and read at a counter's name it gives
    the first split's value.  And after a split whose counter is [null] the
    column is stored as [float64], so that the integer of the next split is
    shown as a float. *)
Lemma counters_present_but_not_recovered :
  split_without_team = JObj [ ("team", JNull); ("stat", JObj sample_stat) ] /\
  map fst sample_stat = ["gamesPlayed"; "runs"; "hits"; "homeRuns"; "stolenBases"; "rbi"] /\
  @render_splits reference_runtime "English" [] [split_without_team] =
    ([], Raised (AttributeError "NoneType" "get")) /\
  (exists first second,
      @render_splits reference_runtime "English" [] [sample_split; second_split] =
        ([StDataframe ("Stat", "Value") first; StDataframe ("Stat", "Value") second], Done tt) /\
      flattened_split second_split =
        Ok [ ("Team", JStr "Chicago Cubs"); ("Player", JStr "Aaron Judge");
             ("Games Played", JInt 20); ("Runs", JInt 7); ("Hits", JInt 15);
             ("Home Runs", JInt 3); ("Stolen Bases", JInt 1); ("RBI", JInt 9) ] /\
      read_value "Runs" second = Some (Value (JInt 122)) /\
      read_value "Runs" second <> Some (Value (JInt 7))) /\
  (exists first second,
      @render_splits reference_runtime "English" [] [split_with_null_runs; sample_split] =
        ([StDataframe ("Stat", "Value") first; StDataframe ("Stat", "Value") second], Done tt) /\
      In ("Runs", Float64 122) second /\
      ~ In ("Runs", Value (JInt 122)) second).
Proof.
  split; [reflexivity|]. split; [reflexivity|]. split; [reflexivity|]. split.
  - do 2 eexists. split; [vm_compute; reflexivity|].
    split; [reflexivity|]. split; [reflexivity | discriminate].
  - do 2 eexists. split; [vm_compute; reflexivity|]. split.
    + simpl. tauto.
    + simpl. intros Hin.
      repeat (destruct Hin as [Hin|Hin]; [discriminate Hin|]). exact Hin.
Qed.

(** C7, amended.  Take a split whose [stat] record holds the six
    counters, whose [team] and [player], where present, are objects, and
    whose team name, where present, is a text.  Flattened on its own (as
    the first split of its group) it gives one table of seven rows, and
    reading the table at the (translated) name of a counter gives back the
    value the split held, whatever pandas version stores and melts the
    frame: the very same value, so an integer counter comes back as that
    integer. *)
Theorem flatten_round_trip (language : string) (fields stat : list (string * json))
  (games_played runs hits home_runs stolen_bases rbi : json) :
  object_or_absent "team" fields ->
  text_or_absent "team" "name" fields ->
  object_or_absent "player" fields ->
  assoc_get "stat" fields = Some (JObj stat) ->
  assoc_get "gamesPlayed" stat = Some games_played ->
  assoc_get "runs" stat = Some runs ->
  assoc_get "hits" stat = Some hits ->
  assoc_get "homeRuns" stat = Some home_runs ->
  assoc_get "stolenBases" stat = Some stolen_bases ->
  assoc_get "rbi" stat = Some rbi ->
  exists header rows,
    render_splits language [] [JObj fields] = ([StDataframe header rows], Done tt) /\
    length rows = 7%nat /\
    read_value (get_translated_stat "Games Played" language) rows = Some (Value games_played) /\
    read_value (get_translated_stat "Runs" language) rows = Some (Value runs) /\
    read_value (get_translated_stat "Hits" language) rows = Some (Value hits) /\
    read_value (get_translated_stat "Home Runs" language) rows = Some (Value home_runs) /\
    read_value (get_translated_stat "Stolen Bases" language) rows = Some (Value stolen_bases) /\
    read_value (get_translated_stat "RBI" language) rows = Some (Value rbi).
Proof.
  intros Hteam Hname Hplayer Hstat Hg Hr Hh Hhr Hsb Hrbi.
  destruct (flattened_split_shaped _ _ _ _ _ _ _ _
              Hteam Hname Hplayer Hstat Hg Hr Hh Hhr Hsb Hrbi) as (team & player & Hflat).
  rewrite (render_splits_step language [] (JObj fields) [] _ Hflat).
  do 2 eexists. split; [reflexivity|].
  rewrite first_split_table.
  destruct (in_dec string_dec language ["Spanish"; "Japanese"; "French"; "Chinese"])
    as [Hin|Hout].
  - simpl in Hin.
    destruct Hin as [<-|[<-|[<-|[<-|[]]]]]; vm_compute; repeat split; reflexivity.
  - rewrite (map_ext _ (fun row => (fst row, snd row))
               (fun row => f_equal (fun k => (k, snd row))
                             (get_translated_stat_unsupported language Hout (fst row)))).
    rewrite !(get_translated_stat_unsupported language Hout).
    vm_compute. repeat split; reflexivity.
Qed.

End RoundTrip.

Lemma flatten_round_trip_witness :
  object_or_absent "team" sample_split_fields /\
  text_or_absent "team" "name" sample_split_fields /\
  object_or_absent "player" sample_split_fields /\
  assoc_get "stat" sample_split_fields = Some (JObj sample_stat) /\
  exists header rows,
    @render_splits reference_runtime "Japanese" [] [sample_split] =
      ([StDataframe header rows], Done tt) /\
    length rows = 7%nat /\
    read_value (get_translated_stat "Games Played" "Japanese") rows = Some (Value (JInt 158)) /\
    read_value (get_translated_stat "Runs" "Japanese") rows = Some (Value (JInt 122)) /\
    read_value (get_translated_stat "Hits" "Japanese") rows = Some (Value (JInt 180)) /\
    read_value (get_translated_stat "Home Runs" "Japanese") rows = Some (Value (JInt 58)) /\
    read_value (get_translated_stat "Stolen Bases" "Japanese") rows = Some (Value (JInt 10)) /\
    read_value (get_translated_stat "RBI" "Japanese") rows = Some (Value (JInt 144)).
Proof.
  split; [exact I|]. split; [exact I|]. split; [exact I|]. split; [reflexivity|].
  apply (@flatten_round_trip reference_runtime "Japanese" sample_split_fields sample_stat
           (JInt 158) (JInt 122) (JInt 180) (JInt 58) (JInt 10) (JInt 144)
           I I I eq_refl eq_refl eq_refl eq_refl eq_refl eq_refl eq_refl).
Defined.

(** ** The Analyze action *)

Lemma trace_try_except {A : Type} (body : action A) (handler : exn -> action A) :
  trace (try_except body handler) =
  (trace body ++ match snd body with
                 | Raised e => trace (handler e)
                 | _ => []
                 end)%list.
Proof.
  destruct body as [evs [a|e|]]; simpl.
  - now rewrite app_nil_r.
  - destruct (handler e). reflexivity.
  - now rewrite app_nil_r.
Qed.

Lemma identification_writes_app (a b : list event) :
  identification_writes (a ++ b) = (identification_writes a ++ identification_writes b)%list.
Proof.
  apply flat_map_app.
Qed.

Lemma identification_writes_none (events : list event) :
  Forall no_write events -> identification_writes events = [].
Proof.
  induction 1 as [|e events He _ IH]; [reflexivity|].
  unfold identification_writes in *. cbn [flat_map]. rewrite IH, app_nil_r.
  destruct e; try reflexivity. now elim (He collection document).
Qed.

Ltac no_write_step :=
  match goal with
  | |- Forall _ (trace (and_then _ _)) => apply Forall_and_then; [|intros ?]
  | |- Forall _ (trace (emit _)) => apply Forall_emit; intros ? ?; discriminate
  | |- Forall _ (trace (lift _)) => apply Forall_lift
  | |- Forall _ (trace (ret _)) => constructor
  | |- Forall _ (trace st_stop) => constructor
  | |- Forall _ (trace (for_each _ _)) => apply Forall_for_each; intros ?
  | |- Forall _ (trace (match ?x with _ => _ end)) => destruct x
  end.

Lemma render_splits_no_write `{Runtime} (language : string) (stats_splits : list json) :
  forall cleaned, Forall no_write (trace (render_splits language cleaned stats_splits)).
Proof.
  induction stats_splits as [|split rest IH]; intros cleaned; [constructor|].
  cbn [render_splits]. repeat no_write_step. apply IH.
Qed.

Section AnalyzeProperties.
Context {runtime : Runtime}.

Lemma render_stats_no_write (language : string) (attributes : list (string * json))
  (season : Z) (player_stats : option json) :
  Forall no_write (trace (render_stats language attributes season player_stats)).
Proof.
  unfold render_stats, render_group.
  repeat no_write_step. apply render_splits_no_write.
Qed.

Lemma get_player_stats_no_write (w : world) (player_id : option Z) (season : Z) :
  Forall no_write (trace (get_player_stats w player_id season)).
Proof.
  unfold get_player_stats. repeat no_write_step.
Qed.

Lemma lookup_and_render_no_write (w : world) (language name : string) :
  Forall no_write (trace (lookup_and_render w language name)).
Proof.
  unfold lookup_and_render, get_all_players, process_endpoint_url, get_player_details,
    render_player.
  repeat no_write_step;
    first [apply render_stats_no_write | apply get_player_stats_no_write].
Qed.

Lemma analysis_after_recognition (w : world) (email language text : string) :
  generate_content w = inr text ->
  strip text <> "" ->
  analysis w email language =
  (GenerateContent :: StWrite ("Extracted Player Name: " ++ strip text) ::
     trace (save_user_data w email (strip text) language ;;;
            lookup_and_render w language (strip text)),
   snd (save_user_data w email (strip text) language ;;;
        lookup_and_render w language (strip text))).
Proof.
  intros Hgen Hname. unfold analysis, get_player_name_from_image.
  rewrite Hgen. apply String.eqb_neq in Hname.
  cbn [and_then emit ret app]. rewrite Hname.
  destruct (and_then _ _) as [evs o]. reflexivity.
Qed.

Lemma analysis_without_name (w : world) (email language : string) :
  (forall text, generate_content w = inr text -> strip text = "") ->
  Forall no_write (trace (analysis w email language)).
Proof.
  intros Hname. unfold analysis, get_player_name_from_image.
  destruct (generate_content w) as [e|text].
  - cbn. repeat constructor; intros ? ?; discriminate.
  - rewrite (Hname text eq_refl). cbn. repeat constructor; intros ? ?; discriminate.
Qed.

Lemma analyze_writes (w : world) (email language : string) :
  identification_writes (analyze w email language) =
  if String.eqb email "" then [] else identification_writes (trace (analysis w email language)).
Proof.
  unfold analyze. destruct (String.eqb email ""); [reflexivity|].
  rewrite trace_try_except, identification_writes_app.
  destruct (snd (analysis w email language)); now rewrite app_nil_r.
Qed.

Lemma lookup_starts_with_roster_request (w : world) (language name : string) :
  exists rest,
    trace (lookup_and_render w language name) =
    RequestsGet (get_all_players_url 2024) [] :: rest.
Proof.
  unfold lookup_and_render. rewrite trace_and_then.
  unfold get_all_players, process_endpoint_url.
  destruct (people_frame w _); cbn; eexists; reflexivity.
Qed.

(** C6 as the claim words it fails: the directory service being down, the
    roster fetch faults, and the identification is in the store already. *)
Lemma identification_written_before_roster_fault :
  people_frame directory_down (get_all_players_url 2024) = inl "503 Server Error" /\
  @analyze reference_runtime directory_down "fan@example.com" "English" =
    [ GenerateContent;
      StWrite "Extracted Player Name: Aaron Judge";
      FirestoreAdd "users" [ ("email", "fan@example.com"); ("player_name", "Aaron Judge");
                             ("language", "English") ];
      StSuccess "Data saved for Aaron Judge.";
      RequestsGet "https://statsapi.mlb.com/api/v1/sports/1/players?season=2024" [];
      StError (Text "Error processing endpoint: 503 Server Error");
      StError (Text "Could not fetch players for the 2024 season.") ] /\
  identification_writes
    (@analyze reference_runtime directory_down "fan@example.com" "English") <> [].
Proof.
  split; [reflexivity|]. split; [reflexivity|]. vm_compute. discriminate.
Qed.

(** C6, amended.  The identification is written once the recognition step
    has given a non-empty name, before the roster is requested, and
    nothing that follows writes again: with an email and a name, and the
    store accepting the document, the trace holds exactly that one write,
    placed ahead of the roster request, whatever the roster fetch, the
    resolution and the detail fetch then do.  Without an email, without a
    usable name, or when the store refuses, nothing is written. *)
Theorem identification_written_after_recognition (w : world) (email language : string) :
  (email = "" -> identification_writes (analyze w email language) = []) /\
  ((forall text, generate_content w = inr text -> strip text = "") ->
   identification_writes (analyze w email language) = []) /\
  (forall text,
      generate_content w = inr text -> strip text <> "" -> email <> "" ->
      let document :=
        [("email", email); ("player_name", strip text); ("language", language)] in
      (forall e, users_add w document = Some e ->
                 identification_writes (analyze w email language) = []) /\
      (users_add w document = None ->
       identification_writes (analyze w email language) = [document] /\
       exists rest,
         Forall no_write rest /\
         analyze w email language =
         GenerateContent ::
         StWrite ("Extracted Player Name: " ++ strip text) ::
         FirestoreAdd "users" document ::
         StSuccess ("Data saved for " ++ strip text ++ ".") ::
         RequestsGet (get_all_players_url 2024) [] :: rest)).
Proof.
  split; [|split].
  - intros ->. reflexivity.
  - intros Hname. rewrite analyze_writes. destruct (String.eqb email ""); [reflexivity|].
    apply identification_writes_none, analysis_without_name, Hname.
  - intros text Hgen Hname Hemail document.
    pose proof (lookup_and_render_no_write w language (strip text)) as Hquiet.
    apply String.eqb_neq in Hemail. split.
    + intros e Hadd. rewrite analyze_writes, Hemail.
      rewrite (analysis_after_recognition w email language text Hgen Hname).
      cbn [trace fst]. apply identification_writes_none.
      constructor; [intros ? ?; discriminate|].
      constructor; [intros ? ?; discriminate|].
      apply Forall_and_then; [|intros _; exact Hquiet].
      unfold save_user_data. fold document. rewrite Hadd.
      apply Forall_emit. intros ? ?; discriminate.
    + intros Hadd.
      assert (Hsave : save_user_data w email (strip text) language =
                      ([FirestoreAdd "users" document;
                        StSuccess ("Data saved for " ++ strip text ++ ".")], Done tt)).
      { unfold save_user_data. fold document. rewrite Hadd. reflexivity. }
      split.
      * rewrite analyze_writes, Hemail.
        rewrite (analysis_after_recognition w email language text Hgen Hname).
        cbn [trace fst]. rewrite trace_and_then, Hsave. cbn [trace fst snd app].
        change (identification_writes
                  (GenerateContent :: StWrite ("Extracted Player Name: " ++ strip text) ::
                   FirestoreAdd "users" document ::
                   StSuccess ("Data saved for " ++ strip text ++ ".") ::
                   trace (lookup_and_render w language (strip text))))
          with (document :: identification_writes
                              (trace (lookup_and_render w language (strip text)))).
        now rewrite (identification_writes_none _ Hquiet).
      * destruct (lookup_starts_with_roster_request w language (strip text))
          as (rest & Hrest).
        unfold analyze. rewrite Hemail, trace_try_except.
        rewrite (analysis_after_recognition w email language text Hgen Hname).
        cbn [trace fst snd]. rewrite trace_and_then, Hsave. cbn [trace fst snd app].
        rewrite Hrest in Hquiet |- *. inversion Hquiet as [|? ? _ Hquiet']; subst.
        eexists. split; [|reflexivity].
        apply Forall_app. split; [exact Hquiet'|].
        destruct (snd _); repeat constructor; intros ? ?; discriminate.
Qed.

End AnalyzeProperties.

Lemma identification_written_after_recognition_witness :
  generate_content padded_answer = inr ("Aaron Judge" ++ no_break_space) /\
  strip ("Aaron Judge" ++ no_break_space) <> "" /\
  "fan@example.com" <> "" /\
  users_add padded_answer
    [("email", "fan@example.com"); ("player_name", "Aaron Judge"); ("language", "English")]
  = None /\
  identification_writes (@analyze reference_runtime padded_answer "fan@example.com" "English")
  = [[("email", "fan@example.com"); ("player_name", "Aaron Judge"); ("language", "English")]].
Proof.
  assert (Hname : strip ("Aaron Judge" ++ no_break_space) <> "") by discriminate.
  assert (Hemail : "fan@example.com" <> "") by discriminate.
  split; [reflexivity|]. split; [exact Hname|]. split; [exact Hemail|].
  split; [reflexivity|].
  destruct (@identification_written_after_recognition reference_runtime padded_answer
              "fan@example.com" "English") as (_ & _ & Hwrite).
  destruct (Hwrite ("Aaron Judge" ++ no_break_space) eq_refl Hname Hemail) as (_ & Hstored).
  destruct (Hstored eq_refl) as (Hone & _).
  exact Hone.
Defined.

(** An answer that is a no-break space only is no name: the action stops
    before anything is stored or requested. *)
Lemma blank_answer_is_no_name :
  strip no_break_space = "" /\
  @analyze reference_runtime blank_answer "fan@example.com" "English" =
  [ GenerateContent;
    StWrite "Extracted Player Name: ";
    StError (Text "Could not extract player name from the image.") ].
Proof.
  split; reflexivity.
Qed.

(** * Further properties *)

(** ** The two tables and the language selector *)

(** X1. English leaves every key as it is, in both tables: the attribute
    table stores each key as its own English label, the stat table has no
    English column, and a key that is in neither table falls back to
    itself. *)
Theorem english_is_identity (k : string) :
  translate_attribute k "English" = k /\ get_translated_stat k "English" = k.
Proof.
  split.
  - unfold translate_attribute. unfold dict_get at 2.
    destruct (assoc_get k translations) as [row|] eqn:Erow; [|reflexivity].
    apply assoc_get_In in Erow. simpl in Erow.
    repeat (destruct Erow as [Erow|Erow]; [injection Erow as <- <-; reflexivity|]).
    contradiction.
  - apply get_translated_stat_unsupported. simpl. intuition discriminate.
Qed.

(** X2. Every language the selector can yield has its own label for each
    of the thirteen attributes, and, English apart, for each of the seven
    columns of a stats table: no row of either table falls back to the key
    for want of an entry. *)
Theorem selectable_languages_are_tabulated (display language : string) :
  assoc_get display language_options = Some language ->
  (forall k, In k attribute_keys ->
             exists label,
               assoc_get language (dict_get k translations []) = Some label /\
               translate_attribute k language = label) /\
  (language <> "English" ->
   forall c, In c shown_columns ->
             exists label,
               assoc_get language (dict_get c translations_stats []) = Some label /\
               get_translated_stat c language = label).
Proof.
  intros Hoption. apply assoc_get_In in Hoption. simpl in Hoption.
  repeat (destruct Hoption as [Hoption|Hoption];
          [injection Hoption as _ <-; split;
           [ intros k Hk; simpl in Hk;
             repeat (destruct Hk as [<-|Hk]; [eexists; split; reflexivity|]);
             contradiction
           | intros Hlang c Hc; try (now elim Hlang); simpl in Hc;
             repeat (destruct Hc as [<-|Hc]; [eexists; split; reflexivity|]);
             contradiction ] |]).
  contradiction.
Qed.

Lemma selectable_languages_are_tabulated_witness :
  assoc_get "Japanese 🇯🇵" language_options = Some "Japanese" /\
  translate_attribute "Height" "Japanese" = "身長" /\
  get_translated_stat "Home Runs" "Japanese" = "本塁打".
Proof.
  split; [reflexivity|].
  destruct (selectable_languages_are_tabulated "Japanese 🇯🇵" "Japanese" eq_refl)
    as (Hattribute & Hstat).
  split.
  - destruct (Hattribute "Height") as (label & Hrow & Hlabel); [simpl; tauto|].
    rewrite Hlabel. injection Hrow as <-. reflexivity.
  - destruct (Hstat ltac:(discriminate) "Home Runs") as (label & Hrow & Hlabel);
      [simpl; tauto|].
    rewrite Hlabel. injection Hrow as <-. reflexivity.
Defined.

(** ** Player Summary Formatter *)

Lemma key_attributes_keys `{Runtime} (player_info : json) (attributes : list (string * json)) :
  key_attributes player_info = Ok attributes -> map fst attributes = attribute_keys.
Proof.
  unfold key_attributes. intros Hok.
  repeat match type of Hok with
         | bind ?c _ = _ => destruct c; cbn [bind] in Hok; [|discriminate Hok]
         end.
  injection Hok as <-. reflexivity.
Qed.

Lemma nested_get_ok (fields : list (string * json)) (outer inner : string) (default : json) :
  object_or_absent outer fields ->
  exists v, py_get (dict_get outer fields (JObj [])) inner default = Ok v.
Proof.
  unfold object_or_absent, dict_get.
  destruct (assoc_get outer fields) as [[]|]; try contradiction; intros _; eexists; reflexivity.
Qed.

Lemma nested_get_raise (fields : list (string * json)) (outer inner : string) (default : json) :
  ~ object_or_absent outer fields ->
  exists ty, py_get (dict_get outer fields (JObj [])) inner default
             = Raise (AttributeError ty "get").
Proof.
  unfold object_or_absent, dict_get.
  destruct (assoc_get outer fields) as [[]|]; intros Hnot;
    try (now elim Hnot); eexists; reflexivity.
Qed.

Lemma object_or_absent_dec (k : string) (fields : list (string * json)) :
  object_or_absent k fields \/ ~ object_or_absent k fields.
Proof.
  unfold object_or_absent. destruct (assoc_get k fields) as [[]|]; tauto.
Qed.

(** X3. The attribute dictionary is built exactly when the detail record
    is an object whose [primaryPosition], [batSide] and [pitchHand] are
    objects where present; any other record, one with a [null] position
    for instance, raises [AttributeError] on [get].  A built dictionary has
    the thirteen keys in their fixed order. *)
Theorem key_attributes_faults_exactly `{Runtime} (player_info : json) :
  ((exists attributes, key_attributes player_info = Ok attributes) <->
   (exists fields,
       player_info = JObj fields /\
       object_or_absent "primaryPosition" fields /\
       object_or_absent "batSide" fields /\
       object_or_absent "pitchHand" fields)) /\
  (forall e, key_attributes player_info = Raise e ->
             exists ty, e = AttributeError ty "get") /\
  (forall attributes, key_attributes player_info = Ok attributes ->
                      map fst attributes = attribute_keys).
Proof.
  split; [|split; [|apply key_attributes_keys]].
  - split.
    + intros (attributes & Hok).
      destruct player_info as [| | | | |fields]; try discriminate Hok.
      exists fields. split; [reflexivity|].
      unfold key_attributes in Hok. cbn [bind py_get] in Hok.
      destruct (object_or_absent_dec "primaryPosition" fields) as [Hp|Hp];
        [|destruct (nested_get_raise fields "primaryPosition" "name" (JStr "N/A") Hp)
            as (ty & Hraise); rewrite Hraise in Hok; discriminate Hok].
      destruct (nested_get_ok fields "primaryPosition" "name" (JStr "N/A") Hp) as (p & Hpv).
      rewrite Hpv in Hok. cbn [bind] in Hok.
      destruct (object_or_absent_dec "batSide" fields) as [Hb|Hb];
        [|destruct (nested_get_raise fields "batSide" "description" (JStr "N/A") Hb)
            as (ty & Hraise); rewrite Hraise in Hok; discriminate Hok].
      destruct (nested_get_ok fields "batSide" "description" (JStr "N/A") Hb) as (b & Hbv).
      rewrite Hbv in Hok. cbn [bind] in Hok.
      destruct (object_or_absent_dec "pitchHand" fields) as [Ht|Ht];
        [|destruct (nested_get_raise fields "pitchHand" "description" (JStr "N/A") Ht)
            as (ty & Hraise); rewrite Hraise in Hok; discriminate Hok].
      tauto.
    + intros (fields & -> & Hp & Hb & Ht).
      unfold key_attributes. cbn [bind py_get].
      destruct (nested_get_ok fields "primaryPosition" "name" (JStr "N/A") Hp) as (p & ->).
      destruct (nested_get_ok fields "batSide" "description" (JStr "N/A") Hb) as (b & ->).
      destruct (nested_get_ok fields "pitchHand" "description" (JStr "N/A") Ht) as (t & ->).
      cbn [bind]. eexists. reflexivity.
  - intros e Hraise.
    destruct player_info as [| | | | |fields];
      try (injection Hraise as <-; eexists; reflexivity).
    unfold key_attributes in Hraise. cbn [bind py_get] in Hraise.
    destruct (object_or_absent_dec "primaryPosition" fields) as [Hp|Hp];
      [|destruct (nested_get_raise fields "primaryPosition" "name" (JStr "N/A") Hp)
          as (ty & Hr); rewrite Hr in Hraise; injection Hraise as <-; now exists ty].
    destruct (nested_get_ok fields "primaryPosition" "name" (JStr "N/A") Hp) as (p & Hpv).
    rewrite Hpv in Hraise. cbn [bind] in Hraise.
    destruct (object_or_absent_dec "batSide" fields) as [Hb|Hb];
      [|destruct (nested_get_raise fields "batSide" "description" (JStr "N/A") Hb)
          as (ty & Hr); rewrite Hr in Hraise; injection Hraise as <-; now exists ty].
    destruct (nested_get_ok fields "batSide" "description" (JStr "N/A") Hb) as (b & Hbv).
    rewrite Hbv in Hraise. cbn [bind] in Hraise.
    destruct (object_or_absent_dec "pitchHand" fields) as [Ht|Ht];
      [|destruct (nested_get_raise fields "pitchHand" "description" (JStr "N/A") Ht)
          as (ty & Hr); rewrite Hr in Hraise; injection Hraise as <-; now exists ty].
    destruct (nested_get_ok fields "pitchHand" "description" (JStr "N/A") Ht) as (t & Htv).
    rewrite Htv in Hraise. discriminate Hraise.
Qed.

Lemma key_attributes_faults_exactly_witness :
  (exists attributes, @key_attributes reference_runtime judge_info = Ok attributes) /\
  @key_attributes reference_runtime (JObj [("primaryPosition", JNull)]) =
  Raise (AttributeError "NoneType" "get").
Proof.
  destruct (@key_attributes_faults_exactly reference_runtime judge_info) as ((_ & Hbuilt) & _).
  split; [|reflexivity].
  apply Hbuilt. eexists. repeat split; exact I.
Defined.

Lemma distinct_NoDup (l : list string) : distinct l = true -> NoDup l.
Proof.
  induction l as [|x l IH]; simpl; [constructor|].
  rewrite andb_true_iff, negb_true_iff. intros (Hx & Hl).
  constructor; [|auto].
  intros Hin. assert (Hex : existsb (String.eqb x) l = true).
  { apply existsb_exists. exists x. split; [exact Hin | apply String.eqb_refl]. }
  congruence.
Qed.

Lemma dict_set_fresh {A : Type} (k : string) (v : A) (d : list (string * A)) :
  ~ In k (map fst d) -> dict_set k v d = (d ++ [(k, v)])%list.
Proof.
  induction d as [|[k' v'] d IH]; simpl; intros Hfresh; [reflexivity|].
  destruct (String.eqb_spec k k') as [->|_].
  - exfalso. apply Hfresh. now left.
  - rewrite IH; [reflexivity|]. intros Hin. apply Hfresh. now right.
Qed.

(** A comprehension whose new keys do not collide keeps one entry per item,
    in order. *)
Lemma dict_comprehension_distinct {A : Type} (f : string -> string)
  (items : list (string * A)) :
  NoDup (map f (map fst items)) ->
  dict_comprehension f items = map (fun kv => (f (fst kv), snd kv)) items.
Proof.
  unfold dict_comprehension.
  assert (Hgen : forall acc,
             NoDup (map fst acc ++ map f (map fst items)) ->
             fold_left (fun acc kv => dict_set (f (fst kv)) (snd kv) acc) items acc =
             (acc ++ map (fun kv => (f (fst kv), snd kv)) items)%list).
  { induction items as [|[k v] items IH]; intros acc Hnodup; simpl.
    - now rewrite app_nil_r.
    - simpl in Hnodup. rewrite dict_set_fresh.
      + rewrite IH.
        * now rewrite <- app_assoc.
        * rewrite map_app. simpl. now rewrite <- app_assoc.
      + apply NoDup_remove_2 in Hnodup. intros Hin. apply Hnodup.
        apply in_or_app. now left. }
  intros Hnodup. exact (Hgen [] Hnodup).
Qed.

Lemma translated_attribute_keys_distinct (language : string) :
  distinct (map (fun k => translate_attribute k language) attribute_keys) = true.
Proof.
  destruct (in_dec string_dec language ["English"; "Spanish"; "Japanese"; "French"; "Chinese"])
    as [Hin|Hout].
  - simpl in Hin.
    destruct Hin as [<-|[<-|[<-|[<-|[<-|[]]]]]]; vm_compute; reflexivity.
  - rewrite (map_ext _ (fun k => k) (translate_attribute_unsupported language Hout)).
    rewrite map_id. reflexivity.
Qed.

(** X4. Whenever the attribute dictionary is built, the table shown has
    one row per attribute, in the order of the dictionary, each label
    being the attribute's translation and each value the attribute's own:
    in no language do two attributes share a label, so the comprehension
    merges nothing and the table always has thirteen rows. *)
Theorem details_table_keeps_rows `{Runtime}
  (player_info : json) (language : string) (attributes : list (string * json)) :
  key_attributes player_info = Ok attributes ->
  details_df player_info language =
    Ok (map (fun kv => (translate_attribute (fst kv) language, snd kv)) attributes) /\
  (forall rows, details_df player_info language = Ok rows ->
                length rows = 13%nat /\ map snd rows = map snd attributes).
Proof.
  intros Hbuilt.
  assert (Hrows : details_df player_info language =
                  Ok (map (fun kv => (translate_attribute (fst kv) language, snd kv))
                          attributes)).
  { unfold details_df. rewrite Hbuilt. cbn [bind]. f_equal.
    unfold translated_attributes.
    apply (dict_comprehension_distinct (fun k => translate_attribute k language)).
    rewrite (key_attributes_keys _ _ Hbuilt).
    apply distinct_NoDup, translated_attribute_keys_distinct. }
  split; [exact Hrows|].
  intros rows Hshown. rewrite Hrows in Hshown. injection Hshown as <-.
  rewrite length_map, map_map. cbn [snd]. split; [|reflexivity].
  rewrite <- (length_map fst), (key_attributes_keys _ _ Hbuilt). reflexivity.
Qed.

Lemma details_table_keeps_rows_witness :
  exists attributes,
    @key_attributes reference_runtime judge_info = Ok attributes /\
    @details_df reference_runtime judge_info "French" =
      Ok (map (fun kv => (translate_attribute (fst kv) "French", snd kv)) attributes).
Proof.
  eexists. split; [reflexivity|].
  apply (@details_table_keeps_rows reference_runtime judge_info "French").
  reflexivity.
Defined.

(** ** Prose summary *)

Lemma assoc_get_present {A : Type} (k : string) (d : list (string * A)) :
  In k (map fst d) -> exists v, assoc_get k d = Some v.
Proof.
  induction d as [|[k' v'] d IH]; simpl; [intros []|].
  intros Hin. destruct (String.eqb_spec k k') as [->|Hneq]; [now exists v'|].
  apply IH. destruct Hin as [Heq|Hin]; [now elim Hneq | exact Hin].
Qed.

Lemma render_chunk_agree `{Runtime} (attributes attributes' : list (string * json))
  (c : chunk) :
  (forall k, In k (chunk_keys c) -> assoc_get k attributes = assoc_get k attributes') ->
  render_chunk attributes c = render_chunk attributes' c.
Proof.
  intros Hagree. destruct c as [text|key|yes no]; [reflexivity| |];
    unfold render_chunk, dict_item; rewrite Hagree; simpl; auto.
Qed.

(** A text depends on the attributes its pieces read, and on no other. *)
Lemma render_chunks_agree `{Runtime} (attributes attributes' : list (string * json))
  (cs : list chunk) :
  (forall k, In k (flat_map chunk_keys cs) ->
             assoc_get k attributes = assoc_get k attributes') ->
  render_chunks attributes cs = render_chunks attributes' cs.
Proof.
  induction cs as [|c cs IH]; intros Hagree; [reflexivity|].
  cbn [render_chunks]. rewrite (render_chunk_agree attributes attributes' c).
  - rewrite IH; [reflexivity|]. intros k Hk. apply Hagree. simpl.
    apply in_or_app. now right.
  - intros k Hk. apply Hagree. simpl. apply in_or_app. now left.
Qed.

Lemma render_chunks_total `{Runtime} (attributes : list (string * json)) (cs : list chunk) :
  forallb (fun k => existsb (String.eqb k) (map fst attributes)) (flat_map chunk_keys cs)
  = true ->
  exists text, render_chunks attributes cs = Ok text.
Proof.
  induction cs as [|c cs IH]; [intros _; now exists EmptyString|].
  cbn [flat_map]. rewrite forallb_app, andb_true_iff. intros (Hc & Hcs).
  destruct (IH Hcs) as (rest & Hrest). cbn [render_chunks]. rewrite Hrest.
  assert (Hpresent : forall k, In k (chunk_keys c) -> exists v, assoc_get k attributes = Some v).
  { intros k Hk. apply assoc_get_present.
    rewrite forallb_forall in Hc. specialize (Hc k Hk).
    apply existsb_exists in Hc. destruct Hc as (k' & Hin & Heq).
    apply String.eqb_eq in Heq. now subst k'. }
  destruct c as [text|key|yes no]; unfold render_chunk, dict_item.
  - eexists. reflexivity.
  - destruct (Hpresent key) as (v & ->); [simpl; tauto|]. eexists. reflexivity.
  - destruct (Hpresent "Active Player") as (v & ->); [simpl; tauto|]. eexists. reflexivity.
Qed.

(** X5. The Spanish summary does not read the Active Player attribute:
    two attribute dictionaries that agree on the other twelve attributes
    get the same Spanish text, so a player who is not active is described
    with the same "activo" sentence as one who is. *)
Theorem spanish_summary_ignores_active `{Runtime}
  (attributes attributes' : list (string * json)) :
  (forall k, In k attribute_keys -> k <> "Active Player" ->
             assoc_get k attributes = assoc_get k attributes') ->
  summary_markdown (Summary (summary_template "Spanish") attributes) =
  summary_markdown (Summary (summary_template "Spanish") attributes').
Proof.
  intros Hagree. unfold summary_markdown.
  change (template_chunks (summary_template "Spanish")) with summary_spanish.
  apply render_chunks_agree. intros k Hk. simpl in Hk.
  repeat (destruct Hk as [<-|Hk]; [apply Hagree; [simpl; tauto | discriminate]|]).
  contradiction.
Qed.

Lemma spanish_summary_ignores_active_witness :
  @summary_markdown reference_runtime
    (Summary (summary_template "Spanish")
             [ ("Full Name", JStr "Aaron Judge"); ("Primary Position", JStr "Outfielder");
               ("Jersey Number", JStr "99"); ("Birth Date", JStr "1992-04-26");
               ("Current Age", JInt 32); ("Birthplace", JStr "Linden, CA, USA");
               ("Height", JStr "6-7"); ("Weight (lbs)", JInt 282);
               ("Active Player", JStr "Yes"); ("MLB Debut Date", JStr "2016-08-13");
               ("Bats", JStr "Right"); ("Throws", JStr "Right"); ("Nickname", JStr "BAJ") ]) =
  @summary_markdown reference_runtime
    (Summary (summary_template "Spanish")
             [ ("Full Name", JStr "Aaron Judge"); ("Primary Position", JStr "Outfielder");
               ("Jersey Number", JStr "99"); ("Birth Date", JStr "1992-04-26");
               ("Current Age", JInt 32); ("Birthplace", JStr "Linden, CA, USA");
               ("Height", JStr "6-7"); ("Weight (lbs)", JInt 282);
               ("Active Player", JStr "No"); ("MLB Debut Date", JStr "2016-08-13");
               ("Bats", JStr "Right"); ("Throws", JStr "Right"); ("Nickname", JStr "BAJ") ]).
Proof.
  apply (@spanish_summary_ignores_active reference_runtime).
  intros k Hk Hother. simpl in Hk.
  repeat (destruct Hk as [<-|Hk]; [first [reflexivity | now elim Hother]|]).
  contradiction.
Defined.

(** X6. For every record that formats, and in every language, the summary
    text is produced without an exception: each template reads only keys
    the attribute dictionary has.  A language other than Spanish, Japanese,
    French and Chinese gets the English text, whose last sentence prints
    the Yes/No value itself. *)
Theorem summary_is_always_written `{Runtime}
  (player_info : json) (attributes : list (string * json)) (language : string) :
  key_attributes player_info = Ok attributes ->
  (exists text,
      summary_markdown (Summary (summary_template language) attributes) = Ok text) /\
  (~ In language ["Spanish"; "Japanese"; "French"; "Chinese"] ->
   summary_markdown (Summary (summary_template language) attributes) =
   render_chunks attributes summary_english).
Proof.
  intros Hbuilt. pose proof (key_attributes_keys _ _ Hbuilt) as Hkeys.
  unfold summary_markdown, summary_template. split.
  - destruct (language =? "Spanish");
      [|destruct (language =? "Japanese");
        [|destruct (language =? "French"); [|destruct (language =? "Chinese")]]];
      apply render_chunks_total; rewrite Hkeys; vm_compute; reflexivity.
  - intros Hother.
    assert (Hneq : forall l, In l ["Spanish"; "Japanese"; "French"; "Chinese"] ->
                             (language =? l) = false).
    { intros l Hl. apply String.eqb_neq. intros ->. contradiction. }
    rewrite !Hneq by (simpl; tauto). reflexivity.
Qed.

Lemma summary_is_always_written_witness :
  exists text,
    @summary_markdown reference_runtime
      (Summary (summary_template "Klingon")
               [ ("Full Name", JStr "Aaron Judge"); ("Primary Position", JStr "Outfielder");
                 ("Jersey Number", JStr "99"); ("Birth Date", JStr "N/A");
                 ("Current Age", JInt 32); ("Birthplace", JStr "N/A, N/A, N/A");
                 ("Height", JStr "N/A"); ("Weight (lbs)", JStr "N/A");
                 ("Active Player", JStr "Yes"); ("MLB Debut Date", JStr "N/A");
                 ("Bats", JStr "Right"); ("Throws", JStr "N/A"); ("Nickname", JStr "N/A") ])
    = Ok text.
Proof.
  apply (@summary_is_always_written reference_runtime judge_info _ "Klingon").
  reflexivity.
Defined.

(** ** External Player Directory Client: the stats request *)

(** X7. [get_player_stats] issues exactly one request and never raises or
    stops the run: it returns the stats and shows nothing, or returns
    [None] and shows exactly one error message, whatever the service
    answers (a connection fault, a status other than 200, an unreadable
    body, a body of the wrong shape). *)
Theorem get_player_stats_converts_faults (w : world) (player_id : option Z) (season : Z) :
  let request :=
    RequestsGet ("https://statsapi.mlb.com/api/v1/people/" ++ id_text player_id)
                (stats_params season) in
  (exists stats, get_player_stats w player_id season = ([request], Done (Some stats))) \/
  (exists m, get_player_stats w player_id season = ([request; StError m], Done None)).
Proof.
  intros request. unfold get_player_stats. fold request.
  destruct (get_stats w _ _) as [e|status_code [e|data]].
  - right. eexists. reflexivity.
  - right. destruct (Z.eqb status_code 200); eexists; reflexivity.
  - destruct (Z.eqb status_code 200); [|right; eexists; reflexivity].
    destruct (bind _ _) as [stats|e]; [left | right]; eexists; reflexivity.
Qed.

(** X8. How a 200 answer is read.  A body without a [people] key, or
    whose first person has no [stats] key, gives the empty list of stat
    groups, by the defaults of the two [.get]; only the first person is
    looked at; an empty [people] list is an [IndexError], reported as the
    unexpected-error message with [None] returned. *)
Theorem get_player_stats_defaults (w : world) (player_id : option Z) (season : Z)
  (fields : list (string * json)) :
  let url := "https://statsapi.mlb.com/api/v1/people/" ++ id_text player_id in
  get_stats w url (stats_params season) = Response 200 (inr (JObj fields)) ->
  (assoc_get "people" fields = None ->
   get_player_stats w player_id season =
   ([RequestsGet url (stats_params season)], Done (Some (JArr [])))) /\
  (forall person others,
      assoc_get "people" fields = Some (JArr (JObj person :: others)) ->
      get_player_stats w player_id season =
      ([RequestsGet url (stats_params season)],
       Done (Some (dict_get "stats" person (JArr []))))) /\
  (assoc_get "people" fields = Some (JArr []) ->
   get_player_stats w player_id season =
   ([RequestsGet url (stats_params season);
     StError (Caught unexpected_stats_error (IndexError "list"))], Done None)).
Proof.
  intros url Hresponse. unfold get_player_stats. fold url. rewrite Hresponse.
  cbn [Z.eqb Pos.eqb bind py_get].
  repeat split.
  - intros Hpeople. unfold dict_get at 1. rewrite Hpeople. reflexivity.
  - intros person others Hpeople. unfold dict_get at 1. rewrite Hpeople. reflexivity.
  - intros Hpeople. unfold dict_get at 1. rewrite Hpeople. reflexivity.
Qed.

Lemma get_player_stats_defaults_witness :
  get_player_stats
    {| generate_content := inr "Aaron Judge";
       users_add := fun _ => None;
       people_frame := fun _ => inr judge_roster;
       get_json := fun _ => inl "unused";
       get_stats := fun _ _ => Response 200 (inr (JObj [("copyright", JStr "MLB")])) |}
    (Some 592450%Z) 2024 =
  ([RequestsGet "https://statsapi.mlb.com/api/v1/people/592450" (stats_params 2024)],
   Done (Some (JArr []))).
Proof.
  apply (get_player_stats_defaults
           {| generate_content := inr "Aaron Judge";
              users_add := fun _ => None;
              people_frame := fun _ => inr judge_roster;
              get_json := fun _ => inl "unused";
              get_stats := fun _ _ => Response 200 (inr (JObj [("copyright", JStr "MLB")])) |}
           (Some 592450%Z) 2024 [("copyright", JStr "MLB")] eq_refl).
  reflexivity.
Defined.

(** ** Player Resolver: edge cases *)

Lemma find_same {A : Type} (f g : A -> bool) (l : list A) :
  (forall x, f x = g x) -> find f l = find g l.
Proof.
  intros Hfg. induction l as [|x l IH]; simpl; [reflexivity|].
  rewrite Hfg, IH. reflexivity.
Qed.

Lemma find_app_first {A : Type} (g : A -> bool) (before after : list A) (x : A) :
  Forall (fun y => g y = false) before -> g x = true ->
  find g (before ++ x :: after) = Some x.
Proof.
  intros Hbefore Hx. induction Hbefore as [|y before Hy _ IH]; simpl.
  - now rewrite Hx.
  - now rewrite Hy.
Qed.

(** X9. A query that is blank (empty once stripped) matches every full
    name: on a non-empty roster it resolves to the first entry that has a
    full name at all.  When no entry has one the roster frame has no
    [fullName] column, indexing it raises [KeyError], and the resolver
    answers with its search error, not with the no-match message. *)
Theorem blank_query_matches_first_named `{Runtime} (R : list roster_entry) (q : string) :
  R <> [] ->
  strip q = EmptyString ->
  resolve (Some R) q =
    match find has_full_name R with
    | Some entry => PlayerId (id entry)
    | None => Fault SearchFailed
    end /\
  search_player_by_name (Some R) q =
    match find has_full_name R with
    | Some entry => (Some (id entry), None)
    | None => (None, Some (Caught "Error during player search: " (KeyError "fullName")))
    end.
Proof.
  intros HR Hblank. unfold resolve, search_player_by_name.
  rewrite (search_return_nonempty R q HR), Hblank.
  rewrite (find_same (name_matches EmptyString) has_full_name).
  - destruct (find has_full_name R) as [entry|] eqn:Hfind; [now split|].
    assert (Hnone : existsb has_full_name R = false).
    { destruct (existsb has_full_name R) eqn:Hsome; [|reflexivity].
      apply existsb_exists in Hsome. destruct Hsome as (entry & Hin & Hnamed).
      pose proof (find_none _ _ Hfind entry Hin) as Hnot. congruence. }
    rewrite Hnone. now split.
  - intros entry. unfold name_matches, has_full_name.
    destruct (fullName entry); [apply contains_by_nil | reflexivity].
Qed.

Lemma blank_query_matches_first_named_witness :
  @resolve reference_runtime
    (Some [ {| id := 7; fullName := None |}; {| id := 1; fullName := Some "Aaron Judge" |} ])
    ("   " ++ no_break_space) = PlayerId 1 /\
  @search_player_by_name reference_runtime (Some nameless_roster) "   " =
    (None, Some (Caught "Error during player search: " (KeyError "fullName"))).
Proof.
  split.
  - destruct (@blank_query_matches_first_named reference_runtime
                [ {| id := 7; fullName := None |}; {| id := 1; fullName := Some "Aaron Judge" |} ]
                ("   " ++ no_break_space)) as (Hresolve & _);
      [discriminate | reflexivity | exact Hresolve].
  - destruct (@blank_query_matches_first_named reference_runtime nameless_roster "   ")
      as (_ & Hsearch); [discriminate | reflexivity | exact Hsearch].
Defined.

(** X10. Several matching entries are not reported as ambiguous: the
    earliest entry whose full name contains the query is the answer,
    whatever the roster holds after it, an entry whose name equals the
    query included. *)
Theorem earliest_match_wins `{Runtime}
  (before after : list roster_entry) (entry : roster_entry) (q : string) :
  Forall (fun e => name_matches (strip q) e = false) before ->
  name_matches (strip q) entry = true ->
  search_player_by_name (Some (before ++ entry :: after)%list) q = (Some (id entry), None) /\
  resolve (Some (before ++ entry :: after)%list) q = PlayerId (id entry).
Proof.
  intros Hbefore Hentry.
  assert (Hne : (before ++ entry :: after)%list <> []) by (destruct before; discriminate).
  unfold search_player_by_name, resolve.
  rewrite (search_return_nonempty _ q Hne).
  rewrite (find_app_first _ before after entry Hbefore Hentry). split; reflexivity.
Qed.

Lemma earliest_match_wins_witness :
  @resolve reference_runtime
    (Some [ {| id := 3; fullName := Some "Mookie Betts" |};
            {| id := 5; fullName := Some "Will Smith Jr." |};
            {| id := 8; fullName := Some "Will Smith" |} ])
    "will smith" = PlayerId 5 /\
  @resolve reference_runtime
    (Some [ {| id := 9; fullName := Some "Aaron Judge" |};
            {| id := 10; fullName := Some "José Ramírez" |};
            {| id := 11; fullName := Some "Harold Ramírez" |} ])
    "RAMÍREZ" = PlayerId 10.
Proof.
  split.
  - apply (@earliest_match_wins reference_runtime
             [ {| id := 3; fullName := Some "Mookie Betts" |} ]
             [ {| id := 8; fullName := Some "Will Smith" |} ]
             {| id := 5; fullName := Some "Will Smith Jr." |} "will smith").
    + repeat constructor.
    + reflexivity.
  - apply (@earliest_match_wins reference_runtime
             [ {| id := 9; fullName := Some "Aaron Judge" |} ]
             [ {| id := 11; fullName := Some "Harold Ramírez" |} ]
             {| id := 10; fullName := Some "José Ramírez" |} "RAMÍREZ").
    + repeat constructor.
    + reflexivity.
Defined.

(** ** Stat Flattening Pipeline: a group of several splits *)

Section SeveralSplits.
Context {runtime : Runtime}.

Lemma columns_of_flattened (data : list (list (string * json))) :
  data <> [] ->
  Forall (fun r => map fst r = split_columns) data ->
  fold_left add_columns data [] = split_columns.
Proof.
  intros Hne Hdata. destruct Hdata as [|r data Hr Hdata]; [now elim Hne|].
  cbn [fold_left].
  assert (Hfirst : add_columns [] r = split_columns).
  { unfold add_columns. rewrite Hr. reflexivity. }
  rewrite Hfirst. clear Hne Hfirst Hr r.
  induction Hdata as [|r data Hr _ IH]; [reflexivity|].
  cbn [fold_left].
  assert (Hnext : add_columns split_columns r = split_columns).
  { unfold add_columns. rewrite Hr. reflexivity. }
  rewrite Hnext. exact IH.
Qed.

Lemma column_names {A B : Type} (c : A) (cells : list B) :
  map fst (map (fun value => (c, value)) cells) = repeat c (length cells).
Proof.
  induction cells as [|x cells IH]; [reflexivity|].
  cbn [map length repeat fst]. now rewrite IH.
Qed.

Lemma stacked_names (names : list string) (cols cols' : list (list cell)) :
  map (@length cell) cols' = map (@length cell) cols ->
  map fst (flat_map (fun col => map (fun value => (fst col, value)) (snd col))
                    (combine names cols')) =
  flat_map (fun col => repeat (fst col) (length (snd col))) (combine names cols).
Proof.
  revert cols cols'. induction names as [|c names IH]; intros cols cols' Hshape; [reflexivity|].
  destruct cols as [|col cols], cols' as [|col' cols']; try discriminate Hshape; [reflexivity|].
  injection Hshape as Hcol Hcols.
  cbn [combine flat_map fst snd]. rewrite map_app, column_names, Hcol.
  f_equal. now apply IH.
Qed.

(** Melting names each cell after its column. *)
Lemma melt_names (df : DataFrame) :
  map fst (melt df) = flat_map (fun col => repeat (fst col) (length (snd col))) df.
Proof.
  unfold melt, columns.
  rewrite (stacked_names (map fst df) (map snd df) _ (melted_shape (map snd df))).
  f_equal. clear. induction df as [|[c cells] df IH]; [reflexivity|].
  cbn [map combine fst snd]. now rewrite IH.
Qed.

Lemma map_flat_map_repeat (f : string -> string) (n : nat) (cols : list string) :
  map f (flat_map (fun c => repeat c n) cols) = flat_map (fun c => repeat (f c) n) cols.
Proof.
  induction cols as [|c cols IH]; [reflexivity|].
  cbn [flat_map]. rewrite map_app, IH. f_equal.
  clear IH. induction n as [|n IHn]; [reflexivity|]. simpl. now rewrite IHn.
Qed.

Lemma length_flat_map_repeat (f : string -> string) (n : nat) (cols : list string) :
  length (flat_map (fun c => repeat (f c) n) cols) = (length cols * n)%nat.
Proof.
  induction cols as [|c cols IH]; [reflexivity|].
  cbn [flat_map]. rewrite length_app, repeat_length, IH. reflexivity.
Qed.

(** The table shown once [data] holds the flattened splits so far. *)
Lemma shown_table_names (language : string) (data : list (list (string * json))) :
  data <> [] ->
  Forall (fun r => map fst r = split_columns) data ->
  let stats_df := pd_DataFrame data in
  let shown :=
    if existsb (String.eqb "Player") (columns stats_df)
    then drop "Player" stats_df
    else stats_df in
  fst (stats_df_two_columns language shown) = ("Stat", "Value") /\
  map fst (snd (stats_df_two_columns language shown)) =
  flat_map (fun c => repeat (get_translated_stat c language) (length data)) shown_columns.
Proof.
  intros Hne Hdata stats_df shown. split; [reflexivity|].
  unfold stats_df_two_columns. cbn [snd]. rewrite map_map. cbn [fst].
  rewrite <- (map_map fst (fun c => get_translated_stat c language)).
  rewrite melt_names, <- map_flat_map_repeat. f_equal.
  unfold shown, stats_df. rewrite columns_pd_DataFrame.
  unfold pd_DataFrame. rewrite (columns_of_flattened data Hne Hdata).
  cbn [split_columns shown_columns map existsb String.eqb Ascii.eqb Bool.eqb orb andb negb
       drop filter fst snd flat_map].
  rewrite !stored_length, !length_map. reflexivity.
Qed.

Lemma render_splits_tables (language : string) (splits : list json) :
  Forall (fun split => exists flattened, flattened_split split = Ok flattened) splits ->
  forall cleaned,
    Forall (fun r => map fst r = split_columns) cleaned ->
    exists tables,
      render_splits language cleaned splits = (tables, Done tt) /\
      length tables = length splits /\
      forall k table,
        nth_error tables k = Some table ->
        exists rows,
          table = StDataframe ("Stat", "Value") rows /\
          map fst rows =
          flat_map (fun c => repeat (get_translated_stat c language) (length cleaned + S k))
                   shown_columns.
Proof.
  induction 1 as [|split splits (flattened & Hflat) _ IH]; intros cleaned Hcleaned.
  - exists []. repeat split. intros [|k] table Hnth; discriminate Hnth.
  - assert (Hdata : Forall (fun r => map fst r = split_columns) (cleaned ++ [flattened])).
    { apply Forall_app. split; [exact Hcleaned|].
      constructor; [|constructor]. exact (flattened_split_keys _ _ Hflat). }
    assert (Hne : (cleaned ++ [flattened])%list <> []) by (destruct cleaned; discriminate).
    destruct (IH _ Hdata) as (tables & Hrest & Hlen & Hnth).
    destruct (shown_table_names language _ Hne Hdata) as (Hheader & Hnames).
    rewrite (render_splits_step language cleaned split splits flattened Hflat), Hrest.
    eexists. split; [reflexivity|]. split; [simpl; now rewrite Hlen|].
    intros [|k] table Htable.
    + injection Htable as <-. eexists. split.
      * reflexivity.
      * etransitivity; [exact Hnames|]. rewrite length_app. reflexivity.
    + destruct (Hnth k table Htable) as (rows & -> & Hrows).
      exists rows. split; [reflexivity|].
      rewrite Hrows, length_app. simpl.
      replace (length cleaned + 1 + S k)%nat with (length cleaned + S (S k))%nat by lia.
      reflexivity.
Qed.

(** X11. A group of [n] splits that all flatten shows [n] tables, not
    one: the frame is rebuilt and shown inside the loop, so the [k]-th
    table repeats the splits before it.  Its stat names are the seven
    column names translated, each [k] times over ([Player] never among
    them), its headers are Stat and Value in every language, and it has
    [7 * k] rows. *)
Theorem tables_accumulate (language : string) (splits : list json) :
  Forall (fun split => exists flattened, flattened_split split = Ok flattened) splits ->
  exists tables,
    render_splits language [] splits = (tables, Done tt) /\
    length tables = length splits /\
    forall k table,
      nth_error tables k = Some table ->
      exists rows,
        table = StDataframe ("Stat", "Value") rows /\
        map fst rows =
        flat_map (fun c => repeat (get_translated_stat c language) (S k)) shown_columns /\
        length rows = (7 * S k)%nat.
Proof.
  intros Hsplits.
  destruct (render_splits_tables language splits Hsplits [] (Forall_nil _))
    as (tables & Hrun & Hlen & Hnth).
  exists tables. split; [exact Hrun|]. split; [exact Hlen|].
  intros k table Htable. destruct (Hnth k table Htable) as (rows & -> & Hrows).
  exists rows. split; [reflexivity|]. split; [exact Hrows|].
  rewrite <- (length_map fst), Hrows, length_flat_map_repeat. reflexivity.
Qed.

End SeveralSplits.

Lemma tables_accumulate_witness :
  exists first second,
    @render_splits reference_runtime "French" [] [sample_split; sample_split] =
    ([StDataframe ("Stat", "Value") first; StDataframe ("Stat", "Value") second], Done tt) /\
    length first = 7%nat /\ length second = 14%nat.
Proof.
  destruct (@tables_accumulate reference_runtime "French" [sample_split; sample_split])
    as (tables & Hrun & Hlen & Hnth).
  { repeat constructor; eexists; reflexivity. }
  rewrite Hrun. clear Hrun.
  destruct tables as [|t1 [|t2 [|t3 tables]]]; try discriminate Hlen.
  destruct (Hnth 0%nat t1 eq_refl) as (first & -> & _ & Hfirst).
  destruct (Hnth 1%nat t2 eq_refl) as (second & -> & _ & Hsecond).
  exists first, second. repeat split; assumption.
Defined.

Lemma nested_get_raises_attribute_error (x : json) (outer inner : string)
  (default default' : json) (e : exn) :
  (t <- py_get x outer default ;; py_get t inner default') = Raise e ->
  exists ty, e = AttributeError ty "get".
Proof.
  destruct x; cbn [bind py_get]; try (intros Hr; injection Hr as <-; eexists; reflexivity).
  destruct (dict_get outer fields default); cbn [py_get]; intros Hr;
    try discriminate Hr; injection Hr as <-; eexists; reflexivity.
Qed.

Lemma flattened_split_raises_attribute_error (split : json) (e : exn) :
  flattened_split split = Raise e -> exists ty, e = AttributeError ty "get".
Proof.
  unfold flattened_split. intros Hraise.
  repeat match type of Hraise with
         | bind ?c _ = Raise _ =>
             let E := fresh "E" in
             destruct c eqn:E; cbn [bind] in Hraise;
             [|injection Hraise as <-;
               exact (nested_get_raises_attribute_error _ _ _ _ _ _ E)]
         end.
  discriminate Hraise.
Qed.

Section UnflattenableSplit.
Context {runtime : Runtime}.

(** X12. A split that cannot be flattened (its [team], [player] or [stat]
    is present but is no object) raises [AttributeError] and ends the
    rendering of the group there: the tables of the splits before it stay
    shown, one per split, and nothing is shown for it or for any split
    after it. *)
Theorem unflattenable_split_stops_rendering (language : string)
  (cleaned : list (list (string * json))) (good : list json) (bad : json)
  (rest : list json) (e : exn) :
  Forall (fun split => exists flattened, flattened_split split = Ok flattened) good ->
  flattened_split bad = Raise e ->
  render_splits language cleaned (good ++ bad :: rest) =
    (trace (render_splits language cleaned good), Raised e) /\
  length (trace (render_splits language cleaned good)) = length good /\
  exists ty, e = AttributeError ty "get".
Proof.
  intros Hgood Hbad. split; [|split].
  - revert cleaned. induction Hgood as [|split good (flattened & Hflat) _ IH]; intros cleaned.
    + cbn [app render_splits]. rewrite Hbad. reflexivity.
    + cbn [app].
      rewrite (render_splits_step language cleaned split (good ++ bad :: rest) _ Hflat).
      rewrite (render_splits_step language cleaned split good _ Hflat).
      rewrite IH. rewrite trace_and_then. reflexivity.
  - revert cleaned. induction Hgood as [|split good (flattened & Hflat) _ IH]; intros cleaned.
    + reflexivity.
    + rewrite (render_splits_step language cleaned split good _ Hflat).
      rewrite trace_and_then. cbn [trace emit fst snd app length]. now rewrite IH.
  - exact (flattened_split_raises_attribute_error bad e Hbad).
Qed.

End UnflattenableSplit.

Lemma unflattenable_split_stops_rendering_witness :
  exists table,
    @render_splits reference_runtime "English" [] [sample_split; split_without_team; sample_split] =
    ([table], Raised (AttributeError "NoneType" "get")).
Proof.
  destruct (@unflattenable_split_stops_rendering reference_runtime "English" [] [sample_split]
              split_without_team [sample_split] (AttributeError "NoneType" "get"))
    as (Hrun & _).
  - repeat constructor. eexists. reflexivity.
  - reflexivity.
  - eexists. exact Hrun.
Defined.

(** ** The Analyze action: which calls are made, and in what order *)

Section AnalyzeOrder.
Context {runtime : Runtime}.

Lemma save_user_data_done (w : world) (email name language : string) :
  snd (save_user_data w email name language) = Done tt.
Proof.
  unfold save_user_data. destruct (users_add w _); reflexivity.
Qed.

(** What Analyze shows once a name has been recognised: the two lines of
    the recognition, what [save_user_data] shows, what the rest of the
    flow shows, and the handler's message if the rest raised. *)
Lemma analyze_after_recognition (w : world) (email language text : string) :
  email <> EmptyString ->
  generate_content w = inr text ->
  strip text <> EmptyString ->
  analyze w email language =
  (GenerateContent :: StWrite ("Extracted Player Name: " ++ strip text) ::
   trace (save_user_data w email (strip text) language) ++
   trace (lookup_and_render w language (strip text)) ++
   match snd (lookup_and_render w language (strip text)) with
   | Raised e => [StError (Caught "Error during analysis: " e)]
   | _ => []
   end)%list.
Proof.
  intros Hemail Hgen Hname. apply String.eqb_neq in Hemail.
  unfold analyze. rewrite Hemail, trace_try_except.
  rewrite (analysis_after_recognition w email language text Hgen Hname).
  cbn [trace fst snd]. rewrite trace_and_then.
  pose proof (save_user_data_done w email (strip text) language) as Hsave.
  destruct (save_user_data w email (strip text) language) as [saved o].
  cbn [snd] in Hsave. subst o.
  cbn [and_then trace fst snd].
  destruct (lookup_and_render w language (strip text)) as [shown [[]|e|]];
    cbn [fst snd app]; rewrite <- ?app_assoc, ?app_nil_r; reflexivity.
Qed.

Lemma lookup_without_match (w : world) (language name : string) (R : list roster_entry) :
  people_frame w roster_url = inr R ->
  R <> [] ->
  find (name_matches (strip name)) R = None ->
  lookup_and_render w language name =
  ([RequestsGet roster_url [];
    StError (if existsb has_full_name R
             then Text ("No player found with the name '" ++ name ++ "'.")
             else Caught "Error during player search: " (KeyError "fullName"))], Stopped).
Proof.
  intros Hframe HR Hfind. unfold lookup_and_render, get_all_players, process_endpoint_url.
  change (get_all_players_url 2024) with roster_url. rewrite Hframe.
  destruct R as [|r R]; [now elim HR|].
  cbn [and_then emit ret app].
  unfold search_player_by_name. rewrite (search_return_nonempty (r :: R) name HR), Hfind.
  destruct (existsb has_full_name (r :: R)); reflexivity.
Qed.

Lemma lookup_with_match (w : world) (language name : string) (R : list roster_entry)
  (entry : roster_entry) :
  people_frame w roster_url = inr R ->
  find (name_matches (strip name)) R = Some entry ->
  lookup_and_render w language name =
  (RequestsGet roster_url [] :: trace (details_and_render w language (Some (id entry))),
   snd (details_and_render w language (Some (id entry)))).
Proof.
  intros Hframe Hfind. unfold lookup_and_render, get_all_players, process_endpoint_url.
  change (get_all_players_url 2024) with roster_url. rewrite Hframe.
  assert (HR : R <> []) by (intros ->; discriminate Hfind).
  destruct R as [|r R]; [now elim HR|].
  cbn [and_then emit ret app].
  unfold search_player_by_name. rewrite (search_return_nonempty (r :: R) name HR), Hfind.
  cbn [returned]. fold (details_and_render w language (Some (id entry))).
  destruct (details_and_render _ _ _) as [shown o]. reflexivity.
Qed.

(** X13. Analyze validates before it calls out.  Without an email it
    shows one error and calls nothing, not even the image model.  With an
    email but no usable name (the image model faulted, or answered with
    blank text) it shows the extraction line and the error and stops: no
    HTTP request is made and nothing is written. *)
Theorem no_name_no_request (w : world) (language : string) :
  analyze w EmptyString language =
    [StError (Text "Please enter your email before analyzing the image.")] /\
  (forall email e,
      email <> EmptyString ->
      generate_content w = inl e ->
      analyze w email language =
      [ GenerateContent;
        StError (Text ("Error generating Gemini response: " ++ e));
        StWrite "Extracted Player Name: None";
        StError (Text "Could not extract player name from the image.") ]) /\
  (forall email text,
      email <> EmptyString ->
      generate_content w = inr text ->
      strip text = EmptyString ->
      analyze w email language =
      [ GenerateContent;
        StWrite "Extracted Player Name: ";
        StError (Text "Could not extract player name from the image.") ]).
Proof.
  split; [reflexivity|]. split.
  - intros email e Hemail Hgen. apply String.eqb_neq in Hemail.
    unfold analyze, analysis, get_player_name_from_image. rewrite Hemail, Hgen. reflexivity.
  - intros email text Hemail Hgen Hblank. apply String.eqb_neq in Hemail.
    unfold analyze, analysis, get_player_name_from_image.
    rewrite Hemail, Hgen, Hblank. reflexivity.
Qed.

(** X14. The resolver's answer decides the next call.  The roster being
    fetched and not empty: if no entry matches the recognised name, the
    resolver's message is the last thing shown and neither details nor
    stats are requested (the no-match message, or, when no record of the
    roster has a full name, the search error that the missing column
    raises); if an entry matches, the very next event is the details
    request for the identifier of the first matching entry. *)
Theorem resolution_decides_next_request (w : world) (email language text : string)
  (R : list roster_entry) :
  email <> EmptyString ->
  generate_content w = inr text ->
  strip text <> EmptyString ->
  people_frame w roster_url = inr R ->
  R <> [] ->
  let before :=
    (GenerateContent :: StWrite ("Extracted Player Name: " ++ strip text) ::
     trace (save_user_data w email (strip text) language) ++
     [RequestsGet roster_url []])%list in
  match find (name_matches (strip text)) R with
  | None =>
      analyze w email language =
      (before ++
       [StError (if existsb has_full_name R
                 then Text ("No player found with the name '" ++ strip text ++ "'.")
                 else Caught "Error during player search: " (KeyError "fullName"))])%list
  | Some entry =>
      exists rest,
        analyze w email language =
        (before ++ RequestsGet (details_url (id entry)) [] :: rest)%list
  end.
Proof.
  intros Hemail Hgen Hname Hframe HR before.
  rewrite (analyze_after_recognition w email language text Hemail Hgen Hname).
  destruct (find (name_matches (strip text)) R) as [entry|] eqn:Hfind;
    rewrite <- (strip_idempotent text) in Hfind.
  - rewrite (lookup_with_match w language (strip text) R entry Hframe Hfind).
    cbn [trace fst snd]. unfold details_and_render. rewrite trace_and_then.
    unfold get_player_details at 1. rewrite trace_and_then.
    cbn [trace emit fst snd app id_text]. fold (details_url (id entry)).
    eexists. unfold before. cbn [app].
    rewrite <- (app_assoc _ [RequestsGet roster_url []]). cbn [app]. reflexivity.
  - rewrite (lookup_without_match w language (strip text) R Hframe HR Hfind).
    unfold before. cbn [trace fst snd app].
    rewrite <- (app_assoc _ [RequestsGet roster_url []]). reflexivity.
Qed.

End AnalyzeOrder.

Lemma resolution_decides_next_request_witness :
  exists rest,
    @analyze reference_runtime stats_down "fan@example.com" "English" =
    GenerateContent ::
    StWrite "Extracted Player Name: Aaron Judge" ::
    FirestoreAdd "users" [ ("email", "fan@example.com"); ("player_name", "Aaron Judge");
                           ("language", "English") ] ::
    StSuccess "Data saved for Aaron Judge." ::
    RequestsGet roster_url [] ::
    RequestsGet "https://statsapi.mlb.com/api/v1/people/1/" [] :: rest.
Proof.
  assert (Hemail : "fan@example.com" <> EmptyString) by discriminate.
  assert (Hname : strip " Aaron Judge " <> EmptyString) by discriminate.
  assert (HR : judge_roster <> []) by discriminate.
  exact (@resolution_decides_next_request reference_runtime stats_down
           "fan@example.com" "English" " Aaron Judge " judge_roster
           Hemail eq_refl Hname eq_refl HR).
Defined.

Lemma no_name_no_request_witness :
  @analyze reference_runtime
    {| generate_content := inr "   ";
       users_add := fun _ => None;
       people_frame := fun _ => inr judge_roster;
       get_json := fun _ => inl "unused";
       get_stats := fun _ _ => RequestFailed "unused" |}
    "fan@example.com" "English" =
  [ GenerateContent;
    StWrite "Extracted Player Name: ";
    StError (Text "Could not extract player name from the image.") ].
Proof.
  assert (Hemail : "fan@example.com" <> EmptyString) by discriminate.
  destruct (@no_name_no_request reference_runtime
              {| generate_content := inr "   ";
                 users_add := fun _ => None;
                 people_frame := fun _ => inr judge_roster;
                 get_json := fun _ => inl "unused";
                 get_stats := fun _ _ => RequestFailed "unused" |}
              "English") as (_ & _ & Hblank).
  exact (Hblank "fan@example.com" "   " Hemail eq_refl eq_refl).
Defined.

(** ** The Analyze action: after the player is resolved *)

Lemma has_key_absent {A : Type} (k : string) (d : list (string * A)) :
  assoc_get k d = None -> existsb (fun kv => String.eqb (fst kv) k) d = false.
Proof.
  induction d as [|[k' v'] d IH]; simpl; [reflexivity|].
  rewrite (String.eqb_sym k' k). destruct (String.eqb k k'); [discriminate | exact IH].
Qed.

Lemma has_key_present {A : Type} (k : string) (d : list (string * A)) (v : A) :
  assoc_get k d = Some v -> existsb (fun kv => String.eqb (fst kv) k) d = true.
Proof.
  induction d as [|[k' v'] d IH]; simpl; [discriminate|].
  rewrite (String.eqb_sym k' k). destruct (String.eqb k k'); [reflexivity | exact IH].
Qed.

Section AnalyzeDetails.
Context {runtime : Runtime}.

Lemma analyze_with_match (w : world) (email language text : string)
  (R : list roster_entry) (entry : roster_entry) :
  email <> EmptyString ->
  generate_content w = inr text ->
  strip text <> EmptyString ->
  people_frame w roster_url = inr R ->
  find (name_matches (strip text)) R = Some entry ->
  analyze w email language =
  ((GenerateContent :: StWrite ("Extracted Player Name: " ++ strip text) ::
    trace (save_user_data w email (strip text) language) ++
    [RequestsGet roster_url []]) ++
   trace (details_and_render w language (Some (id entry))) ++
   match snd (details_and_render w language (Some (id entry))) with
   | Raised e => [StError (Caught "Error during analysis: " e)]
   | _ => []
   end)%list.
Proof.
  intros Hemail Hgen Hname Hframe Hfind.
  rewrite (analyze_after_recognition w email language text Hemail Hgen Hname).
  rewrite <- (strip_idempotent text) in Hfind.
  rewrite (lookup_with_match w language (strip text) R entry Hframe Hfind).
  cbn [trace fst snd app].
  rewrite <- (app_assoc _ [RequestsGet roster_url []]). reflexivity.
Qed.

Lemma details_and_render_people (w : world) (language : string) (player_id : Z)
  (fields : list (string * json)) (people : json) :
  get_json w (details_url player_id) = inr (JObj fields) ->
  assoc_get "people" fields = Some people ->
  details_and_render w language (Some player_id) =
  (RequestsGet (details_url player_id) [] ::
     trace (render_player w language (Some player_id) 2024 (JObj fields)),
   snd (render_player w language (Some player_id) 2024 (JObj fields))).
Proof.
  intros Hjson Hpeople. unfold details_and_render, get_player_details.
  cbn [id_text]. fold (details_url player_id). rewrite Hjson.
  cbn [and_then emit ret app].
  assert (Htruthy : truthy (JObj fields) = true).
  { destruct fields; [discriminate Hpeople | reflexivity]. }
  rewrite Htruthy. unfold py_contains, lift.
  rewrite (has_key_present "people" fields people Hpeople).
  cbn [and_then app].
  destruct (render_player _ _ _ _ _) as [shown o]. reflexivity.
Qed.

(** X15. After a match, a details answer that cannot be used ends the
    action quietly.  A fault of the details request shows one error
    message; a details body that is an object without a [people] key shows
    nothing at all: no table, no summary, no message, and no stats
    request follows either. *)
Theorem unusable_details_end_the_action (w : world) (email language text : string)
  (R : list roster_entry) (entry : roster_entry) :
  email <> EmptyString ->
  generate_content w = inr text ->
  strip text <> EmptyString ->
  people_frame w roster_url = inr R ->
  find (name_matches (strip text)) R = Some entry ->
  let before :=
    (GenerateContent :: StWrite ("Extracted Player Name: " ++ strip text) ::
     trace (save_user_data w email (strip text) language) ++
     [RequestsGet roster_url []])%list in
  (forall e,
      get_json w (details_url (id entry)) = inl e ->
      analyze w email language =
      (before ++ [ RequestsGet (details_url (id entry)) [];
                   StError (Text ("Error fetching player details: " ++ e)) ])%list) /\
  (forall fields,
      get_json w (details_url (id entry)) = inr (JObj fields) ->
      assoc_get "people" fields = None ->
      analyze w email language =
      (before ++ [ RequestsGet (details_url (id entry)) [] ])%list).
Proof.
  intros Hemail Hgen Hname Hframe Hfind before.
  rewrite (analyze_with_match w email language text R entry Hemail Hgen Hname Hframe Hfind).
  fold before. split.
  - intros e Hjson. unfold details_and_render, get_player_details.
    cbn [id_text]. fold (details_url (id entry)). rewrite Hjson. reflexivity.
  - intros fields Hjson Hpeople. unfold details_and_render, get_player_details.
    cbn [id_text]. fold (details_url (id entry)). rewrite Hjson.
    cbn [and_then emit ret app]. destruct fields as [|kv fields]; [reflexivity|].
    cbn [truthy]. unfold py_contains, lift.
    rewrite (has_key_absent "people" (kv :: fields) Hpeople). reflexivity.
Qed.

(** X16. A fault of the stats request does not take the player away: the
    details being usable and the record formatting, the attribute table
    and the summary (in that order, the summary with the untranslated
    attributes) are shown before the stats are requested, and a stats
    fault adds its one error message after them and ends the action
    without the handler's "Error during analysis". *)
Theorem stats_fault_keeps_player_shown (w : world) (email language text : string)
  (R : list roster_entry) (entry : roster_entry)
  (fields : list (string * json)) (people player_info : json)
  (attributes : list (string * json)) (m : message) :
  email <> EmptyString ->
  generate_content w = inr text ->
  strip text <> EmptyString ->
  people_frame w roster_url = inr R ->
  find (name_matches (strip text)) R = Some entry ->
  get_json w (details_url (id entry)) = inr (JObj fields) ->
  assoc_get "people" fields = Some people ->
  py_first people = Ok player_info ->
  key_attributes player_info = Ok attributes ->
  get_player_stats w (Some (id entry)) 2024 =
    ([RequestsGet (stats_url (id entry)) (stats_params 2024); StError m], Done None) ->
  analyze w email language =
  ((GenerateContent :: StWrite ("Extracted Player Name: " ++ strip text) ::
    trace (save_user_data w email (strip text) language) ++
    [RequestsGet roster_url []]) ++
   [ RequestsGet (details_url (id entry)) [];
     StTable ("Attribute", "Value") (translated_attributes language attributes);
     StMarkdown (Summary (summary_template language) attributes);
     RequestsGet (stats_url (id entry)) (stats_params 2024);
     StError m ])%list.
Proof.
  intros Hemail Hgen Hname Hframe Hfind Hjson Hpeople Hfirst Hbuilt Hstats.
  rewrite (analyze_with_match w email language text R entry Hemail Hgen Hname Hframe Hfind).
  rewrite (details_and_render_people w language (id entry) fields people Hjson Hpeople).
  unfold render_player, py_item, dict_item. rewrite Hpeople. cbn [lift and_then app].
  rewrite Hfirst. cbn [lift and_then app]. rewrite Hbuilt. cbn [lift and_then emit app].
  rewrite Hstats. reflexivity.
Qed.

(** X17. A details record that cannot be used is reported once and
    nothing of the player is shown: when reading the first person or
    building the attribute dictionary raises (an empty [people] list, a
    [null] position), the only thing shown after the details request is
    "Error during analysis" with that exception, and no stats request is
    made. *)
Theorem formatting_fault_is_reported (w : world) (email language text : string)
  (R : list roster_entry) (entry : roster_entry)
  (fields : list (string * json)) (people : json) (e : exn) :
  email <> EmptyString ->
  generate_content w = inr text ->
  strip text <> EmptyString ->
  people_frame w roster_url = inr R ->
  find (name_matches (strip text)) R = Some entry ->
  get_json w (details_url (id entry)) = inr (JObj fields) ->
  assoc_get "people" fields = Some people ->
  (player_info <- py_first people ;; key_attributes player_info) = Raise e ->
  analyze w email language =
  ((GenerateContent :: StWrite ("Extracted Player Name: " ++ strip text) ::
    trace (save_user_data w email (strip text) language) ++
    [RequestsGet roster_url []]) ++
   [ RequestsGet (details_url (id entry)) [];
     StError (Caught "Error during analysis: " e) ])%list.
Proof.
  intros Hemail Hgen Hname Hframe Hfind Hjson Hpeople Hraise.
  rewrite (analyze_with_match w email language text R entry Hemail Hgen Hname Hframe Hfind).
  rewrite (details_and_render_people w language (id entry) fields people Hjson Hpeople).
  unfold render_player, py_item, dict_item. rewrite Hpeople. cbn [lift and_then app].
  destruct (py_first people) as [player_info|e']; cbn [bind] in Hraise.
  - cbn [lift and_then app]. rewrite Hraise. reflexivity.
  - injection Hraise as ->. reflexivity.
Qed.

End AnalyzeDetails.

Lemma unusable_details_end_the_action_witness :
  @analyze reference_runtime details_without_people "fan@example.com" "Spanish" =
  [ GenerateContent;
    StWrite "Extracted Player Name: Aaron Judge";
    FirestoreAdd "users" [ ("email", "fan@example.com"); ("player_name", "Aaron Judge");
                           ("language", "Spanish") ];
    StSuccess "Data saved for Aaron Judge.";
    RequestsGet roster_url [];
    RequestsGet (details_url 1) [] ].
Proof.
  assert (Hemail : "fan@example.com" <> EmptyString) by discriminate.
  assert (Hname : strip "Aaron Judge" <> EmptyString) by discriminate.
  destruct (@unusable_details_end_the_action reference_runtime details_without_people
              "fan@example.com" "Spanish" "Aaron Judge" judge_roster
              {| id := 1; fullName := Some "Aaron Judge" |}
              Hemail eq_refl Hname eq_refl eq_refl) as (_ & Hquiet).
  exact (Hquiet [("messageNumber", JInt 10)] eq_refl eq_refl).
Defined.

Lemma stats_fault_keeps_player_shown_witness :
  exists attributes,
    @key_attributes reference_runtime judge_info = Ok attributes /\
    @analyze reference_runtime stats_down "fan@example.com" "Spanish" =
    [ GenerateContent;
      StWrite "Extracted Player Name: Aaron Judge";
      FirestoreAdd "users" [ ("email", "fan@example.com"); ("player_name", "Aaron Judge");
                             ("language", "Spanish") ];
      StSuccess "Data saved for Aaron Judge.";
      RequestsGet roster_url [];
      RequestsGet (details_url 1) [];
      StTable ("Attribute", "Value") (translated_attributes "Spanish" attributes);
      StMarkdown (Summary "Spanish" attributes);
      RequestsGet (stats_url 1) (stats_params 2024);
      StError (Text "Error fetching stats: 503") ].
Proof.
  assert (Hemail : "fan@example.com" <> EmptyString) by discriminate.
  assert (Hname : strip " Aaron Judge " <> EmptyString) by discriminate.
  eexists. split; [reflexivity|].
  exact (@stats_fault_keeps_player_shown reference_runtime stats_down
           "fan@example.com" "Spanish" " Aaron Judge " judge_roster
           {| id := 1; fullName := Some "Aaron Judge" |}
           [("people", JArr [judge_info])] (JArr [judge_info]) judge_info _
           (Text "Error fetching stats: 503")
           Hemail eq_refl Hname eq_refl eq_refl eq_refl eq_refl eq_refl eq_refl eq_refl).
Defined.

Lemma formatting_fault_is_reported_witness :
  @analyze reference_runtime
    {| generate_content := inr "Aaron Judge";
       users_add := fun _ => None;
       people_frame := fun _ => inr judge_roster;
       get_json := fun _ => inr (JObj [("people", JArr [])]);
       get_stats := fun _ _ => RequestFailed "unused" |}
    "fan@example.com" "English" =
  [ GenerateContent;
    StWrite "Extracted Player Name: Aaron Judge";
    FirestoreAdd "users" [ ("email", "fan@example.com"); ("player_name", "Aaron Judge");
                           ("language", "English") ];
    StSuccess "Data saved for Aaron Judge.";
    RequestsGet roster_url [];
    RequestsGet (details_url 1) [];
    StError (Caught "Error during analysis: " (IndexError "list")) ].
Proof.
  assert (Hemail : "fan@example.com" <> EmptyString) by discriminate.
  assert (Hname : strip "Aaron Judge" <> EmptyString) by discriminate.
  exact (@formatting_fault_is_reported reference_runtime
           {| generate_content := inr "Aaron Judge";
              users_add := fun _ => None;
              people_frame := fun _ => inr judge_roster;
              get_json := fun _ => inr (JObj [("people", JArr [])]);
              get_stats := fun _ _ => RequestFailed "unused" |}
           "fan@example.com" "English" "Aaron Judge" judge_roster
           {| id := 1; fullName := Some "Aaron Judge" |}
           [("people", JArr [])] (JArr []) (IndexError "list")
           Hemail eq_refl Hname eq_refl eq_refl eq_refl eq_refl eq_refl).
Defined.

(** ** Feedback *)

(** X18. Submitting feedback writes at most one document, and only for a
    non-empty email: the document goes to [user_feedback] and carries the
    email, the two answers and the language as given, with the server's
    timestamp marker.  An empty email is refused with a message before the
    store is called; a fault of the store becomes a message; and when no
    image was uploaded the name [email] was never assigned, so the code
    ends in [NameError]. *)
Theorem feedback_written_once_or_refused
  (user_feedback_add : list (string * field_value) -> option string)
  (email : option string) (feedback email_updates language : string) :
  let run := submit_feedback user_feedback_add email feedback email_updates language in
  (forall collection document,
      In (collection, document) (feedback_writes (fst run)) ->
      collection = "user_feedback" /\
      (exists address,
          email = Some address /\ address <> EmptyString /\
          user_feedback_add document = None /\
          document = [ ("email", FieldText address);
                       ("feedback", FieldText feedback);
                       ("email_updates", FieldText email_updates);
                       ("language", FieldText language);
                       ("timestamp", ServerTimestamp) ])) /\
  (length (feedback_writes (fst run)) <= 1)%nat /\
  (email = Some EmptyString ->
   run = ([Display (StError (Text "Please enter your email earlier to save your feedback."))],
          FeedbackDone)) /\
  (email = None -> run = ([], NameError "email")) /\
  (forall address e,
      email = Some address -> address <> EmptyString ->
      user_feedback_add [ ("email", FieldText address);
                          ("feedback", FieldText feedback);
                          ("email_updates", FieldText email_updates);
                          ("language", FieldText language);
                          ("timestamp", ServerTimestamp) ] = Some e ->
      run = ([Display (StError (Text ("An error occurred while saving your feedback: " ++ e)))],
             FeedbackDone)).
Proof.
  intros run. unfold run, submit_feedback, save_feedback_to_database.
  split; [|split; [|split; [|split]]].
  - intros collection document.
    destruct email as [address|]; [|intros []].
    destruct (String.eqb_spec address EmptyString) as [->|Hne]; [intros []|].
    destruct (user_feedback_add _) eqn:Hadd; cbn; intros Hin; [contradiction|].
    destruct Hin as [Hin|[]]. injection Hin as <- <-.
    split; [reflexivity|]. exists address. repeat split; assumption.
  - destruct email as [address|]; [|cbn; lia].
    destruct (address =? EmptyString); [cbn; lia|].
    destruct (user_feedback_add _); cbn; lia.
  - intros ->. reflexivity.
  - intros ->. reflexivity.
  - intros address e -> Hne Hadd. apply String.eqb_neq in Hne.
    rewrite Hne, Hadd. reflexivity.
Qed.

Lemma feedback_written_once_or_refused_witness :
  submit_feedback (fun _ => Some "403 Missing or insufficient permissions.")
                  (Some "fan@example.com") "Yes" "No" "French" =
  ([Display (StError (Text
      "An error occurred while saving your feedback: 403 Missing or insufficient permissions."))],
   FeedbackDone) /\
  feedback_writes (fst (submit_feedback (fun _ => None) (Some "fan@example.com")
                                        "Yes" "No" "French")) =
  [ ("user_feedback",
     [ ("email", FieldText "fan@example.com"); ("feedback", FieldText "Yes");
       ("email_updates", FieldText "No"); ("language", FieldText "French");
       ("timestamp", ServerTimestamp) ]) ].
Proof.
  split; [|reflexivity].
  destruct (feedback_written_once_or_refused
              (fun _ => Some "403 Missing or insufficient permissions.")
              (Some "fan@example.com") "Yes" "No" "French") as (_ & _ & _ & _ & Hfault).
  apply (Hfault "fan@example.com"); [reflexivity | discriminate | reflexivity].
Defined.
